(** * a11y-robot: the issue detection and aggregation pipeline

    A shallow embedding of
    - [src/types/index.ts]                (module [Types]),
    - [src/analyzers/static-analyzer.ts]  (module [StaticAnalyzer]),
    - [src/analyzers/dynamic-analyzer.ts] (module [DynamicAnalyzer]),
    - [src/server/a11y-robot-server.ts]   (module [A11yRobotServer]),
    together with the small part of the JavaScript runtime and of the
    cheerio library these files rely on (modules [JS], [RegExp], [Cheerio]).

    Conventions.  A JavaScript string is a [string]: every [ascii] is one
    code unit, so the development covers the strings whose code units are
    below 256.  A JavaScript number that counts something is a [nat]; the
    result of [parseInt] is an [option nat] where [None] is NaN.  A call
    that may throw returns a [Result]: [Ok] with its value, or [Throw] with
    the message of the error. *)

From Stdlib Require Import List String Ascii Bool Arith ZArith Lia.
From Stdlib Require Import Permutation Sorted DecimalString DecimalNat.
Import ListNotations.

Open Scope string_scope.

(* ===================================================================== *)
(** ** The JavaScript runtime                                             *)
(* ===================================================================== *)

Module JS.

(** The double quote, which the analyzers splice into selectors and
    messages, and the line feed. *)
Definition dq : string := String (ascii_of_nat 34) EmptyString.
Definition nl : string := String (ascii_of_nat 10) EmptyString.

(** [String(n)] and [`${n}`] for a non-negative integer. *)
Definition ofNumber (n : nat) : string :=
  NilEmpty.string_of_uint (Nat.to_uint n).

(** [s.startsWith(p)] *)
Fixpoint startsWith (s p : string) : bool :=
  match p, s with
  | EmptyString, _ => true
  | String _ _, EmptyString => false
  | String c p', String d s' => Ascii.eqb c d && startsWith s' p'
  end.

(** [s.includes(sub)] *)
Fixpoint includes (s sub : string) : bool :=
  startsWith s sub
  || match s with
     | EmptyString => false
     | String _ s' => includes s' sub
     end.

(** [s.charAt(i)]: the empty string when [i] is out of range. *)
Definition charAt (s : string) (i : nat) : string :=
  match String.get i s with
  | Some c => String c EmptyString
  | None => EmptyString
  end.

(** [s.split('')]: the code units of [s]. *)
Definition splitChars (s : string) : list ascii := list_ascii_of_string s.

Definition isDigit (c : ascii) : bool :=
  let n := nat_of_ascii c in ((48 <=? n) && (n <=? 57))%nat.

(** [parseInt(s)] for a string of at most one code unit, the only use the
    analyzers make of it: a digit gives its value, anything else NaN. *)
Definition parseIntChar (s : string) : option nat :=
  match s with
  | String c EmptyString =>
      if isDigit c then Some (nat_of_ascii c - 48) else None
  | _ => None
  end.

(** [c.toLowerCase()] on one code unit below 256: the letters A-Z and the
    Latin-1 capitals (0xC0-0xDE but the multiplication sign). *)
Definition lowerChar (c : ascii) : ascii :=
  let n := nat_of_ascii c in
  if (((65 <=? n) && (n <=? 90))
      || ((192 <=? n) && (n <=? 222) && negb (n =? 215)))%nat
  then ascii_of_nat (n + 32) else c.

Fixpoint toLowerCase (s : string) : string :=
  match s with
  | EmptyString => EmptyString
  | String c s' => String (lowerChar c) (toLowerCase s')
  end.

(** [xs.join(sep)] *)
Fixpoint join (sep : string) (xs : list string) : string :=
  match xs with
  | [] => EmptyString
  | [x] => x
  | x :: rest => x ++ sep ++ join sep rest
  end.

(** [xs.find(p)] *)
Definition find {T} (p : T -> bool) (xs : list T) : option T := List.find p xs.

(** [xs.some(p)] *)
Definition some {T} (p : T -> bool) (xs : list T) : bool := existsb p xs.

(** Truthiness of a possibly undefined string: [undefined] and [''] are
    falsy. *)
Definition truthy (o : option string) : bool :=
  match o with
  | Some (String _ _) => true
  | _ => false
  end.

(** [xs.forEach((x, index) => ...)] and cheerio's [.each((index, x) => ...)]
    where the callback updates a state: the elements are visited in order
    with their index. *)
Fixpoint forEachFrom {T St} (body : nat -> T -> St -> St)
         (index : nat) (xs : list T) (st : St) : St :=
  match xs with
  | [] => st
  | x :: rest => forEachFrom body (S index) rest (body index x st)
  end.

Definition forEach {T St} (body : nat -> T -> St -> St) (xs : list T) (st : St) : St :=
  forEachFrom body 0 xs st.

(** [xs.sort(cmp)].  ECMAScript (2019 and later, hence every Node release
    the package admits, [>= 18]) requires the sort to be stable: with a
    consistent comparator the result is the one of any stable sorting
    algorithm.  The model is insertion sort, inserting from the right so
    that an element stays in front of the later elements it compares
    equal to. *)
Fixpoint sortInsert {T} (cmp : T -> T -> Z) (x : T) (sorted : list T) : list T :=
  match sorted with
  | [] => [x]
  | y :: rest =>
      if (cmp x y <=? 0)%Z then x :: y :: rest
      else y :: sortInsert cmp x rest
  end.

Fixpoint sort {T} (cmp : T -> T -> Z) (xs : list T) : list T :=
  match xs with
  | [] => []
  | x :: rest => sortInsert cmp x (sort cmp rest)
  end.

End JS.

(* ===================================================================== *)
(** ** src/types/index.ts                                                 *)
(* ===================================================================== *)

Module Types.

Inductive Severity := Critical | Serious | Moderate | Minor.
Inductive WcagLevel := LevelA | LevelAA | LevelAAA.
Inductive Source := Static | Dynamic.

Record AccessibilityIssue := {
  id : string;
  rule : string;
  severity : Severity;
  wcagLevel : WcagLevel;
  wcagCriterion : string;
  description : string;
  helpText : string;
  wcagUrl : string;
  element : option string;
  selector : option string;
  file : option string;
  source : Source
}.
(* The optional [line] and [column] are never set by the analyzers and
   are left out. *)

Record Summary := {
  total : nat;
  critical : nat;
  serious : nat;
  moderate : nat;
  minor : nat
}.

Record AnalysisResult := {
  issues : list AccessibilityIssue;
  summary : Summary;
  analysisType : Source;
  timestamp : string;
  projectPath : option string;
  url : option string
}.

Definition Severity_eqb (a b : Severity) : bool :=
  match a, b with
  | Critical, Critical | Serious, Serious
  | Moderate, Moderate | Minor, Minor => true
  | _, _ => false
  end.

End Types.
Import Types.

(* ===================================================================== *)
(** ** Regular expressions                                                *)
(* ===================================================================== *)

(** The regular expressions of the analyzers are sequences of single
    characters, character classes, and greedy repetitions of a class, with
    an optional end anchor.  [exec] is the backtracking matcher of
    ECMAScript on this fragment: a repetition first takes as many characters
    as it can and gives them back one at a time when the rest fails. *)
Module RegExp.

Inductive Atom :=
| One (cls : ascii -> bool)        (* a character or a class *)
| Star (cls : ascii -> bool)       (* cls*, greedy *)
| AtEnd.                           (* $ without the m flag *)

Definition Pattern := list Atom.

Definition chr (c : ascii) : ascii -> bool := Ascii.eqb c.
Definition notChr (c : ascii) : ascii -> bool := fun d => negb (Ascii.eqb c d).

(** [\s] on code units below 256: TAB, LF, VT, FF, CR, space and the
    no-break space. *)
Definition space (c : ascii) : bool :=
  let n := nat_of_ascii c in
  (((9 <=? n) && (n <=? 13)) || (n =? 32) || (n =? 160))%nat.

(** [\d] *)
Definition digit : ascii -> bool := JS.isDigit.

(** A literal word, one atom per character. *)
Fixpoint lit (s : string) : Pattern :=
  match s with
  | EmptyString => []
  | String c s' => One (chr c) :: lit s'
  end.

(** cls+ *)
Definition plus (cls : ascii -> bool) : Pattern := [One cls; Star cls].

(** [matchHere p s]: the match of [p] at the start of [s], as the text
    taken by each atom, and the rest of [s]. *)
Fixpoint matchHere (p : Pattern) : string -> option (list string * string) :=
  match p with
  | [] => fun s => Some ([], s)
  | One cls :: p' => fun s =>
      match s with
      | String c s' =>
          if cls c then
            match matchHere p' s' with
            | Some (groups, rest) => Some (String c EmptyString :: groups, rest)
            | None => None
            end
          else None
      | EmptyString => None
      end
  | Star cls :: p' =>
      fix star (s : string) : option (list string * string) :=
        let stop :=
          match matchHere p' s with
          | Some (groups, rest) => Some (EmptyString :: groups, rest)
          | None => None
          end in
        match s with
        | String c s' =>
            if cls c then
              match star s' with
              | Some (g :: groups, rest) => Some (String c g :: groups, rest)
              | _ => stop
              end
            else stop
        | EmptyString => stop
        end
  | AtEnd :: p' => fun s =>
      match s with
      | EmptyString =>
          match matchHere p' s with
          | Some (groups, rest) => Some (EmptyString :: groups, rest)
          | None => None
          end
      | String _ _ => None
      end
  end.

(** The whole text of a match. *)
Definition matched (groups : list string) : string :=
  fold_right String.append EmptyString groups.

(** [s.match(/p/)] without the g flag: the leftmost match, as the texts of
    its atoms, or [None] for [null]. *)
Fixpoint exec (p : Pattern) (s : string) : option (list string) :=
  match matchHere p s with
  | Some (groups, _) => Some groups
  | None =>
      match s with
      | EmptyString => None
      | String _ s' => exec p s'
      end
  end.

(** [/^p/.exec(s)]: a match at the start only. *)
Definition execAnchored (p : Pattern) (s : string) : option (list string) :=
  match matchHere p s with
  | Some (groups, _) => Some groups
  | None => None
  end.

(** The matches of [/p/g], left to right without overlap: after a match
    the search resumes where it ended ([skip] counts the characters of
    the match still to pass), after an empty match one character on. *)
Fixpoint scan (p : Pattern) (skip : nat) (s : string) : list string :=
  match skip with
  | S k =>
      match s with
      | EmptyString => []
      | String _ s' => scan p k s'
      end
  | O =>
      match matchHere p s with
      | Some (groups, _) =>
          let m := matched groups in
          m :: match s with
               | EmptyString => []
               | String _ s' => scan p (String.length m - 1) s'
               end
      | None =>
          match s with
          | EmptyString => []
          | String _ s' => scan p 0 s'
          end
      end
  end.

(** [s.match(/p/g)]: every match, or [null] when there is none. *)
Definition matchAll (p : Pattern) (s : string) : option (list string) :=
  match scan p 0 s with
  | [] => None
  | ms => Some ms
  end.

End RegExp.

(* ===================================================================== *)
(** ** Exceptions                                                         *)
(* ===================================================================== *)

(** The outcome of a call that may throw [new Error(message)]. *)
Inductive Result (T : Type) :=
| Ok (value : T)
| Throw (message : string).
Arguments Ok {T} value.
Arguments Throw {T} message.

Definition bind {T U} (r : Result T) (k : T -> Result U) : Result U :=
  match r with
  | Ok v => k v
  | Throw m => Throw m
  end.

Notation "'let*' x ':=' r 'in' k" := (bind r (fun x => k))
  (at level 10, x pattern, r at level 100, k at level 200).

(** [try { body } catch (error) { throw new Error(prefix + error.message) }] *)
Definition rethrow {T} (prefix : string) (body : Result T) : Result T :=
  match body with
  | Ok v => Ok v
  | Throw m => Throw (prefix ++ m)
  end.

(* ===================================================================== *)
(** ** cheerio                                                            *)
(* ===================================================================== *)

(** What the static analyzer sees of a parsed document.  Its selectors look
    at one element at a time (tag name and attributes), and a selection
    lists the matching elements in document order, so a document is the
    sequence of its elements in that order. *)
Module Cheerio.

Record Element := {
  tagName : string;                     (* lower case in a parsed document *)
  attribs : list (string * string)
}.

Definition Document := list Element.

(** [$(element).attr(name)]: [None] is [undefined]. *)
Fixpoint lookup (name : string) (attrs : list (string * string)) : option string :=
  match attrs with
  | [] => None
  | (k, v) :: rest => if String.eqb k name then Some v else lookup name rest
  end.

Definition attr (e : Element) (name : string) : option string :=
  lookup name (attribs e).

Definition isOneOf (names : list string) (s : string) : bool :=
  existsb (String.eqb s) names.

(** [$('t1, t2, ...')]: the elements with one of the tag names. *)
Definition byTag (names : list string) (doc : Document) : list Element :=
  filter (fun e => isOneOf names (tagName e)) doc.

(** An element matched by [input[type="t"]] for one of the [types]; the
    engine compares the value of [type] without regard to case. *)
Definition isInputOfType (types : list string) (e : Element) : bool :=
  String.eqb (tagName e) "input"
  && match attr e "type" with
     | Some t => isOneOf types (JS.toLowerCase t)
     | None => false
     end.

End Cheerio.

(* ===================================================================== *)
(** ** What the analyzers ask of their environment                        *)
(* ===================================================================== *)

Module Axe.

(** A node of a violation reported by the injected auditor. *)
Record Node := {
  html : string;
  target : list string
}.

Record Violation := {
  id : string;
  impact : string;
  tags : list string;
  description : string;
  help : string;
  helpUrl : string;
  nodes : list Node
}.

(** The value of [axe.run()]; [violations] may be missing. *)
Record Results := {
  violations : option (list Violation)
}.

End Axe.

Record StaticAnalysisOptions := {
  sa_projectPath : string;
  sa_includePatterns : option (list string);
  sa_excludePatterns : option (list string)
}.

Record DynamicAnalysisOptions := {
  da_url : string;
  da_pages : option (list string);
  da_waitForSelector : option string;
  da_timeout : option nat
}.

Record ReportGenerationOptions := {
  outputPath : string;
  title : option string;
  includeWcagLinks : option bool
}.

(** The collaborators that are not part of the verified core: the file
    system and glob, the HTML parser and the selection engine for selectors
    assembled at run time, the clock, the browser with its auditor, and the
    report renderer. *)
Record Host := {
  (* glob(pattern, {cwd, absolute: true, ignore}) *)
  glob : string -> string -> list string -> Result (list string);
  (* path.relative(projectPath, filePath) *)
  relative : string -> string -> string;
  (* path.extname(filePath).toLowerCase() *)
  extname : string -> string;
  (* fs.readFile(filePath, 'utf8') *)
  readFile : string -> Result string;
  (* cheerio.load(content) *)
  load : string -> Cheerio.Document;
  (* $(selector) for a selector built from the document's own text; the
     engine throws on a selector it cannot parse *)
  select : Cheerio.Document -> string -> Result (list Cheerio.Element);
  (* new Date().toISOString() when the call is made: a host is the world
     at one time, and calls made at different times are told with
     different hosts *)
  now : string;
  (* launching the browser and creating its context *)
  launch : Result unit;
  (* loading one page and running the auditor on it *)
  audit : DynamicAnalysisOptions -> string -> Result Axe.Results;
  (* reportGenerator.generate(result, options): the path of the report *)
  generate : AnalysisResult -> ReportGenerationOptions -> Result string
}.

(* ===================================================================== *)
(** ** src/analyzers/static-analyzer.ts                                   *)
(* ===================================================================== *)

Module StaticAnalyzer.
Import JS.

Definition defaultIncludePatterns := ["**/*.ts"; "**/*.html"; "**/*.scss"; "**/*.css"].
Definition defaultExcludePatterns :=
  ["node_modules/**"; "dist/**"; "**/*.spec.ts"; "**/*.test.ts"].

(** [[...new Set(allFiles)]]: the first occurrence of each path, in order. *)
Fixpoint dedupe (seen xs : list string) : list string :=
  match xs with
  | [] => []
  | x :: rest =>
      if existsb (String.eqb x) seen then dedupe seen rest
      else x :: dedupe (x :: seen) rest
  end.

(** The issue pushed for the image at [index] (lines 101-114). *)
Definition imgAltIssue (index : nat) (src : option string) (filePath : string)
  : AccessibilityIssue :=
  {| id := "img-alt-" ++ ofNumber index;
     rule := "Images must have alt attributes";
     severity := Serious;
     wcagLevel := LevelA;
     wcagCriterion := "1.1.1";
     description := "Image elements must have an alt attribute to provide alternative text for screen readers.";
     helpText := "Add an alt attribute that describes the image content or use alt="
                 ++ dq ++ dq ++ " for decorative images.";
     wcagUrl := "https://www.w3.org/TR/WCAG20/#text-equiv-all";
     element := Some (match src with
                      | Some (String c s) =>
                          "<img src=" ++ dq ++ String c s ++ dq ++ ">"
                      | _ => "<img>"
                      end);
     selector := Some "img";
     file := Some filePath;
     source := Static |}.

(** The issue pushed for the form control at [index] (lines 133-146). *)
Definition inputLabelIssue (index : nat) (type filePath : string)
  : AccessibilityIssue :=
  {| id := "input-label-" ++ ofNumber index;
     rule := "Form inputs must have labels";
     severity := Serious;
     wcagLevel := LevelA;
     wcagCriterion := "1.3.1";
     description := "Form input elements must have associated labels to be accessible to screen readers.";
     helpText := "Add a <label> element with a " ++ dq ++ "for" ++ dq
                 ++ " attribute matching the input's id, or use aria-label or aria-labelledby.";
     wcagUrl := "https://www.w3.org/TR/WCAG20/#content-structure-separation-programmatic";
     element := Some ("<" ++ type ++ ">");
     selector := Some type;
     file := Some filePath;
     source := Static |}.

(** The issue pushed for the heading at [index] (lines 159-172). *)
Definition headingIssue (index previousLevel currentLevel : nat)
           (tagName filePath : string) : AccessibilityIssue :=
  {| id := "heading-hierarchy-" ++ ofNumber index;
     rule := "Heading levels should not be skipped";
     severity := Moderate;
     wcagLevel := LevelAA;
     wcagCriterion := "1.3.1";
     description := "Heading levels should be used in sequential order without skipping levels.";
     helpText := "Use h" ++ ofNumber (previousLevel + 1) ++ " instead of h"
                 ++ ofNumber currentLevel ++ " to maintain proper heading hierarchy.";
     wcagUrl := "https://www.w3.org/TR/WCAG20/#content-structure-separation-programmatic";
     element := Some ("<" ++ tagName ++ ">");
     selector := Some tagName;
     file := Some filePath;
     source := Static |}.

Definition textInputTypes := ["text"; "email"; "password"; "number"; "tel"; "url"].

(** The selector of line 119. *)
Definition isFormControl (e : Cheerio.Element) : bool :=
  Cheerio.isInputOfType textInputTypes e
  || Cheerio.isOneOf ["textarea"; "select"] (Cheerio.tagName e).

Definition headingTags := ["h1"; "h2"; "h3"; "h4"; "h5"; "h6"].

(** [calculateSummary] (lines 253-280): one pass over the issues, the
    [switch] incrementing the counter of the issue's severity. *)
Definition countIssue (s : Summary) (issue : AccessibilityIssue) : Summary :=
  match severity issue with
  | Critical => {| total := total s; critical := S (critical s);
                   serious := serious s; moderate := moderate s; minor := minor s |}
  | Serious => {| total := total s; critical := critical s;
                  serious := S (serious s); moderate := moderate s; minor := minor s |}
  | Moderate => {| total := total s; critical := critical s;
                   serious := serious s; moderate := S (moderate s); minor := minor s |}
  | Minor => {| total := total s; critical := critical s;
                serious := serious s; moderate := moderate s; minor := S (minor s) |}
  end.

Definition calculateSummary (issues : list AccessibilityIssue) : Summary :=
  fold_left countIssue issues
    {| total := List.length issues; critical := 0; serious := 0;
       moderate := 0; minor := 0 |}.

(** The image check (lines 94-116): the callback of [$('img').each]. *)
Definition imageCheck (filePath : string) (index : nat) (element : Cheerio.Element)
           (issues : list AccessibilityIssue) : list AccessibilityIssue :=
  let alt := Cheerio.attr element "alt" in
  let src := Cheerio.attr element "src" in
  match alt with
  | None => (issues ++ [imgAltIssue index src filePath])%list
  | Some _ => issues
  end.

(** The heading check (lines 154-176): the callback of [headings.forEach],
    on the pair of [previousLevel] and [issues].  A comparison with NaN
    is false. *)
Definition headingCheck (filePath : string) (index : nat) (element : Cheerio.Element)
           (st : option nat * list AccessibilityIssue)
  : option nat * list AccessibilityIssue :=
  let '(previousLevel, issues) := st in
  let tagName := toLowerCase (Cheerio.tagName element) in
  let currentLevel := parseIntChar (charAt tagName 1) in
  let issues :=
    match currentLevel, previousLevel with
    | Some cur, Some prev =>
        if (prev + 1 <? cur)%nat
        then (issues ++ [headingIssue index prev cur tagName filePath])%list
        else issues
    | _, _ => issues
    end in
  (currentLevel, issues).

Section WithHost.
Variable host : Host.

(** The form-control check (lines 119-148): the callback of the second
    [.each], which stops at the first exception of the engine. *)
Definition labelCheck (doc : Cheerio.Document) (filePath : string)
           (index : nat) (element : Cheerio.Element)
           (st : Result (list AccessibilityIssue))
  : Result (list AccessibilityIssue) :=
  let* issues := st in
  let id := Cheerio.attr element "id" in
  let ariaLabel := Cheerio.attr element "aria-label" in
  let ariaLabelledby := Cheerio.attr element "aria-labelledby" in
  let type :=
    match Cheerio.attr element "type" with
    | Some (String c t) => String c t
    | _ =>
        match toLowerCase (Cheerio.tagName element) with
        | String c t => String c t
        | EmptyString => "input"
        end
    end in
  let* hasLabel :=
    match id with
    | Some (String c i) =>
        let* labels :=
          select host doc ("label[for=" ++ dq ++ String c i ++ dq ++ "]") in
        Ok (0 <? List.length labels)%nat
    | _ => Ok false
    end in
  if negb hasLabel && negb (truthy ariaLabel) && negb (truthy ariaLabelledby)
  then Ok (issues ++ [inputLabelIssue index type filePath])%list
  else Ok issues.

(** [analyzeHtmlTemplate] after [cheerio.load] (lines 94-178). *)
Definition analyzeDocument (doc : Cheerio.Document) (filePath : string)
  : Result (list AccessibilityIssue) :=
  let issues := [] in
  let issues := forEach (imageCheck filePath) (Cheerio.byTag ["img"] doc) issues in
  let* issues :=
    forEach (labelCheck doc filePath) (filter isFormControl doc) (Ok issues) in
  let headings := Cheerio.byTag headingTags doc in
  let previousLevel := Some 0 in
  let '(_, issues) :=
    forEach (headingCheck filePath) headings (previousLevel, issues) in
  Ok issues.

Definition analyzeHtmlTemplate (content filePath : string)
  : Result (list AccessibilityIssue) :=
  analyzeDocument (load host content) filePath.

(** The pattern of line 187: the word template, spaces, a colon, spaces,
    then a backtick-quoted text free of backticks, which is the capture:
    the text of the atom at index [templateCapture]. *)
Definition templatePattern : RegExp.Pattern :=
  (RegExp.lit "template"
   ++ [RegExp.Star RegExp.space; RegExp.One (RegExp.chr ":");
       RegExp.Star RegExp.space; RegExp.One (RegExp.chr "`");
       RegExp.Star (RegExp.notChr "`"); RegExp.One (RegExp.chr "`")])%list.

Definition templateCapture : nat := String.length "template" + 4.

(** The pattern of line 195: a star, ngFor, the equals sign and a
    double-quoted text free of double quotes. *)
Definition ngForPattern : RegExp.Pattern :=
  (RegExp.lit "*ngFor="
   ++ [RegExp.One (RegExp.chr (ascii_of_nat 34));
       RegExp.Star (RegExp.notChr (ascii_of_nat 34));
       RegExp.One (RegExp.chr (ascii_of_nat 34))])%list.

(** The pattern of line 228: outline, spaces, a colon, spaces, none. *)
Definition outlineNonePattern : RegExp.Pattern :=
  (RegExp.lit "outline"
   ++ [RegExp.Star RegExp.space; RegExp.One (RegExp.chr ":");
       RegExp.Star RegExp.space]
   ++ RegExp.lit "none")%list.

Definition isAngularComponent (content : string) : bool :=
  includes content "@Component" || includes content "templateUrl"
  || includes content "styleUrls".

(** The issue pushed for the [*ngFor] match at [index] (lines 199-211). *)
Definition ngForIssue (index : nat) (matchText filePath : string)
  : AccessibilityIssue :=
  {| id := "ngfor-trackby-" ++ ofNumber index;
     rule := "*ngFor should use trackBy for performance and accessibility";
     severity := Minor;
     wcagLevel := LevelAA;
     wcagCriterion := "2.4.3";
     description := "Using trackBy in *ngFor helps screen readers maintain context when list items change.";
     helpText := "Add trackBy function to *ngFor directive to improve performance and accessibility.";
     wcagUrl := "https://www.w3.org/TR/WCAG20/#navigation-mechanisms-focus-order";
     element := Some matchText;
     selector := None;
     file := Some filePath;
     source := Static |}.

Definition ngForCheck (filePath : string) (index : nat) (matchText : string)
           (issues : list AccessibilityIssue) : list AccessibilityIssue :=
  if negb (includes matchText "trackBy")
  then (issues ++ [ngForIssue index matchText filePath])%list
  else issues.

Definition analyzeTypeScriptFile (content filePath : string)
  : Result (list AccessibilityIssue) :=
  let issues := [] in
  if isAngularComponent content then
    let* issues :=
      match RegExp.exec templatePattern content with
      | Some templateMatch =>
          let templateContent := nth templateCapture templateMatch "" in
          let* templateIssues := analyzeHtmlTemplate templateContent filePath in
          Ok (issues ++ templateIssues)%list
      | None => Ok issues
      end in
    match RegExp.matchAll ngForPattern content with
    | Some ngForMatches => Ok (forEach (ngForCheck filePath) ngForMatches issues)
    | None => Ok issues
    end
  else Ok issues.

(** The single issue of a stylesheet (lines 230-242). *)
Definition outlineNoneIssue (filePath : string) : AccessibilityIssue :=
  {| id := "outline-none-focus";
     rule := "Do not remove focus indicators without replacement";
     severity := Serious;
     wcagLevel := LevelAA;
     wcagCriterion := "2.4.7";
     description := "Removing focus indicators without providing alternative focus styles makes it difficult for keyboard users to navigate.";
     helpText := "If you remove the default outline, provide alternative focus styles using :focus or :focus-visible.";
     wcagUrl := "https://www.w3.org/TR/WCAG20/#navigation-mechanisms-focus-visible";
     element := Some "outline: none";
     selector := None;
     file := Some filePath;
     source := Static |}.

Definition focusSelectors := [":focus"; ":focus-visible"; ":focus-within"].

Definition analyzeCssFile (content filePath : string) : list AccessibilityIssue :=
  let issues := [] in
  let hasFocusStyles := some (fun selector => includes content selector) focusSelectors in
  if negb hasFocusStyles && includes content "outline" then
    match RegExp.matchAll outlineNonePattern content with
    | Some outlineNoneMatches => (issues ++ [outlineNoneIssue filePath])%list
    | None => issues
    end
  else issues.

(** [analyzeFile]: any exception of the body is caught and gives no
    issue. *)
Definition analyzeFile (filePath projectPath : string) : list AccessibilityIssue :=
  let body :=
    let relativePath := relative host projectPath filePath in
    let extension := extname host filePath in
    let* content := readFile host filePath in
    if String.eqb extension ".html" then analyzeHtmlTemplate content relativePath
    else if String.eqb extension ".ts" then analyzeTypeScriptFile content relativePath
    else if String.eqb extension ".scss" || String.eqb extension ".css"
         then Ok (analyzeCssFile content relativePath)
    else Ok [] in
  match body with
  | Ok issues => issues
  | Throw _ => []
  end.

Fixpoint globAll (projectPath : string) (includePatterns excludePatterns : list string)
  : Result (list string) :=
  match includePatterns with
  | [] => Ok []
  | pattern :: rest =>
      let* files := glob host pattern projectPath excludePatterns in
      let* more := globAll projectPath rest excludePatterns in
      Ok (files ++ more)%list
  end.

Definition findFiles (projectPath : string) (includePatterns excludePatterns : list string)
  : Result (list string) :=
  let* allFiles := globAll projectPath includePatterns excludePatterns in
  Ok (dedupe [] allFiles).

(** [analyze]: the [catch] rethrows the error as it is. *)
Definition analyze (options : StaticAnalysisOptions) : Result AnalysisResult :=
  let includePatterns :=
    match sa_includePatterns options with
    | Some ps => ps
    | None => defaultIncludePatterns
    end in
  let excludePatterns :=
    match sa_excludePatterns options with
    | Some ps => ps
    | None => defaultExcludePatterns
    end in
  let* files := findFiles (sa_projectPath options) includePatterns excludePatterns in
  let allIssues :=
    flat_map (fun filePath => analyzeFile filePath (sa_projectPath options)) files in
  let summary := calculateSummary allIssues in
  Ok {| issues := allIssues;
        summary := summary;
        analysisType := Static;
        timestamp := now host;
        projectPath := Some (sa_projectPath options);
        url := None |}.

End WithHost.

End StaticAnalyzer.

(* ===================================================================== *)
(** ** src/analyzers/dynamic-analyzer.ts                                  *)
(* ===================================================================== *)

Module DynamicAnalyzer.
Import JS.

(** [mapAxeSeverity] (lines 177-185) *)
Definition mapAxeSeverity (impact : string) : Severity :=
  if String.eqb impact "critical" then Critical
  else if String.eqb impact "serious" then Serious
  else if String.eqb impact "moderate" then Moderate
  else if String.eqb impact "minor" then Minor
  else Minor.

Record WcagInfo := {
  level : WcagLevel;
  criterion : string
}.

(** The pattern of line 193: digits, a dot, digits, a dot, digits, from
    the start of the tag to its end. *)
Definition criterionPattern : RegExp.Pattern :=
  (RegExp.plus RegExp.digit ++ [RegExp.One (RegExp.chr ".")]
   ++ RegExp.plus RegExp.digit ++ [RegExp.One (RegExp.chr ".")]
   ++ RegExp.plus RegExp.digit ++ [RegExp.AtEnd])%list.

Definition isCriterion (tag : string) : bool :=
  match RegExp.execAnchored criterionPattern tag with
  | Some _ => true
  | None => false
  end.

(** [extractWcagInfo] (lines 187-202) *)
Definition extractWcagInfo (tags : list string) : WcagInfo :=
  let wcagTag := find (fun tag => startsWith tag "wcag") tags in
  match wcagTag with
  | Some wcagTag =>
      let parts := splitChars wcagTag in
      let level := List.length (filter (fun p => Ascii.eqb p "a") parts) in
      let criterion :=
        match find isCriterion tags with
        | Some tag => tag
        | None => "Unknown"
        end in
      {| level := if (level =? 1)%nat then LevelA
                  else if (level =? 2)%nat then LevelAA
                  else LevelAAA;
         criterion := criterion |}
  | None => {| level := LevelAA; criterion := "Unknown" |}
  end.

(** The issue pushed for node [nodeIndex] of violation [index]
    (lines 157-169). *)
Definition nodeIssue (violation : Axe.Violation) (index : nat)
           (severity : Severity) (wcagInfo : WcagInfo)
           (nodeIndex : nat) (node : Axe.Node) : AccessibilityIssue :=
  {| id := "axe-" ++ Axe.id violation ++ "-" ++ ofNumber index
           ++ "-" ++ ofNumber nodeIndex;
     rule := Axe.id violation;
     Types.severity := severity;
     wcagLevel := level wcagInfo;
     wcagCriterion := criterion wcagInfo;
     description := Axe.description violation;
     helpText := Axe.help violation;
     wcagUrl := Axe.helpUrl violation;
     element := Some (Axe.html node);
     selector := Some (join ", " (Axe.target node));
     file := None;
     source := Dynamic |}.

(** [convertAxeResults] (lines 147-175) *)
Definition convertAxeResults (axeResults : Axe.Results) (_url : string)
  : list AccessibilityIssue :=
  let issues := [] in
  match Axe.violations axeResults with
  | Some violations =>
      forEach
        (fun index violation issues =>
           let severity := mapAxeSeverity (Axe.impact violation) in
           let wcagInfo := extractWcagInfo (Axe.tags violation) in
           forEach
             (fun nodeIndex node issues =>
                (issues ++ [nodeIssue violation index severity wcagInfo nodeIndex node])%list)
             (Axe.nodes violation) issues)
        violations issues
  | None => issues
  end.

(** [calculateSummary] (lines 204-231), the same loop as the static
    analyzer's. *)
Definition countIssue (s : Summary) (issue : AccessibilityIssue) : Summary :=
  match severity issue with
  | Critical => {| total := total s; critical := S (critical s);
                   serious := serious s; moderate := moderate s; minor := minor s |}
  | Serious => {| total := total s; critical := critical s;
                  serious := S (serious s); moderate := moderate s; minor := minor s |}
  | Moderate => {| total := total s; critical := critical s;
                   serious := serious s; moderate := S (moderate s); minor := minor s |}
  | Minor => {| total := total s; critical := critical s;
                serious := serious s; moderate := moderate s; minor := S (minor s) |}
  end.

Definition calculateSummary (issues : list AccessibilityIssue) : Summary :=
  fold_left countIssue issues
    {| total := List.length issues; critical := 0; serious := 0;
       moderate := 0; minor := 0 |}.

Section WithHost.
Variable host : Host.

(** [analyzePage] once the context exists: whatever the page or the
    auditor throws is rethrown. *)
Definition analyzePage (url : string) (options : DynamicAnalysisOptions)
  : Result (list AccessibilityIssue) :=
  let* axeResults := audit host options url in
  Ok (convertAxeResults axeResults url).

(** The loop over the additional pages (lines 38-45): a page that fails
    is skipped. *)
Fixpoint analyzePages (pages : list string) (options : DynamicAnalysisOptions)
         (allIssues : list AccessibilityIssue) : list AccessibilityIssue :=
  match pages with
  | [] => allIssues
  | pageUrl :: rest =>
      match analyzePage pageUrl options with
      | Ok pageIssues => analyzePages rest options (allIssues ++ pageIssues)%list
      | Throw _ => analyzePages rest options allIssues
      end
  end.

(** [analyze] (lines 9-68): the [catch] rethrows the error as it is. *)
Definition analyze (options : DynamicAnalysisOptions) : Result AnalysisResult :=
  let* _ := launch host in
  let* mainPageIssues := analyzePage (da_url options) options in
  let allIssues := mainPageIssues in
  let allIssues :=
    match da_pages options with
    | Some (p :: ps) => analyzePages (p :: ps) options allIssues
    | _ => allIssues
    end in
  let summary := calculateSummary allIssues in
  Ok {| issues := allIssues;
        summary := summary;
        analysisType := Dynamic;
        timestamp := now host;
        projectPath := None;
        url := Some (da_url options) |}.

End WithHost.

End DynamicAnalyzer.

(* ===================================================================== *)
(** ** src/server/a11y-robot-server.ts                                    *)
(* ===================================================================== *)

Module A11yRobotServer.

(** [severityOrder] (line 114) *)
Definition severityOrder (s : Severity) : Z :=
  match s with
  | Critical => 0
  | Serious => 1
  | Moderate => 2
  | Minor => 3
  end.

(** The comparator of line 115. *)
Definition bySeverity (a b : AccessibilityIssue) : Z :=
  (severityOrder (severity a) - severityOrder (severity b))%Z.

(** [calculateSummary] (lines 221-229): four filters. *)
Definition calculateSummary (issues : list AccessibilityIssue) : Summary :=
  {| total := List.length issues;
     critical := List.length (filter (fun i => Severity_eqb (severity i) Critical) issues);
     serious := List.length (filter (fun i => Severity_eqb (severity i) Serious) issues);
     moderate := List.length (filter (fun i => Severity_eqb (severity i) Moderate) issues);
     minor := List.length (filter (fun i => Severity_eqb (severity i) Minor) issues) |}.

(** The text of a tool response: the [text] of each content item. *)
Definition Response := list string.

Section WithHost.
Variable host : Host.

(** [formatAnalysisSummary] (lines 185-209) renders a result as Markdown
    with pictographs; the rendering plays no part in what is verified
    and is left open. *)
Variable formatAnalysisSummary : AnalysisResult -> string.

(** The server keeps the results of the analyses it ran. *)
Record Server := {
  analysisResults : list AnalysisResult
}.

Definition newServer : Server := {| analysisResults := [] |}.

(** [analyzeStaticAccessibility] (lines 29-62); the log collector the
    analyzer ignores stays empty. *)
Definition analyzeStaticAccessibility (this : Server) (options : StaticAnalysisOptions)
  : Result Response * Server :=
  match StaticAnalyzer.analyze host options with
  | Ok result =>
      let this' := {| analysisResults := analysisResults this ++ [result] |} in
      let summary := formatAnalysisSummary result in
      let logCollector := [] in
      (Ok [summary; "# Detailed Analysis Log" ++ JS.nl ++ JS.nl ++ JS.join JS.nl logCollector],
       this')
  | Throw m => (Throw ("Static analysis failed: " ++ m), this)
  end.

(** [analyzeDynamicAccessibility] (lines 64-92) *)
Definition analyzeDynamicAccessibility (this : Server) (options : DynamicAnalysisOptions)
  : Result Response * Server :=
  match DynamicAnalyzer.analyze host options with
  | Ok result =>
      let this' := {| analysisResults := analysisResults this ++ [result] |} in
      let summary := formatAnalysisSummary result in
      (Ok [summary], this')
  | Throw m => (Throw ("Dynamic analysis failed: " ++ m), this)
  end.

(** Lines 107-122 of [generateAccessibilityReport]: the issues of every
    kept result, concatenated and sorted, with a fresh summary. *)
Definition combinedResult (results : list AnalysisResult) : AnalysisResult :=
  let allIssues := flat_map issues results in
  let allIssues := JS.sort bySeverity allIssues in
  {| issues := allIssues;
     summary := calculateSummary allIssues;
     analysisType := Static;
     timestamp := now host;
     projectPath := None;
     url := None |}.

(** [generateAccessibilityReport] (lines 94-140) *)
Definition generateAccessibilityReport (this : Server) (options : ReportGenerationOptions)
  : Result Response :=
  rethrow "Report generation failed: "
    (if (List.length (analysisResults this) =? 0)%nat then
       Throw "No analysis results available. Please run static or dynamic analysis first."
     else
       let combinedResult := combinedResult (analysisResults this) in
       let* reportPath := generate host combinedResult options in
       Ok ["Accessibility report generated successfully!" ++ JS.nl ++ JS.nl
           ++ "Report saved to: " ++ reportPath ++ JS.nl ++ JS.nl
           ++ "Summary:" ++ JS.nl ++ formatAnalysisSummary combinedResult]).

End WithHost.

End A11yRobotServer.

(* ===================================================================== *)
(** ** The vocabulary of the specification                                *)
(* ===================================================================== *)

Import JS.

Definition severitySum (s : Summary) : nat :=
  critical s + serious s + moderate s + minor s.

(** A summary agrees with an issue list: the total is the length of the
    list and the four severity counts add up to the total. *)
Definition summaryOf (s : Summary) (l : list AccessibilityIssue) : Prop :=
  total s = List.length l
  /\ critical s + serious s + moderate s + minor s = total s.

(** The results the system produces: by a static analysis, by a dynamic
    analysis, or as the combined result of a report generation, which is
    built only when some result has been kept. *)
Inductive Produced (host : Host) : AnalysisResult -> Prop :=
| by_static options r :
    StaticAnalyzer.analyze host options = Ok r -> Produced host r
| by_dynamic options r :
    DynamicAnalyzer.analyze host options = Ok r -> Produced host r
| by_report results :
    (List.length results =? 0)%nat = false ->
    Produced host (A11yRobotServer.combinedResult host results).

Definition hasSeverity (s : Severity) (i : AccessibilityIssue) : bool :=
  Severity_eqb (severity i) s.

(** Ascending severity rank. *)
Definition rankLe (a b : AccessibilityIssue) : Prop :=
  (A11yRobotServer.severityOrder (severity a)
   <= A11yRobotServer.severityOrder (severity b))%Z.

(** The level the specification assigns to a number of level tokens. *)
Definition levelOfTokenCount (n : nat) : option WcagLevel :=
  match n with
  | 0 => None
  | 1 => Some LevelA
  | 2 => Some LevelAA
  | _ => Some LevelAAA
  end.

(** The occurrences of the letter a in a text. *)
Definition countA (s : string) : nat :=
  count_occ ascii_dec (list_ascii_of_string s) "a"%char.

(** The level of a heading tag name. *)
Definition levelOfTag (tagName : string) : nat :=
  if String.eqb tagName "h1" then 1
  else if String.eqb tagName "h2" then 2
  else if String.eqb tagName "h3" then 3
  else if String.eqb tagName "h4" then 4
  else if String.eqb tagName "h5" then 5
  else if String.eqb tagName "h6" then 6
  else 0.

(** The level the heading check compares the heading at [i] with: the level
    of the heading just before it, and 0 for the first heading. *)
Definition previousAt (start : nat) (levels : list nat) (i : nat) : nat :=
  match i with
  | 0 => start
  | S j => nth j levels 0
  end.

Definition precedingLevel (levels : list nat) (i : nat) : nat :=
  previousAt 0 levels i.

Definition skipsLevel (levels : list nat) (i : nat) : bool :=
  (precedingLevel levels i + 1 <? nth i levels 0)%nat.

(** The reading under which the first heading is a baseline that is never
    flagged. *)
Definition skipsLevelAfterBaseline (levels : list nat) (i : nat) : bool :=
  match i with
  | 0 => false
  | S j => (nth j levels 0 + 1 <? nth i levels 0)%nat
  end.

Definition isHeadingIssue (i : AccessibilityIssue) : bool :=
  String.eqb (rule i) "Heading levels should not be skipped".

Definition isImageIssue (i : AccessibilityIssue) : bool :=
  String.eqb (rule i) "Images must have alt attributes".

Definition hasId (s : string) (i : AccessibilityIssue) : bool :=
  String.eqb (id i) s.

(** What the image at [index] contributes: one issue when it has no [alt]
    attribute, nothing when it has one, empty or not. *)
Definition issuesOfImage (filePath : string) (index : nat) (image : Cheerio.Element)
  : list AccessibilityIssue :=
  match Cheerio.attr image "alt" with
  | None => [StaticAnalyzer.imgAltIssue index (Cheerio.attr image "src") filePath]
  | Some _ => []
  end.

(** The heading check told over the tag names: from index [k] on, with
    [previous] the level met last. *)
Fixpoint headingTrace (filePath : string) (k previous : nat) (tags : list string)
  : list AccessibilityIssue :=
  match tags with
  | [] => []
  | t :: rest =>
      ((if (previous + 1 <? levelOfTag t)%nat
        then [StaticAnalyzer.headingIssue k previous (levelOfTag t) t filePath]
        else [])
       ++ headingTrace filePath (S k) (levelOfTag t) rest)%list
  end.

(** The issue of the heading at [i] of the [tags]. *)
Definition issueOfHeading (filePath : string) (tags : list string) (i : nat)
  : AccessibilityIssue :=
  let levels := map levelOfTag tags in
  StaticAnalyzer.headingIssue i (precedingLevel levels i) (nth i levels 0)
    (nth i tags "") filePath.

(** The indices of the headings that skip a level. *)
Definition skippingHeadings (levels : list nat) : list nat :=
  filter (skipsLevel levels) (seq 0 (List.length levels)).

(** The issues the heading check adds (lines 150-176), which starts from
    level 0. *)
Definition headingPass (filePath : string) (headings : list Cheerio.Element)
  : list AccessibilityIssue :=
  snd (forEach (StaticAnalyzer.headingCheck filePath) headings (Some 0, [])).

(** The heading check reports, by their index, the headings that [skips]
    selects among the levels of the document's headings. *)
Definition headingsFlaggedBy (skips : list nat -> nat -> bool)
           (doc : Cheerio.Document) (filePath : string) : Prop :=
  let headings := Cheerio.byTag StaticAnalyzer.headingTags doc in
  let levels := map levelOfTag (map Cheerio.tagName headings) in
  map id (headingPass filePath headings)
  = map (fun i => "heading-hierarchy-" ++ ofNumber i)
        (filter (skips levels) (seq 0 (List.length levels))).

(** The issues the image check adds (lines 94-116). *)
Definition imagePass (filePath : string) (images : list Cheerio.Element)
  : list AccessibilityIssue :=
  forEach (StaticAnalyzer.imageCheck filePath) images [].

(** [content] contains [sub]. *)
Definition contains (content sub : string) : Prop :=
  exists before after, content = before ++ sub ++ after.

(** A text made of characters of one class only. *)
Fixpoint allOf (cls : ascii -> bool) (s : string) : bool :=
  match s with
  | EmptyString => true
  | String c s' => cls c && allOf cls s'
  end.

(** A text made of white space only. *)
Definition allSpace (s : string) : bool := allOf RegExp.space s.

(** [p] matches at the start of [s]. *)
Definition matchesAt (p : RegExp.Pattern) (s : string) : Prop :=
  RegExp.matchHere p s <> None.

(** One of the focus-state selectors occurs in [content]. *)
Definition hasFocusSelector (content : string) : Prop :=
  contains content ":focus" \/ contains content ":focus-visible"
  \/ contains content ":focus-within".

(** [content] has an occurrence of outline, white space, a colon, white
    space, none. *)
Definition hasOutlineNone (content : string) : Prop :=
  exists before ws1 ws2 after,
    content = before ++ "outline" ++ ws1 ++ ":" ++ ws2 ++ "none" ++ after
    /\ allSpace ws1 = true /\ allSpace ws2 = true.

(* ===================================================================== *)
(** ** Sample inputs                                                      *)
(* ===================================================================== *)

Module Sample.

Definition el (tagName : string) (attribs : list (string * string)) : Cheerio.Element :=
  {| Cheerio.tagName := tagName; Cheerio.attribs := attribs |}.

(** The selection of [label[for="id"]] for an [id] of letters and digits:
    the labels whose [for] is [id]. *)
Definition selectLabels (doc : Cheerio.Document) (selector : string)
  : Result (list Cheerio.Element) :=
  Ok (filter
        (fun e =>
           String.eqb (Cheerio.tagName e) "label"
           && match Cheerio.attr e "for" with
              | Some f => String.eqb selector ("label[for=" ++ dq ++ f ++ dq ++ "]")
              | None => false
              end)
        doc).

(** <html><head></head><body><h2>Overview</h2></body></html> *)
Definition onlyH2 : Cheerio.Document :=
  [el "html" []; el "head" []; el "body" []; el "h2" []].

(** A page with the headings h1, h2, h4, one image without [alt] and
    one with an empty [alt]. *)
Definition page124 : Cheerio.Document :=
  [el "html" []; el "head" []; el "body" [];
   el "h1" []; el "img" [("src", "logo.png")];
   el "h2" []; el "img" [("src", "rule.png"); ("alt", "")];
   el "h4" []].

(** A page with the headings h1, h3, h5. *)
Definition page135 : Cheerio.Document :=
  [el "html" []; el "head" []; el "body" [];
   el "h1" []; el "h3" []; el "h5" []].

Definition violation (impact : string) (tags : list string) : Axe.Violation :=
  {| Axe.id := "color-contrast";
     Axe.impact := impact;
     Axe.tags := tags;
     Axe.description := "Elements must have sufficient color contrast";
     Axe.help := "Ensure the contrast between foreground and background colors";
     Axe.helpUrl := "https://dequeuniversity.com/rules/axe/4.8/color-contrast";
     Axe.nodes := [ {| Axe.html := "<p>"; Axe.target := ["p"] |} ] |}.

Definition axeResults : Axe.Results :=
  {| Axe.violations := Some [violation "blocker" ["cat.color"; "wcag2aa"; "wcag143"]] |}.

Definition host : Host :=
  {| glob := fun pattern _ _ =>
       Ok (if String.eqb pattern "**/*.html" then ["/app/src/index.html"] else []);
     relative := fun _ _ => "src/index.html";
     extname := fun _ => ".html";
     readFile := fun _ => Ok "<h1>A</h1><img src=logo.png><h2>B</h2><img src=rule.png alt><h4>C</h4>";
     load := fun _ => page124;
     select := selectLabels;
     now := "2024-01-01T00:00:00.000Z";
     launch := Ok tt;
     audit := fun _ _ => Ok axeResults;
     generate := fun _ options => Ok (outputPath options) |}.

Definition format (r : AnalysisResult) : string :=
  "Total Issues Found: " ++ ofNumber (total (summary r)).

Definition staticOptions : StaticAnalysisOptions :=
  {| sa_projectPath := "/app"; sa_includePatterns := None; sa_excludePatterns := None |}.

Definition dynamicOptions : DynamicAnalysisOptions :=
  {| da_url := "http://localhost:4200"; da_pages := None;
     da_waitForSelector := None; da_timeout := None |}.

Definition reportOptions : ReportGenerationOptions :=
  {| outputPath := "report.html"; title := None; includeWcagLinks := None |}.

(** Two kept results: a static one with a moderate, a serious and a
    second moderate issue, and a dynamic one with a critical issue. *)
Definition kept : list AnalysisResult :=
  [ {| issues := [StaticAnalyzer.headingIssue 1 1 3 "h3" "a.html";
                  StaticAnalyzer.outlineNoneIssue "a.css";
                  StaticAnalyzer.headingIssue 2 3 5 "h5" "a.html"];
       summary := {| total := 3; critical := 0; serious := 1;
                     moderate := 2; minor := 0 |};
       analysisType := Static;
       timestamp := "2024-01-01T00:00:00.000Z";
       projectPath := Some "/app"; url := None |};
    {| issues := [DynamicAnalyzer.nodeIssue (violation "critical" ["wcag2a"]) 0
                    Critical {| DynamicAnalyzer.level := LevelAA;
                                DynamicAnalyzer.criterion := "Unknown" |}
                    0 {| Axe.html := "<p>"; Axe.target := ["p"] |}];
       summary := {| total := 1; critical := 1; serious := 0;
                     moderate := 0; minor := 0 |};
       analysisType := Dynamic;
       timestamp := "2024-01-01T00:00:01.000Z";
       projectPath := None; url := Some "http://localhost:4200" |} ].

(** A stylesheet that removes the outline twice and styles no focus
    state. *)
Definition twoOutlines : string :=
  "a { outline: none; } button { outline : none; }".

End Sample.

(* ===================================================================== *)
(** ** More of the JavaScript runtime                                     *)
(* ===================================================================== *)

Module JSText.

(** White space as [trim] sees it, on code units below 256. *)
Definition isSpace : ascii -> bool := RegExp.space.

(** [s.trimStart()] *)
Fixpoint trimStart (s : string) : string :=
  match s with
  | EmptyString => EmptyString
  | String c s' => if isSpace c then trimStart s' else s
  end.

(** [s.trimEnd()] *)
Fixpoint trimEnd (s : string) : string :=
  match s with
  | EmptyString => EmptyString
  | String c s' =>
      match trimEnd s' with
      | EmptyString => if isSpace c then EmptyString else String c EmptyString
      | t => String c t
      end
  end.

(** [s.trim()] *)
Definition trim (s : string) : string := trimEnd (trimStart s).

(** [s.replace(/\./g, '-')] *)
Fixpoint dotsToDashes (s : string) : string :=
  match s with
  | EmptyString => EmptyString
  | String c s' =>
      String (if Ascii.eqb c "." then "-"%char else c) (dotsToDashes s')
  end.

(** The dot of a pattern without the s flag: any code unit but LF and
    CR. *)
Definition anyChar (c : ascii) : bool :=
  negb ((nat_of_ascii c =? 10)%nat || (nat_of_ascii c =? 13)%nat).

(** The text a run of atoms took: the atoms from [from] on, [count] of
    them. *)
Definition capture (from count : nat) (groups : list string) : string :=
  RegExp.matched (firstn count (skipn from groups)).

End JSText.

(* ===================================================================== *)
(** ** The guideline service (the second part of src/utils/logger.ts)     *)
(* ===================================================================== *)

(** The package is an ES module (package.json: type module) and the
    service binds the file-system library with a namespace import.  The
    namespace of that CommonJS library holds the names its entry file
    exports by name, [pathExists] among them, but neither [readJson] nor
    [writeJson], which the library attaches to an object it exports
    whole: in the service both are [undefined], and calling them throws a
    type error inside the [try] that surrounds each call. *)

Module WcagService.
Import JS JSText.

Record WcagGuideline := {
  id : string;
  level : string;
  title : string;
  description : string;
  techniques : list string;
  url : string
}.

Record WcagQueryOptions := {
  q_criterion : option string;
  q_level : option string
}.

Record WcagCache := {
  c_guidelines : list WcagGuideline;
  c_timestamp : string
}.

(** What the selectors yield on the fetched page: for every element of
    class guideline the text of its first h3, the text of its first p, and
    for every element of class sc in it the text of its first h4, of its
    first p and of its elements of class technique. *)
Record ScBlock := {
  sc_h4 : string;
  sc_p : string;
  sc_techniques : list string
}.

Record GuidelineBlock := {
  g_h3 : string;
  g_p : string;
  g_sc : list ScBlock
}.

(** The cache file on disk. *)
Inductive CacheFile :=
| Absent
| Unreadable
| Stored (cache : WcagCache).

(** The world at the time of a call: the clock, the parsing of dates, the
    network, and the parser with its selectors. *)
Record World := {
  dateNow : Z;                                  (* Date.now() *)
  toISOString : string;                         (* new Date().toISOString() *)
  getTime : string -> option Z;                 (* new Date(s).getTime(); None is NaN *)
  httpGet : string -> Result string;            (* axios.get(url), its data *)
  guidelineBlocks : string -> list GuidelineBlock
}.

Record Service := {
  guidelines : list WcagGuideline;
  cacheLoaded : bool
}.

Definition wcagUrl : string := "https://www.w3.org/TR/WCAG20/".
Definition cacheMaxAge : Z := 24 * 60 * 60 * 1000.

Definition newService : Service := {| guidelines := []; cacheLoaded := false |}.

(** [fs.pathExists(cacheFile)] *)
Definition pathExists (disk : CacheFile) : bool :=
  match disk with
  | Absent => false
  | _ => true
  end.

(** [fs.readJson(cacheFile)] and [fs.writeJson(cacheFile, data)]: the
    calls of an undefined name, whatever the file holds. *)
Definition readJson (disk : CacheFile) : Result WcagCache :=
  Throw "fs.readJson is not a function".

Definition writeJson (disk : CacheFile) (data : WcagCache)
  : Result unit * CacheFile :=
  (Throw "fs.writeJson is not a function", disk).

(** [getDefaultGuidelines] (lines 242-309) *)
Definition getDefaultGuidelines : list WcagGuideline :=
  [ {| id := "1.1.1"; title := "Non-text Content"; level := "A";
       description := "All non-text content that is presented to the user has a text alternative that serves the equivalent purpose.";
       techniques := ["H37"; "H36"; "H35"; "H53"];
       url := "https://www.w3.org/TR/WCAG20/#text-equiv-all" |};
    {| id := "1.3.1"; title := "Info and Relationships"; level := "A";
       description := "Information, structure, and relationships conveyed through presentation can be programmatically determined.";
       techniques := ["H44"; "H65"; "H71"; "H85"];
       url := "https://www.w3.org/TR/WCAG20/#content-structure-separation-programmatic" |};
    {| id := "1.4.3"; title := "Contrast (Minimum)"; level := "AA";
       description := "The visual presentation of text has a contrast ratio of at least 4.5:1.";
       techniques := ["G18"; "G145"; "G174"];
       url := "https://www.w3.org/TR/WCAG20/#visual-audio-contrast-contrast" |};
    {| id := "2.1.1"; title := "Keyboard"; level := "A";
       description := "All functionality is available from a keyboard.";
       techniques := ["G202"; "H91"];
       url := "https://www.w3.org/TR/WCAG20/#keyboard-operation-keyboard-operable" |};
    {| id := "2.4.1"; title := "Bypass Blocks"; level := "A";
       description := "A mechanism is available to bypass blocks of content that are repeated on multiple Web pages.";
       techniques := ["G1"; "G123"; "G124"];
       url := "https://www.w3.org/TR/WCAG20/#navigation-mechanisms-skip" |};
    {| id := "3.1.1"; title := "Language of Page"; level := "A";
       description := "The default human language of each Web page can be programmatically determined.";
       techniques := ["H57"];
       url := "https://www.w3.org/TR/WCAG20/#meaning-doc-lang-id" |};
    {| id := "4.1.1"; title := "Parsing"; level := "A";
       description := "Content implemented using markup languages has elements with complete start and end tags.";
       techniques := ["G134"; "G192"; "H88"];
       url := "https://www.w3.org/TR/WCAG20/#ensure-compat-parses" |};
    {| id := "4.1.2"; title := "Name, Role, Value"; level := "A";
       description := "For all user interface components, the name and role can be programmatically determined.";
       techniques := ["G135"; "H91"];
       url := "https://www.w3.org/TR/WCAG20/#ensure-compat-rsv" |} ].

(** The pattern of line 171: from the start, a number, a dot and a number
    (the first capture), white space, and one character or more up to the
    end (the second capture). *)
Definition headerPattern : RegExp.Pattern :=
  (RegExp.plus RegExp.digit ++ [RegExp.One (RegExp.chr ".")]
   ++ RegExp.plus RegExp.digit
   ++ RegExp.plus RegExp.space
   ++ RegExp.plus anyChar
   ++ [RegExp.AtEnd])%list.

(** The pattern of line 186: from the start, three numbers separated by
    dots (the first capture), white space, one character or more (the
    second capture), white space, an opening parenthesis and the word
    Level, white space, one letter A or more (the third capture) and a
    closing parenthesis at the end. *)
Definition criterionHeaderPattern : RegExp.Pattern :=
  (RegExp.plus RegExp.digit ++ [RegExp.One (RegExp.chr ".")]
   ++ RegExp.plus RegExp.digit ++ [RegExp.One (RegExp.chr ".")]
   ++ RegExp.plus RegExp.digit
   ++ RegExp.plus RegExp.space
   ++ RegExp.plus anyChar
   ++ RegExp.plus RegExp.space
   ++ RegExp.lit "(Level"
   ++ RegExp.plus RegExp.space
   ++ RegExp.plus (RegExp.chr "A")
   ++ [RegExp.One (RegExp.chr ")"); RegExp.AtEnd])%list.

(** The techniques of a success criterion (lines 197-203): the trimmed
    texts that are not empty. *)
Definition techniquesOf (texts : list string) : list string :=
  forEach
    (fun _k techElement techniques =>
       let techText := trim techElement in
       if truthy (Some techText) then (techniques ++ [techText])%list else techniques)
    texts [].

(** The callback of the inner [.each] (lines 183-213). *)
Definition criterionCheck (_j : nat) (sc : ScBlock) (successCriteria : list WcagGuideline)
  : list WcagGuideline :=
  match RegExp.execAnchored criterionHeaderPattern (sc_h4 sc) with
  | None => successCriteria
  | Some scIdMatch =>
      let scId := capture 0 8 scIdMatch in
      let scTitle := capture 10 2 scIdMatch in
      let scLevel := capture 22 2 scIdMatch in
      let scDescription := trim (sc_p sc) in
      let techniques := techniquesOf (sc_techniques sc) in
      (successCriteria
       ++ [ {| id := scId; title := scTitle; level := scLevel;
               description := scDescription; techniques := techniques;
               url := wcagUrl ++ "#" ++ dotsToDashes scId |} ])%list
  end.

(** The callback of the outer [.each] (lines 166-227). *)
Definition guidelineCheck (_i : nat) (block : GuidelineBlock) (guidelines : list WcagGuideline)
  : list WcagGuideline :=
  match RegExp.execAnchored headerPattern (g_h3 block) with
  | None => guidelines
  | Some idMatch =>
      let id := capture 0 5 idMatch in
      let title := capture 7 2 idMatch in
      let description := trim (g_p block) in
      let successCriteria := forEach criterionCheck (g_sc block) [] in
      let guidelines :=
        (guidelines
         ++ [ {| WcagService.id := id; WcagService.title := title; level := "A";
                 WcagService.description := description; techniques := [];
                 url := wcagUrl ++ "#" ++ dotsToDashes id |} ])%list in
      (guidelines ++ successCriteria)%list
  end.

(** [fetchGuidelinesFromWeb] (lines 153-240): any failure gives the
    default guidelines. *)
Definition fetchGuidelinesFromWeb (world : World) : list WcagGuideline :=
  match httpGet world wcagUrl with
  | Ok data =>
      let guidelines := forEach guidelineCheck (guidelineBlocks world data) [] in
      if (List.length guidelines =? 0)%nat
      then (guidelines ++ getDefaultGuidelines)%list
      else guidelines
  | Throw _ => getDefaultGuidelines
  end.

(** [saveToCache] (lines 139-151): a failure to write is swallowed. *)
Definition saveToCache (world : World) (this : Service) (disk : CacheFile) : CacheFile :=
  let cacheData := {| c_guidelines := guidelines this;
                      c_timestamp := toISOString world |} in
  snd (writeJson disk cacheData).

(** [cacheAge > this.cacheMaxAge], false when the age is NaN. *)
Definition expired (world : World) (timestamp : string) : bool :=
  match getTime world timestamp with
  | Some t => (cacheMaxAge <? dateNow world - t)%Z
  | None => false
  end.

(** [loadFromCache] (lines 116-137): whether the cache was taken, and the
    service after it. *)
Definition loadFromCache (world : World) (this : Service) (disk : CacheFile)
  : bool * Service :=
  if negb (pathExists disk) then (false, this)
  else
    match readJson disk with
    | Throw _ => (false, this)
    | Ok cacheData =>
        if expired world (c_timestamp cacheData) then (false, this)
        else (true, {| guidelines := c_guidelines cacheData;
                       cacheLoaded := cacheLoaded this |})
    end.

(** [loadGuidelines] (lines 89-114); nothing in its body throws, so the
    rethrowing [catch] is never entered. *)
Definition loadGuidelines (world : World) (this : Service) (disk : CacheFile)
  : Service * CacheFile :=
  if cacheLoaded this then (this, disk)
  else
    let '(taken, this) := loadFromCache world this disk in
    if taken then
      ({| guidelines := guidelines this; cacheLoaded := true |}, disk)
    else
      let this := {| guidelines := fetchGuidelinesFromWeb world;
                     cacheLoaded := cacheLoaded this |} in
      let disk := saveToCache world this disk in
      ({| guidelines := guidelines this; cacheLoaded := true |}, disk).

(** The filter of lines 69-73. *)
Definition mentions (criterion : string) (g : WcagGuideline) : bool :=
  includes (toLowerCase (id g)) (toLowerCase criterion)
  || includes (toLowerCase (title g)) (toLowerCase criterion)
  || includes (toLowerCase (description g)) (toLowerCase criterion).

(** [getGuidelines] (lines 61-87) *)
Definition getGuidelines (world : World) (this : Service) (disk : CacheFile)
           (options : WcagQueryOptions)
  : list WcagGuideline * Service * CacheFile :=
  let '(this, disk) := loadGuidelines world this disk in
  let filteredGuidelines := guidelines this in
  let filteredGuidelines :=
    match q_criterion options with
    | Some (String c s) => filter (mentions (String c s)) filteredGuidelines
    | _ => filteredGuidelines
    end in
  let filteredGuidelines :=
    match q_level options with
    | Some (String c s) =>
        filter (fun g => String.eqb (level g) (String c s)) filteredGuidelines
    | _ => filteredGuidelines
    end in
  (filteredGuidelines, this, disk).

(** [getWcagGuidelines] of the server (src/server/a11y-robot-server.ts,
    lines 142-183): the guidelines as one Markdown text. *)
Definition guidelineText (response : string) (guideline : WcagGuideline) : string :=
  let response :=
    response ++ "## " ++ id guideline ++ " - " ++ title guideline
    ++ " (Level " ++ level guideline ++ ")" ++ nl ++ nl in
  let response :=
    response ++ "**Description:** " ++ description guideline ++ nl ++ nl in
  let response := response ++ "**URL:** " ++ url guideline ++ nl ++ nl in
  let response :=
    if (0 <? List.length (techniques guideline))%nat
    then response ++ "**Techniques:** " ++ join ", " (techniques guideline) ++ nl ++ nl
    else response in
  response ++ "---" ++ nl ++ nl.

Definition getWcagGuidelines (world : World) (this : Service) (disk : CacheFile)
           (options : WcagQueryOptions)
  : list string * Service * CacheFile :=
  let '(guidelines, this, disk) := getGuidelines world this disk options in
  let response := "# WCAG 2.0 Guidelines" ++ nl ++ nl in
  let response :=
    if (List.length guidelines =? 0)%nat
    then response ++ "No guidelines found matching your criteria." ++ nl
    else fold_left guidelineText guidelines response in
  ([response], this, disk).

End WcagService.

(* ===================================================================== *)
(** ** The tool dispatch (the entry point, src/index.ts)                  *)
(* ===================================================================== *)

Module Index.

(** The two error codes the entry point uses. *)
Inductive ErrorCode := MethodNotFound | InternalError.

(** An [McpError] as it is constructed: its code and the message handed
    to the constructor. *)
Record McpError := {
  code : ErrorCode;
  reason : string
}.

(** A value of the arguments as a tool meets it: absent, a string, or a
    value of another kind (a number, a boolean, null, an array, an
    object), of which only the truth value matters to the code. *)
Inductive Value :=
| Missing
| Text (s : string)
| Other (truthy : bool).

Definition isTruthy (v : Value) : bool :=
  match v with
  | Missing => false
  | Text s => JS.truthy (Some s)
  | Other b => b
  end.

(** The arguments of the guideline tool, which nothing validates. *)
Record Query := {
  criterion : Value;
  level : Value
}.

(** The arguments of a call, which every tool reads as its own options
    ([args as any]).  The options of the analyses and of the report are
    taken well typed: these tools keep a result only after their analysis
    has returned, and whatever ill-typed options make them throw is
    thrown inside their [try]. *)
Record Arguments := {
  asStatic : StaticAnalysisOptions;
  asDynamic : DynamicAnalysisOptions;
  asReport : ReportGenerationOptions;
  asQuery : Query
}.


(** The text of the guideline tool (a11y-robot-server.ts, lines
    153-167). *)
Definition responseText (guidelines : list WcagService.WcagGuideline) : string :=
  let response := "# WCAG 2.0 Guidelines" ++ JS.nl ++ JS.nl in
  if (List.length guidelines =? 0)%nat
  then response ++ "No guidelines found matching your criteria." ++ JS.nl
  else fold_left WcagService.guidelineText guidelines response.

Section WithHost.
Variable host : Host.
Variable formatAnalysisSummary : AnalysisResult -> string.

(** The [message] property the SDK gives an [McpError] built from a code
    and a message. *)
Variable mcpMessage : ErrorCode -> string -> string.

(** The message of the type error the engine raises when [toLowerCase]
    is called on a value that has no such method. *)
Variable notAFunction : string.

(** The one [A11yRobotServer] of the process (line 24): the results it
    keeps and its guideline service. *)
Record Robot := {
  server : A11yRobotServer.Server;
  wcagService : WcagService.Service
}.

Definition newRobot : Robot :=
  {| server := A11yRobotServer.newServer; wcagService := WcagService.newService |}.

(** [getGuidelines] of the service (logger.ts, lines 61-87) on options as
    they arrive.  The guidelines are loaded first.  A criterion that is
    true but no string makes the first call of the filter callback throw,
    and the [catch] throws the error again; a level that is true but no
    string is strictly equal to the level of no guideline. *)
Definition getGuidelines (world : WcagService.World) (this : WcagService.Service)
           (disk : WcagService.CacheFile) (options : Query)
  : Result (list WcagService.WcagGuideline) * WcagService.Service * WcagService.CacheFile :=
  let '(this, disk) := WcagService.loadGuidelines world this disk in
  let filteredGuidelines := WcagService.guidelines this in
  let body :=
    let* filteredGuidelines :=
      if isTruthy (criterion options) then
        match criterion options with
        | Text c => Ok (filter (WcagService.mentions c) filteredGuidelines)
        | _ =>
            match filteredGuidelines with
            | [] => Ok []
            | _ :: _ => Throw notAFunction
            end
        end
      else Ok filteredGuidelines in
    let filteredGuidelines :=
      if isTruthy (level options) then
        match level options with
        | Text l =>
            filter (fun g => String.eqb (WcagService.level g) l) filteredGuidelines
        | _ => filter (fun _ => false) filteredGuidelines
        end
      else filteredGuidelines in
    Ok filteredGuidelines in
  (body, this, disk).

(** [getWcagGuidelines] of the server (a11y-robot-server.ts, lines
    142-183), its [catch] included. *)
Definition getWcagGuidelines (world : WcagService.World) (this : WcagService.Service)
           (disk : WcagService.CacheFile) (options : Query)
  : Result A11yRobotServer.Response * WcagService.Service * WcagService.CacheFile :=
  let '(outcome, this, disk) := getGuidelines world this disk options in
  (rethrow "Failed to fetch WCAG guidelines: "
     (let* guidelines := outcome in Ok [responseText guidelines]),
   this, disk).

(** The [switch] of lines 137-155: the outcome, the robot and the cache
    file after it. *)
Definition dispatch (world : WcagService.World) (a11yRobot : Robot)
           (disk : WcagService.CacheFile) (name : string) (args : Arguments)
  : Result A11yRobotServer.Response * Robot * WcagService.CacheFile :=
  if String.eqb name "analyze_static_accessibility" then
    let '(response, server') :=
      A11yRobotServer.analyzeStaticAccessibility host formatAnalysisSummary
        (server a11yRobot) (asStatic args) in
    (response, {| server := server'; wcagService := wcagService a11yRobot |}, disk)
  else if String.eqb name "analyze_dynamic_accessibility" then
    let '(response, server') :=
      A11yRobotServer.analyzeDynamicAccessibility host formatAnalysisSummary
        (server a11yRobot) (asDynamic args) in
    (response, {| server := server'; wcagService := wcagService a11yRobot |}, disk)
  else if String.eqb name "generate_accessibility_report" then
    (A11yRobotServer.generateAccessibilityReport host formatAnalysisSummary
       (server a11yRobot) (asReport args),
     a11yRobot, disk)
  else if String.eqb name "get_wcag_guidelines" then
    let '(response, service', disk') :=
      getWcagGuidelines world (wcagService a11yRobot) disk (asQuery args) in
    (response, {| server := server a11yRobot; wcagService := service' |}, disk')
  else
    (Throw (mcpMessage MethodNotFound ("Unknown tool: " ++ name)), a11yRobot, disk).

(** The handler of tool calls (lines 133-163): whatever is thrown inside
    the [try], the error of the default case included, is thrown again as
    an internal error. *)
Definition callTool (world : WcagService.World) (a11yRobot : Robot)
           (disk : WcagService.CacheFile) (name : string) (args : Arguments)
  : (A11yRobotServer.Response + McpError) * Robot * WcagService.CacheFile :=
  let '(outcome, a11yRobot', disk') := dispatch world a11yRobot disk name args in
  match outcome with
  | Ok response => (inl response, a11yRobot', disk')
  | Throw message =>
      (inr {| code := InternalError;
              reason := "Failed to execute tool " ++ name ++ ": " ++ message |},
       a11yRobot', disk')
  end.

End WithHost.

End Index.

(* ===================================================================== *)
(** ** The rule table (src/rules/index.ts)                                *)
(* ===================================================================== *)

(** A [Map] with string keys: [set] replaces the value of a key that is
    present and adds a key that is not at the end. *)
Module JSMap.

Definition Map (V : Type) := list (string * V).

Fixpoint set {V} (key : string) (value : V) (m : Map V) : Map V :=
  match m with
  | [] => [(key, value)]
  | (k, v) :: rest =>
      if String.eqb k key then (k, value) :: rest else (k, v) :: set key value rest
  end.

Fixpoint get {V} (key : string) (m : Map V) : option V :=
  match m with
  | [] => None
  | (k, v) :: rest => if String.eqb k key then Some v else get key rest
  end.

End JSMap.

Module Rules.
Import JS.

(** What the checks read of the element they are given, and of the
    document: whether [querySelector] finds a label for an id. *)
Record DomElement := {
  tagName : string;
  attributes : list (string * string);
  type : string;
  elementId : string;
  textContent : option string;
  tabIndex : Z
}.

Definition Document := string -> bool.

Definition hasAttribute (element : DomElement) (name : string) : bool :=
  match Cheerio.lookup name (attributes element) with
  | Some _ => true
  | None => false
  end.

Definition getAttribute (element : DomElement) (name : string) : option string :=
  Cheerio.lookup name (attributes element).

(** [element.textContent?.trim()] as a condition. *)
Definition hasText (element : DomElement) : bool :=
  match textContent element with
  | Some text => truthy (Some (JSText.trim text))
  | None => false
  end.

Record AccessibilityRule := {
  id : string;
  name : string;
  description : string;
  wcagCriterion : string;
  wcagLevel : WcagLevel;
  severity : Severity;
  category : string;
  check : DomElement -> Document -> bool;
  message : string;
  helpUrl : string
}.

Definition includesName (names : list string) (s : string) : bool :=
  existsb (String.eqb s) names.

(** [htmlRules] (lines 4-73) *)
Definition htmlRules : list AccessibilityRule :=
  [ {| id := "img-alt";
       name := "Images must have alt attributes";
       description := "All img elements must have an alt attribute to provide alternative text for screen readers.";
       wcagCriterion := "1.1.1";
       wcagLevel := LevelA;
       severity := Serious;
       category := "html";
       check := fun element _ =>
         String.eqb (tagName element) "IMG" && hasAttribute element "alt";
       message := "Add an alt attribute that describes the image content or use alt="
                  ++ dq ++ dq ++ " for decorative images.";
       helpUrl := "https://www.w3.org/TR/WCAG20/#text-equiv-all" |};
    {| id := "form-labels";
       name := "Form inputs must have labels";
       description := "All form input elements must have associated labels to be accessible to screen readers.";
       wcagCriterion := "1.3.1";
       wcagLevel := LevelA;
       severity := Serious;
       category := "html";
       check := fun element document =>
         let inputTypes := ["text"; "email"; "password"; "number"; "tel"; "url"] in
         if String.eqb (tagName element) "INPUT" && includesName inputTypes (type element)
         then hasAttribute element "aria-label"
              || hasAttribute element "aria-labelledby"
              || (truthy (Some (elementId element)) && document (elementId element))
         else true;
       message := "Add a <label> element with a " ++ dq ++ "for" ++ dq
                  ++ " attribute matching the input's id, or use aria-label or aria-labelledby.";
       helpUrl := "https://www.w3.org/TR/WCAG20/#content-structure-separation-programmatic" |};
    {| id := "button-name";
       name := "Buttons must have accessible names";
       description := "All button elements must have accessible names for screen readers.";
       wcagCriterion := "4.1.2";
       wcagLevel := LevelA;
       severity := Serious;
       category := "html";
       check := fun element _ =>
         if String.eqb (tagName element) "BUTTON"
         then hasText element
              || hasAttribute element "aria-label"
              || hasAttribute element "aria-labelledby"
         else true;
       message := "Add text content to the button or use aria-label or aria-labelledby attributes.";
       helpUrl := "https://www.w3.org/TR/WCAG20/#ensure-compat-rsv" |};
    {| id := "heading-hierarchy";
       name := "Heading levels should not be skipped";
       description := "Heading levels should be used in sequential order without skipping levels.";
       wcagCriterion := "1.3.1";
       wcagLevel := LevelAA;
       severity := Moderate;
       category := "semantic";
       check := fun _ _ => true;
       message := "Use headings in sequential order (h1, h2, h3, etc.) without skipping levels.";
       helpUrl := "https://www.w3.org/TR/WCAG20/#content-structure-separation-programmatic" |} ].

(** [ariaRules] (lines 76-118) *)
Definition ariaRules : list AccessibilityRule :=
  [ {| id := "aria-labels";
       name := "Elements with ARIA roles must have accessible names";
       description := "Elements with ARIA roles must have accessible names when required.";
       wcagCriterion := "4.1.2";
       wcagLevel := LevelA;
       severity := Serious;
       category := "aria";
       check := fun element _ =>
         let role := getAttribute element "role" in
         match role with
         | Some (String c s) =>
             let rolesRequiringNames :=
               ["button"; "link"; "menuitem"; "option"; "tab"; "treeitem"] in
             if includesName rolesRequiringNames (String c s)
             then hasText element
                  || hasAttribute element "aria-label"
                  || hasAttribute element "aria-labelledby"
             else true
         | _ => true
         end;
       message := "Elements with interactive ARIA roles must have accessible names.";
       helpUrl := "https://www.w3.org/TR/WCAG20/#ensure-compat-rsv" |};
    {| id := "aria-expanded";
       name := "Expandable elements should have aria-expanded";
       description := "Elements that can be expanded or collapsed should have aria-expanded attribute.";
       wcagCriterion := "4.1.2";
       wcagLevel := LevelA;
       severity := Moderate;
       category := "aria";
       check := fun element _ =>
         let role := getAttribute element "role" in
         if match role with
            | Some r => String.eqb r "button"
            | None => false
            end
            && truthy (getAttribute element "aria-controls")
         then hasAttribute element "aria-expanded"
         else true;
       message := "Add aria-expanded attribute to indicate the expanded/collapsed state.";
       helpUrl := "https://www.w3.org/TR/WCAG20/#ensure-compat-rsv" |} ].

(** [angularRules] (lines 121-152) *)
Definition angularRules : list AccessibilityRule :=
  [ {| id := "ngfor-trackby";
       name := "*ngFor should use trackBy for accessibility";
       description := "Using trackBy in *ngFor helps screen readers maintain context when list items change.";
       wcagCriterion := "2.4.3";
       wcagLevel := LevelAA;
       severity := Minor;
       category := "angular";
       check := fun _ _ => true;
       message := "Add trackBy function to *ngFor directive to improve performance and accessibility.";
       helpUrl := "https://www.w3.org/TR/WCAG20/#navigation-mechanisms-focus-order" |};
    {| id := "angular-focus-management";
       name := "Angular components should manage focus appropriately";
       description := "Angular components that show/hide content should manage focus for screen readers.";
       wcagCriterion := "2.4.3";
       wcagLevel := LevelAA;
       severity := Moderate;
       category := "angular";
       check := fun _ _ => true;
       message := "Ensure focus is managed when dynamically showing/hiding content in Angular components.";
       helpUrl := "https://www.w3.org/TR/WCAG20/#navigation-mechanisms-focus-order" |} ].

(** [keyboardRules] (lines 155-189) *)
Definition keyboardRules : list AccessibilityRule :=
  [ {| id := "keyboard-focus";
       name := "Interactive elements must be keyboard accessible";
       description := "All interactive elements must be reachable and operable via keyboard.";
       wcagCriterion := "2.1.1";
       wcagLevel := LevelA;
       severity := Serious;
       category := "keyboard";
       check := fun element _ =>
         let interactiveElements := ["A"; "BUTTON"; "INPUT"; "SELECT"; "TEXTAREA"] in
         if includesName interactiveElements (tagName element)
         then negb (Z.eqb (tabIndex element) (-1)) || hasAttribute element "tabindex"
         else true;
       message := "Ensure interactive elements are keyboard accessible with proper tabindex values.";
       helpUrl := "https://www.w3.org/TR/WCAG20/#keyboard-operation-keyboard-operable" |};
    {| id := "focus-visible";
       name := "Focus indicators must be visible";
       description := "Interactive elements must have visible focus indicators for keyboard users.";
       wcagCriterion := "2.4.7";
       wcagLevel := LevelAA;
       severity := Serious;
       category := "keyboard";
       check := fun _ _ => true;
       message := "Provide visible focus styles using :focus or :focus-visible pseudo-classes.";
       helpUrl := "https://www.w3.org/TR/WCAG20/#navigation-mechanisms-focus-visible" |} ].

(** [colorRules] (lines 192-223) *)
Definition colorRules : list AccessibilityRule :=
  [ {| id := "color-contrast";
       name := "Text must have sufficient color contrast";
       description := "Text must have a contrast ratio of at least 4.5:1 against its background.";
       wcagCriterion := "1.4.3";
       wcagLevel := LevelAA;
       severity := Serious;
       category := "color";
       check := fun _ _ => true;
       message := "Ensure text has a contrast ratio of at least 4.5:1 against its background color.";
       helpUrl := "https://www.w3.org/TR/WCAG20/#visual-audio-contrast-contrast" |};
    {| id := "color-only-info";
       name := "Information should not be conveyed by color alone";
       description := "Information conveyed by color should also be available through other means.";
       wcagCriterion := "1.4.1";
       wcagLevel := LevelA;
       severity := Moderate;
       category := "color";
       check := fun _ _ => true;
       message := "Provide additional indicators (text, icons, patterns) beyond color to convey information.";
       helpUrl := "https://www.w3.org/TR/WCAG20/#visual-audio-contrast-without-color" |} ].

(** [allRules] (lines 226-232) *)
Definition allRules : list AccessibilityRule :=
  (htmlRules ++ ariaRules ++ angularRules ++ keyboardRules ++ colorRules)%list.

(** The registry built from a rule list (lines 235-238). *)
Definition registryOf (rules : list AccessibilityRule) : JSMap.Map AccessibilityRule :=
  forEach (fun _ rule registry => JSMap.set (id rule) rule registry) rules [].

Definition ruleRegistry : JSMap.Map AccessibilityRule := registryOf allRules.

(** [getRuleById] (lines 241-243) *)
Definition getRuleById (id : string) : option AccessibilityRule :=
  JSMap.get id ruleRegistry.

Definition WcagLevel_eqb (a b : WcagLevel) : bool :=
  match a, b with
  | LevelA, LevelA | LevelAA, LevelAA | LevelAAA, LevelAAA => true
  | _, _ => false
  end.

(** [getRulesByCategory], [getRulesByWcagLevel] and [getRulesBySeverity]
    (lines 246-258) *)
Definition getRulesByCategory (category' : string) : list AccessibilityRule :=
  filter (fun rule => String.eqb (category rule) category') allRules.

Definition getRulesByWcagLevel (level : WcagLevel) : list AccessibilityRule :=
  filter (fun rule => WcagLevel_eqb (wcagLevel rule) level) allRules.

Definition getRulesBySeverity (severity' : Severity) : list AccessibilityRule :=
  filter (fun rule => Severity_eqb (severity rule) severity') allRules.

End Rules.

(* ===================================================================== *)
(** ** Vocabulary for the further properties                              *)
(* ===================================================================== *)

(** The include and exclude patterns a static analysis runs with. *)
Definition includesOf (options : StaticAnalysisOptions) : list string :=
  match sa_includePatterns options with
  | Some ps => ps
  | None => StaticAnalyzer.defaultIncludePatterns
  end.

Definition excludesOf (options : StaticAnalysisOptions) : list string :=
  match sa_excludePatterns options with
  | Some ps => ps
  | None => StaticAnalyzer.defaultExcludePatterns
  end.

(** What one additional page contributes to a dynamic analysis: its
    issues, or nothing when the page fails. *)
Definition pageIssues (host : Host) (options : DynamicAnalysisOptions) (pageUrl : string)
  : list AccessibilityIssue :=
  match DynamicAnalyzer.analyzePage host pageUrl options with
  | Ok pageIssues => pageIssues
  | Throw _ => []
  end.

Definition additionalPages (options : DynamicAnalysisOptions) : list string :=
  match da_pages options with
  | Some pages => pages
  | None => []
  end.

(** What the violation at [index] contributes: one issue for each of its
    nodes. *)
Definition issuesOfViolation (index : nat) (violation : Axe.Violation)
  : list AccessibilityIssue :=
  map (fun p =>
         DynamicAnalyzer.nodeIssue violation index
           (DynamicAnalyzer.mapAxeSeverity (Axe.impact violation))
           (DynamicAnalyzer.extractWcagInfo (Axe.tags violation))
           (fst p) (snd p))
      (combine (seq 0 (List.length (Axe.nodes violation))) (Axe.nodes violation)).

Definition violationsOf (axeResults : Axe.Results) : list Axe.Violation :=
  match Axe.violations axeResults with
  | Some violations => violations
  | None => []
  end.

(** The summary whose counts are the sums of the counts of the summaries
    of [results]. *)
Definition summedSummary (results : list AnalysisResult) : Summary :=
  {| total := list_sum (map (fun r => total (summary r)) results);
     critical := list_sum (map (fun r => critical (summary r)) results);
     serious := list_sum (map (fun r => serious (summary r)) results);
     moderate := list_sum (map (fun r => moderate (summary r)) results);
     minor := list_sum (map (fun r => minor (summary r)) results) |}.

(** The text an atom of a pattern may take. *)
Definition atomTakes (a : RegExp.Atom) (text : string) : Prop :=
  match a with
  | RegExp.One cls => exists c, text = String c EmptyString /\ cls c = true
  | RegExp.Star cls => allOf cls text = true
  | RegExp.AtEnd => text = EmptyString
  end.

(** All the digits of a non-empty text. *)
Definition isNumber (s : string) : Prop :=
  s <> EmptyString /\ allOf RegExp.digit s = true.

(** A tag of three numbers separated by dots, such as 1.4.3. *)
Definition isDotted (tag : string) : Prop :=
  exists a b c, tag = a ++ "." ++ b ++ "." ++ c
                /\ isNumber a /\ isNumber b /\ isNumber c.

(** What the [*ngFor] matches of a component source contribute: an issue,
    numbered by the place of the match among all the matches, for each
    match that does not mention trackBy. *)
Definition ngForIssuesOf (content filePath : string) : list AccessibilityIssue :=
  flat_map (fun p =>
              if includes (snd p) "trackBy" then []
              else [StaticAnalyzer.ngForIssue (fst p) (snd p) filePath])
           (combine (seq 0 (List.length (RegExp.scan StaticAnalyzer.ngForPattern 0 content)))
                    (RegExp.scan StaticAnalyzer.ngForPattern 0 content)).

(** A text without the character [c]. *)
Definition without (c : ascii) (s : string) : Prop :=
  allOf (RegExp.notChr c) s = true.

(** What a query keeps: a guideline that mentions the criterion asked for,
    when one is asked for, and has the level asked for, when one is. *)
Definition answers (options : WcagService.WcagQueryOptions)
           (g : WcagService.WcagGuideline) : bool :=
  match WcagService.q_criterion options with
  | Some (String c s) => WcagService.mentions (String c s) g
  | _ => true
  end
  && match WcagService.q_level options with
     | Some (String c s) => String.eqb (WcagService.level g) (String c s)
     | _ => true
     end.

(** What one block of the fetched page contributes, and what one success
    criterion of a block does. *)
Definition blockGuidelines (block : WcagService.GuidelineBlock)
  : list WcagService.WcagGuideline :=
  WcagService.guidelineCheck 0 block [].

Definition criterionEntries (sc : WcagService.ScBlock)
  : list WcagService.WcagGuideline :=
  WcagService.criterionCheck 0 sc [].

(** A text with no white space at either end. *)
Definition tight (s : string) : Prop :=
  (forall c r, s = String c r -> JSText.isSpace c = false)
  /\ (forall r c, s = r ++ String c EmptyString -> JSText.isSpace c = false).

(** A text without line breaks. *)
Definition oneLine (s : string) : Prop := allOf JSText.anyChar s = true.

(** Two numbers separated by a dot, such as 1.4. *)
Definition isDottedPair (s : string) : Prop :=
  exists a b, s = a ++ "." ++ b /\ isNumber a /\ isNumber b.

(** The entries the scraper builds: a guideline, numbered n.n and given
    level A and no techniques, or a success criterion, numbered n.n.n with
    a level made of the letter A. *)
Definition scraped (g : WcagService.WcagGuideline) : Prop :=
  WcagService.url g
  = WcagService.wcagUrl ++ "#" ++ JSText.dotsToDashes (WcagService.id g)
  /\ WcagService.title g <> EmptyString
  /\ oneLine (WcagService.title g)
  /\ tight (WcagService.description g)
  /\ ((isDottedPair (WcagService.id g)
       /\ WcagService.level g = "A"
       /\ WcagService.techniques g = [])
      \/ (isDotted (WcagService.id g)
          /\ WcagService.level g <> EmptyString
          /\ allOf (RegExp.chr "A") (WcagService.level g) = true
          /\ Forall (fun t => t <> EmptyString /\ tight t)
                    (WcagService.techniques g))).

(** The Markdown of one guideline. *)
Definition entryText (g : WcagService.WcagGuideline) : string :=
  WcagService.guidelineText EmptyString g.

(** The entry of a guideline and of a success criterion. *)
Definition guidelineEntry (number title description : string)
  : WcagService.WcagGuideline :=
  {| WcagService.id := number;
     WcagService.title := title;
     WcagService.level := "A";
     WcagService.description := JSText.trim description;
     WcagService.techniques := [];
     WcagService.url := WcagService.wcagUrl ++ "#" ++ JSText.dotsToDashes number |}.

Definition criterionEntry (number title level : string) (sc : WcagService.ScBlock)
  : WcagService.WcagGuideline :=
  {| WcagService.id := number;
     WcagService.title := title;
     WcagService.level := level;
     WcagService.description := JSText.trim (WcagService.sc_p sc);
     WcagService.techniques := WcagService.techniquesOf (WcagService.sc_techniques sc);
     WcagService.url := WcagService.wcagUrl ++ "#" ++ JSText.dotsToDashes number |}.

(** A text that does not begin with a character of the class. *)
Definition beginsOutside (cls : ascii -> bool) (s : string) : Prop :=
  forall c r, s = String c r -> cls c = false.

(** Non-empty white space. *)
Definition isGap (s : string) : Prop :=
  s <> EmptyString /\ allSpace s = true.

(** The three results of a call of the guideline service: the guidelines
    returned, the service and the cache file after the call. *)
Definition returned {A B C} (out : A * B * C) : A := fst (fst out).
Definition serviceAfter {A B C} (out : A * B * C) : B := snd (fst out).
Definition diskAfter {A B C} (out : A * B * C) : C := snd out.

(** A service that holds [guidelines] and will not load again. *)
Definition loadedWith (guidelines : list WcagService.WcagGuideline) : WcagService.Service :=
  {| WcagService.guidelines := guidelines; WcagService.cacheLoaded := true |}.

(** A cache file that holds [guidelines] stored at [timestamp]. *)
Definition storedAt (timestamp : string) (guidelines : list WcagService.WcagGuideline)
  : WcagService.CacheFile :=
  WcagService.Stored {| WcagService.c_guidelines := guidelines;
                        WcagService.c_timestamp := timestamp |}.

(** The texts of a list, one after the other. *)
Definition concatenated (texts : list string) : string :=
  fold_right String.append EmptyString texts.

(** A query for [criterion] and [level]. *)
Definition queryFor (criterion level : option string) : WcagService.WcagQueryOptions :=
  {| WcagService.q_criterion := criterion; WcagService.q_level := level |}.

(** The robot after a tool call. *)
Definition robotAfter {A B C} (out : A * B * C) : B := snd (fst out).


(** A query whose values are strings or absent, as the guideline tool
    meets it. *)
Definition asValue (o : option string) : Index.Value :=
  match o with
  | Some s => Index.Text s
  | None => Index.Missing
  end.

Definition arrived (options : WcagService.WcagQueryOptions) : Index.Query :=
  {| Index.criterion := asValue (WcagService.q_criterion options);
     Index.level := asValue (WcagService.q_level options) |}.


(** A tool call as the process receives it: the host and the world at
    that time, the name of the tool and the arguments. *)
Definition Call : Type := Host * WcagService.World * string * Index.Arguments.

(** The process serving calls one after the other with its one robot. *)
Fixpoint session (format : AnalysisResult -> string)
         (mcpMessage : Index.ErrorCode -> string -> string) (notAFunction : string)
         (robot : Index.Robot) (disk : WcagService.CacheFile) (calls : list Call)
  : Index.Robot * WcagService.CacheFile :=
  match calls with
  | [] => (robot, disk)
  | (host, world, name, args) :: rest =>
      let out :=
        Index.callTool host format mcpMessage notAFunction world robot disk name args in
      session format mcpMessage notAFunction (robotAfter out) (diskAfter out) rest
  end.

(** The results a robot keeps. *)
Definition kept (robot : Index.Robot) : list AnalysisResult :=
  A11yRobotServer.analysisResults (Index.server robot).

(** What a call adds to the kept results: the result of its analysis,
    when it is the call of an analysis that succeeds. *)
Definition resultsOf (call : Call) : list AnalysisResult :=
  let '(host, _, name, args) := call in
  if String.eqb name "analyze_static_accessibility" then
    match StaticAnalyzer.analyze host (Index.asStatic args) with
    | Ok r => [r]
    | Throw _ => []
    end
  else if String.eqb name "analyze_dynamic_accessibility" then
    match DynamicAnalyzer.analyze host (Index.asDynamic args) with
    | Ok r => [r]
    | Throw _ => []
    end
  else [].

(** A result of a static or of a dynamic analysis. *)
Definition Analyzed (r : AnalysisResult) : Prop :=
  (exists host options, StaticAnalyzer.analyze host options = Ok r)
  \/ (exists host options, DynamicAnalyzer.analyze host options = Ok r).

(** The issues the static checks build. *)
Definition staticKind (i : AccessibilityIssue) : Prop :=
  (exists index src filePath, i = StaticAnalyzer.imgAltIssue index src filePath)
  \/ (exists index type filePath, i = StaticAnalyzer.inputLabelIssue index type filePath)
  \/ (exists index previous current tag filePath,
         i = StaticAnalyzer.headingIssue index previous current tag filePath)
  \/ (exists index text filePath, i = StaticAnalyzer.ngForIssue index text filePath)
  \/ (exists filePath, i = StaticAnalyzer.outlineNoneIssue filePath).

(** An issue classified as a rule of the table classifies it: with the
    severity, the level, the criterion and the address of the rule. *)
Definition classifiedAs (entry : Rules.AccessibilityRule) (i : AccessibilityIssue) : Prop :=
  severity i = Rules.severity entry
  /\ wcagLevel i = Rules.wcagLevel entry
  /\ wcagCriterion i = Rules.wcagCriterion entry
  /\ wcagUrl i = Rules.helpUrl entry.

(** The tags and the rules of the table that concern only some elements,
    and the rules whose check is left to the analyzers. *)
Definition concernedTags : list string :=
  ["IMG"; "INPUT"; "BUTTON"; "A"; "SELECT"; "TEXTAREA"].

Definition deferredRules : list string :=
  [ "heading-hierarchy"; "ngfor-trackby"; "angular-focus-management";
    "focus-visible"; "color-contrast"; "color-only-info" ].

(** Further sample inputs. *)
Module Cases.

(** A project where the pattern for every file and the pattern for
    TypeScript files both match [/app/a.ts]; [/app/b.html] cannot be
    read. *)
Definition overlapHost : Host :=
  {| glob := fun pattern _ _ =>
       if String.eqb pattern "**/*.ts" then Ok ["/app/a.ts"]
       else if String.eqb pattern "**/*" then Ok ["/app/a.ts"; "/app/b.html"]
       else Throw "Invalid pattern";
     relative := fun _ filePath => filePath;
     extname := fun filePath =>
       if String.eqb filePath "/app/a.ts" then ".ts" else ".html";
     readFile := fun filePath =>
       if String.eqb filePath "/app/a.ts"
       then Ok "export const answer = 42;"
       else Throw "EACCES: permission denied";
     load := fun _ => [];
     select := Sample.selectLabels;
     now := "2024-01-01T00:00:00.000Z";
     launch := Ok tt;
     audit := fun _ pageUrl =>
       if String.eqb pageUrl "http://localhost:4200/broken"
       then Throw "net::ERR_CONNECTION_REFUSED"
       else Ok Sample.axeResults;
     generate := fun _ options => Ok (outputPath options) |}.

Definition overlapOptions : StaticAnalysisOptions :=
  {| sa_projectPath := "/app";
     sa_includePatterns := Some ["**/*.ts"; "**/*"];
     sa_excludePatterns := None |}.

Definition badPatternOptions : StaticAnalysisOptions :=
  {| sa_projectPath := "/app";
     sa_includePatterns := Some ["**/*.ts"; "[";  "**/*"];
     sa_excludePatterns := None |}.

Definition pagesOptions : DynamicAnalysisOptions :=
  {| da_url := "http://localhost:4200";
     da_pages := Some ["http://localhost:4200/broken"; "http://localhost:4200/about"];
     da_waitForSelector := None; da_timeout := None |}.

(** The result of a static and of a dynamic analysis on the sample
    host. *)
Definition staticResult : AnalysisResult :=
  match StaticAnalyzer.analyze Sample.host Sample.staticOptions with
  | Ok r => r
  | Throw _ => A11yRobotServer.combinedResult Sample.host []
  end.

Definition dynamicResult : AnalysisResult :=
  match DynamicAnalyzer.analyze Sample.host Sample.dynamicOptions with
  | Ok r => r
  | Throw _ => A11yRobotServer.combinedResult Sample.host []
  end.

Definition brokenMainOptions : DynamicAnalysisOptions :=
  {| da_url := "http://localhost:4200/broken";
     da_pages := None; da_waitForSelector := None; da_timeout := None |}.

(** A form: a text input named by [aria-label], an email input whose
    [aria-label] is empty, a text input with a label for its id, and a
    select with an id no label points to. *)
Definition formPage : Cheerio.Document :=
  [Sample.el "html" []; Sample.el "head" []; Sample.el "body" [];
   Sample.el "input" [("type", "text"); ("aria-label", "Name")];
   Sample.el "input" [("type", "email"); ("aria-label", "")];
   Sample.el "label" [("for", "q")];
   Sample.el "input" [("type", "text"); ("id", "q")];
   Sample.el "select" [("id", "country")]].

(** A component whose inline template has an image without [alt] and a
    list item repeated without trackBy. *)
Definition templateText : string :=
  "<img src=x><li *ngFor=" ++ dq ++ "let a of as" ++ dq ++ "></li>".

Definition componentSource : string :=
  "@Component({ selector: 'app-list', template: `" ++ templateText ++ "` })".

(** A directive source, marked by its styleUrls, without inline template:
    one repetition with trackBy and one without. *)
Definition directiveSource : string :=
  "styleUrls: []; <a *ngFor=" ++ dq ++ "let b of bs; trackBy: byId" ++ dq ++ ">"
  ++ "<p *ngFor=" ++ dq ++ "let c of cs" ++ dq ++ ">".

Definition componentHost : Host :=
  {| glob := fun _ _ _ => Ok ["/app/list.component.ts"];
     relative := fun _ _ => "list.component.ts";
     extname := fun _ => ".ts";
     readFile := fun _ => Ok componentSource;
     load := fun content =>
       if String.eqb content templateText
       then [Sample.el "html" []; Sample.el "head" []; Sample.el "body" [];
             Sample.el "img" [("src", "x")];
             Sample.el "li" [("*ngfor", "let a of as")]]
       else [Sample.el "html" []; Sample.el "head" []; Sample.el "body" []];
     select := Sample.selectLabels;
     now := "2024-01-01T00:00:00.000Z";
     launch := Throw "browserType.launch: Executable doesn't exist";
     audit := fun _ _ => Throw "Browser context not initialized";
     generate := fun _ _ => Throw "ENOSPC: no space left on device" |}.

(** A success criterion and the guideline it belongs to. *)
Definition nonTextContent : WcagService.ScBlock :=
  {| WcagService.sc_h4 := "1.1.1 Non-text Content (Level A)";
     WcagService.sc_p := "All non-text content has a text alternative.";
     WcagService.sc_techniques := [" G94 "; "  "; "H37"] |}.

Definition textAlternatives : WcagService.GuidelineBlock :=
  {| WcagService.g_h3 := "1.1 Text Alternatives";
     WcagService.g_p := "  Provide text alternatives for any non-text content. ";
     WcagService.g_sc := [nonTextContent] |}.

(** A page with that guideline and a block whose heading is no guideline
    heading. *)
Definition guidelinePage : list WcagService.GuidelineBlock :=
  [ textAlternatives;
    {| WcagService.g_h3 := "Introduction";
       WcagService.g_p := EmptyString;
       WcagService.g_sc := [] |} ].

(** The world when the page can be fetched, and the world an hour later,
    off line. *)
Definition onlineWorld : WcagService.World :=
  {| WcagService.dateNow := 1700000000000;
     WcagService.toISOString := "2023-11-14T22:13:20.000Z";
     WcagService.getTime := fun s =>
       if String.eqb s "2023-11-14T22:13:20.000Z" then Some 1700000000000%Z else None;
     WcagService.httpGet := fun _ => Ok "<html>";
     WcagService.guidelineBlocks := fun _ => guidelinePage |}.

Definition offlineWorld : WcagService.World :=
  {| WcagService.dateNow := 1700003600000;
     WcagService.toISOString := "2023-11-14T23:13:20.000Z";
     WcagService.getTime := fun s =>
       if String.eqb s "2023-11-14T22:13:20.000Z" then Some 1700000000000%Z else None;
     WcagService.httpGet := fun _ => Throw "getaddrinfo ENOTFOUND www.w3.org";
     WcagService.guidelineBlocks := fun _ => [] |}.

Definition anyQuery : WcagService.WcagQueryOptions :=
  {| WcagService.q_criterion := None; WcagService.q_level := None |}.

(** The arguments of a call and the message of an SDK error. *)
Definition arguments : Index.Arguments :=
  {| Index.asStatic := Sample.staticOptions;
     Index.asDynamic := Sample.dynamicOptions;
     Index.asReport := Sample.reportOptions;
     Index.asQuery := arrived anyQuery |}.


Definition notAFunction : string := "options.criterion.toLowerCase is not a function".

Definition mcpMessage (code : Index.ErrorCode) (message : string) : string :=
  "MCP error "
  ++ match code with
     | Index.MethodNotFound => "-32601"
     | Index.InternalError => "-32603"
     end
  ++ ": " ++ message.

(** A plain division and a document without labels. *)
Definition division : Rules.DomElement :=
  {| Rules.tagName := "DIV";
     Rules.attributes := [("class", "card")];
     Rules.type := EmptyString;
     Rules.elementId := EmptyString;
     Rules.textContent := Some "Hello";
     Rules.tabIndex := (-1) |}.

Definition noLabels : Rules.Document := fun _ => false.


(** A page with the headings h1, h2, h4, an image without [alt] and a
    text input whose id holds a double quote, and a host on which the
    selector built from that id is refused by the engine. *)
Definition quotedId : string := "a" ++ dq ++ "b".

Definition brokenPage : Cheerio.Document :=
  [Sample.el "html" []; Sample.el "head" []; Sample.el "body" [];
   Sample.el "h1" [];
   Sample.el "input" [("type", "text"); ("id", quotedId)];
   Sample.el "img" [("src", "logo.png")];
   Sample.el "h2" []; Sample.el "h4" []].

Definition brokenLookupHost : Host :=
  {| glob := fun _ _ _ => Ok ["/app/src/form.html"];
     relative := fun _ _ => "src/form.html";
     extname := fun _ => ".html";
     readFile := fun _ => Ok "<h1>A</h1><input type=text id='a&quot;b'><img src=logo.png><h2>B</h2><h4>C</h4>";
     load := fun _ => brokenPage;
     select := fun doc selector =>
       if String.eqb selector ("label[for=" ++ dq ++ quotedId ++ dq ++ "]")
       then Throw "Attribute selector didn't terminate"
       else Sample.selectLabels doc selector;
     now := "2024-01-01T00:00:00.000Z";
     launch := Ok tt;
     audit := fun _ _ => Ok Sample.axeResults;
     generate := fun _ options => Ok (outputPath options) |}.

End Cases.

(** The form control carries a non-empty [aria-label] or
    [aria-labelledby]. *)
Definition hasNameAttribute (control : Cheerio.Element) : bool :=
  truthy (Cheerio.attr control "aria-label")
  || truthy (Cheerio.attr control "aria-labelledby").

(** The selector the form-control check builds for an [id]. *)
Definition labelSelector (idValue : string) : string :=
  "label[for=" ++ dq ++ idValue ++ dq ++ "]".

(** What the form control at [index] contributes when its check does not
    throw. *)
Definition controlIssues (host : Host) (doc : Cheerio.Document) (filePath : string)
           (index : nat) (control : Cheerio.Element) : list AccessibilityIssue :=
  match StaticAnalyzer.labelCheck host doc filePath index control (Ok []) with
  | Ok added => added
  | Throw _ => []
  end.

(** The scan of a document is abandoned: the label lookup of one of its
    form controls, made for every control with a non-empty id, throws. *)
Definition lookupFails (host : Host) (doc : Cheerio.Document) : Prop :=
  exists control idValue m,
    In control (filter StaticAnalyzer.isFormControl doc)
    /\ Cheerio.attr control "id" = Some idValue
    /\ idValue <> EmptyString
    /\ select host doc (labelSelector idValue) = Throw m.

(** The issue of the node at [nodeIndex] of the violation at [index]. *)
Definition issueOfNode (index : nat) (violation : Axe.Violation)
           (nodeIndex : nat) (node : Axe.Node) : AccessibilityIssue :=
  DynamicAnalyzer.nodeIssue violation index
    (DynamicAnalyzer.mapAxeSeverity (Axe.impact violation))
    (DynamicAnalyzer.extractWcagInfo (Axe.tags violation))
    nodeIndex node.

(* ===================================================================== *)
(** ** Summaries                                                          *)
(* ===================================================================== *)

Section Summaries.

(** Each step of the static analyzer's loop keeps the total and adds one
    to the sum of the four counters. *)
Lemma static_loop_counts (l : list AccessibilityIssue) :
  forall s,
    total (fold_left StaticAnalyzer.countIssue l s) = total s
    /\ severitySum (fold_left StaticAnalyzer.countIssue l s)
       = severitySum s + List.length l.
Proof.
  induction l as [|i l IH]; intros s; simpl.
  - split; [reflexivity | lia].
  - destruct (IH (StaticAnalyzer.countIssue s i)) as [Ht Hs].
    rewrite Ht, Hs. unfold StaticAnalyzer.countIssue, severitySum.
    destruct (severity i); simpl; split; lia.
Qed.

Lemma dynamic_loop_counts (l : list AccessibilityIssue) :
  forall s,
    total (fold_left DynamicAnalyzer.countIssue l s) = total s
    /\ severitySum (fold_left DynamicAnalyzer.countIssue l s)
       = severitySum s + List.length l.
Proof.
  induction l as [|i l IH]; intros s; simpl.
  - split; [reflexivity | lia].
  - destruct (IH (DynamicAnalyzer.countIssue s i)) as [Ht Hs].
    rewrite Ht, Hs. unfold DynamicAnalyzer.countIssue, severitySum.
    destruct (severity i); simpl; split; lia.
Qed.

Lemma static_summary (l : list AccessibilityIssue) :
  summaryOf (StaticAnalyzer.calculateSummary l) l.
Proof.
  unfold summaryOf, StaticAnalyzer.calculateSummary.
  destruct (static_loop_counts l
              {| total := List.length l; critical := 0; serious := 0;
                 moderate := 0; minor := 0 |}) as [Ht Hs].
  unfold severitySum in Hs. simpl in *. lia.
Qed.

Lemma dynamic_summary (l : list AccessibilityIssue) :
  summaryOf (DynamicAnalyzer.calculateSummary l) l.
Proof.
  unfold summaryOf, DynamicAnalyzer.calculateSummary.
  destruct (dynamic_loop_counts l
              {| total := List.length l; critical := 0; serious := 0;
                 moderate := 0; minor := 0 |}) as [Ht Hs].
  unfold severitySum in Hs. simpl in *. lia.
Qed.

(** The four filters of the server split the list. *)
Lemma server_summary (l : list AccessibilityIssue) :
  summaryOf (A11yRobotServer.calculateSummary l) l.
Proof.
  unfold summaryOf, A11yRobotServer.calculateSummary; simpl.
  split; [reflexivity|].
  induction l as [|i l IH]; simpl; [reflexivity|].
  destruct (severity i); simpl; lia.
Qed.

(** The loop and the filters compute the same summary. *)
Lemma static_summary_filters (l : list AccessibilityIssue) :
  StaticAnalyzer.calculateSummary l = A11yRobotServer.calculateSummary l.
Proof.
  unfold StaticAnalyzer.calculateSummary, A11yRobotServer.calculateSummary.
  generalize (List.length l) as n.
  assert (G : forall s,
    fold_left StaticAnalyzer.countIssue l s =
    {| total := total s;
       critical := critical s + List.length (filter (hasSeverity Critical) l);
       serious := serious s + List.length (filter (hasSeverity Serious) l);
       moderate := moderate s + List.length (filter (hasSeverity Moderate) l);
       minor := minor s + List.length (filter (hasSeverity Minor) l) |}).
  { induction l as [|i l IH]; intros s; simpl.
    - destruct s; simpl; f_equal; lia.
    - rewrite IH. unfold StaticAnalyzer.countIssue, hasSeverity.
      destruct (severity i); simpl; f_equal; lia. }
  intros n. rewrite G. reflexivity.
Qed.

End Summaries.

(** C1. Every analysis result produced by the static analysis, by the
    dynamic analysis or by report aggregation carries a summary computed
    from its issue list: the total is the number of issues and the
    critical, serious, moderate and minor counts add up to the total. *)
Theorem C1_summary_of_issues (host : Host) (r : AnalysisResult) :
  Produced host r -> summaryOf (summary r) (issues r).
Proof.
  intros [options r' H | options r' H | results _].
  - unfold StaticAnalyzer.analyze in H.
    destruct (StaticAnalyzer.findFiles _ _ _ _) as [files|m]; simpl in H;
      [|discriminate].
    injection H as <-. simpl. apply static_summary.
  - unfold DynamicAnalyzer.analyze in H.
    destruct (launch host) as [u|m]; simpl in H; [|discriminate].
    destruct (DynamicAnalyzer.analyzePage _ _ _) as [main|m]; simpl in H;
      [|discriminate].
    injection H as <-. simpl. apply dynamic_summary.
  - simpl. apply server_summary.
Qed.

Lemma C1_summary_of_issues_witness :
  summaryOf (summary (A11yRobotServer.combinedResult Sample.host Sample.kept))
            (issues (A11yRobotServer.combinedResult Sample.host Sample.kept)).
Proof.
  apply (C1_summary_of_issues Sample.host).
  apply by_report. reflexivity.
Defined.

(* ===================================================================== *)
(** ** The stable sort by severity                                        *)
(* ===================================================================== *)

Section SortBySeverity.

Lemma sortInsert_perm {T} (c : T -> T -> Z) (x : T) (l : list T) :
  Permutation (x :: l) (sortInsert c x l).
Proof.
  induction l as [|y l IH]; simpl; [reflexivity|].
  destruct (c x y <=? 0)%Z; [reflexivity|].
  rewrite perm_swap. now apply perm_skip.
Qed.

Lemma sort_perm {T} (c : T -> T -> Z) (l : list T) :
  Permutation l (sort c l).
Proof.
  induction l as [|x l IH]; simpl; [reflexivity|].
  rewrite <- sortInsert_perm. now apply perm_skip.
Qed.

Lemma sortInsert_Forall {T} (c : T -> T -> Z) (P : T -> Prop) x l :
  P x -> Forall P l -> Forall P (sortInsert c x l).
Proof.
  intros Hx Hl. eapply Permutation_Forall; [apply sortInsert_perm|].
  now constructor.
Qed.

Lemma rankLe_trans a b c : rankLe a b -> rankLe b c -> rankLe a c.
Proof. unfold rankLe. lia. Qed.

Lemma sortInsert_sorted x l :
  StronglySorted rankLe l -> StronglySorted rankLe (sortInsert A11yRobotServer.bySeverity x l).
Proof.
  induction 1 as [|y l Hl IH Hy]; simpl.
  - constructor; constructor.
  - destruct (A11yRobotServer.bySeverity x y <=? 0)%Z eqn:E.
    + apply Z.leb_le in E.
      assert (Hxy : rankLe x y)
        by (unfold rankLe; unfold A11yRobotServer.bySeverity in E; lia).
      constructor; [now constructor|].
      constructor; [exact Hxy|].
      eapply Forall_impl; [|exact Hy].
      intros z Hz. eapply rankLe_trans; eassumption.
    + apply Z.leb_gt in E.
      constructor; [exact IH|].
      apply sortInsert_Forall; [|exact Hy].
      unfold rankLe; unfold A11yRobotServer.bySeverity in E; lia.
Qed.

Lemma sort_sorted l : StronglySorted rankLe (sort A11yRobotServer.bySeverity l).
Proof.
  induction l as [|x l IH]; simpl; [constructor|].
  now apply sortInsert_sorted.
Qed.

(** Inserting an issue leaves the order among the issues of each
    severity as it is: the issue only overtakes issues of a lower rank. *)
Lemma sortInsert_stable s x l :
  filter (hasSeverity s) (sortInsert A11yRobotServer.bySeverity x l) = filter (hasSeverity s) (x :: l).
Proof.
  induction l as [|y l IH]; [reflexivity|].
  cbn [sortInsert].
  destruct (A11yRobotServer.bySeverity x y <=? 0)%Z eqn:E; [reflexivity|].
  apply Z.leb_gt in E.
  cbn [filter]. rewrite IH. cbn [filter].
  unfold A11yRobotServer.bySeverity in E. unfold hasSeverity.
  destruct (severity x), (severity y), s; simpl in *; try reflexivity; lia.
Qed.

Lemma sort_stable s l :
  filter (hasSeverity s) (sort A11yRobotServer.bySeverity l) = filter (hasSeverity s) l.
Proof.
  induction l as [|x l IH]; [reflexivity|].
  cbn [sort]. rewrite sortInsert_stable. cbn [filter]. now rewrite IH.
Qed.

Lemma filter_none {T} (f : T -> bool) (l : list T) :
  Forall (fun x => f x = false) l -> filter f l = [].
Proof.
  induction 1 as [|x l Hx _ IH]; simpl; [reflexivity|].
  now rewrite Hx.
Qed.

(** A list in ascending rank is its critical issues, then its serious,
    moderate and minor ones. *)
Lemma sorted_by_blocks l :
  StronglySorted rankLe l ->
  l = (filter (hasSeverity Critical) l ++ filter (hasSeverity Serious) l
       ++ filter (hasSeverity Moderate) l ++ filter (hasSeverity Minor) l)%list.
Proof.
  induction 1 as [|x l Hl IH Hx]; [reflexivity|].
  assert (K : forall s,
             (A11yRobotServer.severityOrder s
              < A11yRobotServer.severityOrder (severity x))%Z ->
             filter (hasSeverity s) l = []).
  { intros s Hs. apply filter_none.
    eapply Forall_impl; [|exact Hx].
    intros y Hy. unfold rankLe in Hy. unfold hasSeverity.
    destruct (severity y), s, (severity x); simpl in *; try reflexivity; lia. }
  assert (C : forall s, filter (hasSeverity s) (x :: l)
                        = if Severity_eqb (severity x) s
                          then x :: filter (hasSeverity s) l
                          else filter (hasSeverity s) l) by reflexivity.
  rewrite !C. clear C.
  destruct (severity x) eqn:Ex; cbn [Severity_eqb].
  - cbn [app]. now f_equal.
  - rewrite (K Critical) in * by (simpl; lia). cbn [app] in *. now f_equal.
  - rewrite (K Critical), (K Serious) in * by (simpl; lia).
    cbn [app] in *. now f_equal.
  - rewrite (K Critical), (K Serious), (K Moderate) in * by (simpl; lia).
    cbn [app] in *. now f_equal.
Qed.

End SortBySeverity.

(** C2. Report aggregation sorts the concatenated issues of the kept
    results by ascending severity rank (critical 0, serious 1, moderate 2,
    minor 3), and the sort is stable: the issues of each severity come out
    in the order in which they went in.  Hence the outcome is the critical
    issues in their order of insertion, then the serious, the moderate and
    the minor ones, and it is the only list in ascending rank that keeps
    the order within each severity. *)
Theorem C2_sorted_by_severity_stable (host : Host) (results : list AnalysisResult) :
  let merged := flat_map issues results in
  let ranked := issues (A11yRobotServer.combinedResult host results) in
  A11yRobotServer.severityOrder Critical = 0%Z
  /\ A11yRobotServer.severityOrder Serious = 1%Z
  /\ A11yRobotServer.severityOrder Moderate = 2%Z
  /\ A11yRobotServer.severityOrder Minor = 3%Z
  /\ Permutation merged ranked
  /\ StronglySorted rankLe ranked
  /\ (forall s, filter (hasSeverity s) ranked = filter (hasSeverity s) merged)
  /\ ranked = (filter (hasSeverity Critical) merged
               ++ filter (hasSeverity Serious) merged
               ++ filter (hasSeverity Moderate) merged
               ++ filter (hasSeverity Minor) merged)%list
  /\ (forall other,
        StronglySorted rankLe other ->
        (forall s, filter (hasSeverity s) other = filter (hasSeverity s) merged) ->
        other = ranked).
Proof.
  intros merged ranked. subst ranked. cbn [A11yRobotServer.combinedResult issues].
  fold merged.
  assert (B : sort A11yRobotServer.bySeverity merged
              = (filter (hasSeverity Critical) merged
                 ++ filter (hasSeverity Serious) merged
                 ++ filter (hasSeverity Moderate) merged
                 ++ filter (hasSeverity Minor) merged)%list).
  { rewrite (sorted_by_blocks _ (sort_sorted merged)) at 1.
    now rewrite !sort_stable. }
  repeat (split; [reflexivity|]).
  split; [apply sort_perm|].
  split; [apply sort_sorted|].
  split; [intros s; apply sort_stable|].
  split; [exact B|].
  intros other Hsorted Hstable.
  rewrite (sorted_by_blocks _ Hsorted), !Hstable. now rewrite B.
Qed.

Lemma C2_sorted_by_severity_stable_witness :
  map id (issues (A11yRobotServer.combinedResult Sample.host Sample.kept))
  = ["axe-color-contrast-0-0"; "outline-none-focus";
     "heading-hierarchy-1"; "heading-hierarchy-2"]
  /\ sort A11yRobotServer.bySeverity (flat_map issues Sample.kept)
     = issues (A11yRobotServer.combinedResult Sample.host Sample.kept).
Proof.
  split; [reflexivity|].
  apply (proj2 (proj2 (proj2 (proj2 (proj2 (proj2 (proj2 (proj2
           (C2_sorted_by_severity_stable Sample.host Sample.kept))))))))).
  - apply sort_sorted.
  - intros s. apply sort_stable.
Defined.

(* ===================================================================== *)
(** ** Report generation                                                  *)
(* ===================================================================== *)

(** With some result kept, the report is rendered from the combined result
    and the response quotes the path the renderer returns. *)
Lemma report_from_combined (host : Host) (format : AnalysisResult -> string)
      (this : A11yRobotServer.Server) (options : ReportGenerationOptions) :
  (List.length (A11yRobotServer.analysisResults this) =? 0)%nat = false ->
  A11yRobotServer.generateAccessibilityReport host format this options
  = let combined :=
      A11yRobotServer.combinedResult host (A11yRobotServer.analysisResults this) in
    match generate host combined options with
    | Ok reportPath =>
        Ok ["Accessibility report generated successfully!" ++ nl ++ nl
            ++ "Report saved to: " ++ reportPath ++ nl ++ nl
            ++ "Summary:" ++ nl ++ format combined]
    | Throw m => Throw ("Report generation failed: " ++ m)
    end.
Proof.
  intros H. unfold A11yRobotServer.generateAccessibilityReport.
  rewrite H. cbv zeta.
  destruct (generate host _ options); reflexivity.
Qed.

(** C10. The combined result of a report generation is tagged static
    whatever the kept results are tagged, dynamic ones included; it is
    this result that is handed to the renderer. *)
Theorem C10_combined_is_static (host : Host) (format : AnalysisResult -> string)
        (this : A11yRobotServer.Server) (options : ReportGenerationOptions) :
  let combined :=
    A11yRobotServer.combinedResult host (A11yRobotServer.analysisResults this) in
  analysisType combined = Static
  /\ A11yRobotServer.generateAccessibilityReport host format this options
     = rethrow "Report generation failed: "
         (if (List.length (A11yRobotServer.analysisResults this) =? 0)%nat
          then Throw "No analysis results available. Please run static or dynamic analysis first."
          else
            let* reportPath := generate host combined options in
            Ok ["Accessibility report generated successfully!" ++ nl ++ nl
                ++ "Report saved to: " ++ reportPath ++ nl ++ nl
                ++ "Summary:" ++ nl ++ format combined]).
Proof.
  split; reflexivity.
Qed.

(** C8, as the code has it.  With no result kept, report generation
    throws: the caller gets the error saying that no analysis results are
    available, and no combined result is built.  The merge itself, taken
    on zero results, has no issue and an all-zero summary. *)
Theorem C8_no_results_is_an_error (host : Host) (format : AnalysisResult -> string)
        (options : ReportGenerationOptions) :
  A11yRobotServer.generateAccessibilityReport host format
    A11yRobotServer.newServer options
  = Throw "Report generation failed: No analysis results available. Please run static or dynamic analysis first."
  /\ issues (A11yRobotServer.combinedResult host []) = []
  /\ summary (A11yRobotServer.combinedResult host [])
     = {| total := 0; critical := 0; serious := 0; moderate := 0; minor := 0 |}.
Proof.
  repeat split.
Qed.

(** C8 as stated fails: with no result kept the call does not succeed. *)
Lemma C8_counterexample :
  ~ exists response,
      A11yRobotServer.generateAccessibilityReport Sample.host Sample.format
        A11yRobotServer.newServer Sample.reportOptions = Ok response.
Proof.
  intros [response H]. discriminate H.
Qed.

(* ===================================================================== *)
(** ** The dynamic normalizer                                             *)
(* ===================================================================== *)

(** C7. The mapping of an impact to a severity is a total function: the
    four known impacts map to themselves and every other impact, such as
    blocker, maps to minor. *)
Theorem C7_impact_to_severity :
  DynamicAnalyzer.mapAxeSeverity "critical" = Critical
  /\ DynamicAnalyzer.mapAxeSeverity "serious" = Serious
  /\ DynamicAnalyzer.mapAxeSeverity "moderate" = Moderate
  /\ DynamicAnalyzer.mapAxeSeverity "minor" = Minor
  /\ DynamicAnalyzer.mapAxeSeverity "blocker" = Minor
  /\ (forall impact : string,
         impact <> "critical" -> impact <> "serious" ->
         impact <> "moderate" -> impact <> "minor" ->
         DynamicAnalyzer.mapAxeSeverity impact = Minor)
  /\ map severity
       (DynamicAnalyzer.convertAxeResults
          {| Axe.violations := Some [Sample.violation "blocker" []] |} "/")
     = [Minor].
Proof.
  repeat (split; [reflexivity|]).
  split; [|reflexivity].
  intros impact H1 H2 H3 H4. unfold DynamicAnalyzer.mapAxeSeverity.
  destruct (String.eqb_spec impact "critical"); [contradiction|].
  destruct (String.eqb_spec impact "serious"); [contradiction|].
  destruct (String.eqb_spec impact "moderate"); [contradiction|].
  destruct (String.eqb_spec impact "minor"); [contradiction|].
  reflexivity.
Qed.

Lemma C7_impact_to_severity_witness :
  "fatal" <> "critical" /\ "fatal" <> "serious" /\ "fatal" <> "moderate"
  /\ "fatal" <> "minor" /\ DynamicAnalyzer.mapAxeSeverity "fatal" = Minor.
Proof.
  repeat (split; [discriminate|]).
  apply C7_impact_to_severity; discriminate.
Defined.


(* ===================================================================== *)
(** ** Loops that push issues                                             *)
(* ===================================================================== *)

(** A loop whose body only pushes what [g] gives for the element and its
    index pushes, one element after the other, what [g] gives. *)
Lemma forEachFrom_push {T B} (body : nat -> T -> list B -> list B)
      (g : nat -> T -> list B)
      (Hbody : forall i x st, body i x st = (st ++ g i x)%list) (xs : list T) :
  forall k st,
    forEachFrom body k xs st
    = (st ++ flat_map (fun p => g (fst p) (snd p))
                      (combine (seq k (List.length xs)) xs))%list.
Proof.
  induction xs as [|x xs IH]; intros k st; simpl.
  - now rewrite app_nil_r.
  - rewrite IH, Hbody, <- app_assoc. reflexivity.
Qed.

Lemma imageCheck_pushes filePath i e st :
  StaticAnalyzer.imageCheck filePath i e st = (st ++ issuesOfImage filePath i e)%list.
Proof.
  unfold StaticAnalyzer.imageCheck, issuesOfImage.
  destruct (Cheerio.attr e "alt"); [now rewrite app_nil_r | reflexivity].
Qed.

(** The image check adds, image by image, what [issuesOfImage] tells. *)
Lemma image_loop filePath images st :
  forEach (StaticAnalyzer.imageCheck filePath) images st
  = (st ++ flat_map (fun p => issuesOfImage filePath (fst p) (snd p))
                    (combine (seq 0 (List.length images)) images))%list.
Proof.
  unfold forEach. apply forEachFrom_push. intros; apply imageCheck_pushes.
Qed.

Lemma label_loop_throw host doc filePath controls :
  forall k m,
    forEachFrom (StaticAnalyzer.labelCheck host doc filePath) k controls (Throw m)
    = Throw m.
Proof.
  induction controls as [|c cs IH]; intros k m; simpl; [reflexivity | apply IH].
Qed.

Lemma labelCheck_step host doc filePath k c st st' :
  StaticAnalyzer.labelCheck host doc filePath k c (Ok st) = Ok st' ->
  st' = st \/ exists t, st' = (st ++ [StaticAnalyzer.inputLabelIssue k t filePath])%list.
Proof.
  unfold StaticAnalyzer.labelCheck. cbn [bind].
  match goal with
  | |- bind ?q _ = _ -> _ => destruct q as [hasLabel|m]
  end; cbn [bind]; [|discriminate].
  match goal with
  | |- (if ?b then _ else _) = _ -> _ => destruct b
  end; intros E; injection E as <-; eauto.
Qed.

(** The form-control check, when no selection throws, adds issues of the
    form-control rule only. *)
Lemma label_loop host doc filePath controls :
  forall k st out,
    forEachFrom (StaticAnalyzer.labelCheck host doc filePath) k controls (Ok st) = Ok out ->
    exists added,
      out = (st ++ added)%list
      /\ Forall (fun x => exists i t, x = StaticAnalyzer.inputLabelIssue i t filePath) added.
Proof.
  induction controls as [|c cs IH]; intros k st out H; cbn [forEachFrom] in H.
  - injection H as <-. exists []. now rewrite app_nil_r.
  - destruct (StaticAnalyzer.labelCheck host doc filePath k c (Ok st)) as [st'|m] eqn:E.
    + destruct (IH _ _ _ H) as (added & -> & Hadded).
      destruct (labelCheck_step _ _ _ _ _ _ _ E) as [-> | [t ->]].
      * exists added. split; [reflexivity | exact Hadded].
      * eexists. rewrite <- app_assoc. split; [reflexivity|].
        constructor; [eauto | exact Hadded].
    + rewrite label_loop_throw in H. discriminate.
Qed.

(* ===================================================================== *)
(** ** The heading check                                                  *)
(* ===================================================================== *)

Lemma heading_tag_cases t :
  Cheerio.isOneOf StaticAnalyzer.headingTags t = true ->
  t = "h1" \/ t = "h2" \/ t = "h3" \/ t = "h4" \/ t = "h5" \/ t = "h6".
Proof.
  unfold Cheerio.isOneOf, StaticAnalyzer.headingTags. cbn [existsb].
  repeat match goal with
         | |- context [String.eqb t ?s] => destruct (String.eqb_spec t s); [tauto|]
         end.
  discriminate.
Qed.

Lemma heading_tag_level t :
  Cheerio.isOneOf StaticAnalyzer.headingTags t = true ->
  toLowerCase t = t /\ parseIntChar (charAt t 1) = Some (levelOfTag t).
Proof.
  intros H. apply heading_tag_cases in H.
  destruct H as [H|[H|[H|[H|[H|H]]]]]; subst t; split; reflexivity.
Qed.

(** On a heading element the check reads the level off the tag name. *)
Lemma headingCheck_on_heading filePath i e p st :
  Cheerio.isOneOf StaticAnalyzer.headingTags (Cheerio.tagName e) = true ->
  StaticAnalyzer.headingCheck filePath i e (Some p, st)
  = (Some (levelOfTag (Cheerio.tagName e)),
     (st ++ if (p + 1 <? levelOfTag (Cheerio.tagName e))%nat
            then [StaticAnalyzer.headingIssue i p (levelOfTag (Cheerio.tagName e))
                    (Cheerio.tagName e) filePath]
            else [])%list).
Proof.
  intros H. destruct (heading_tag_level _ H) as [Hlow Hlevel].
  unfold StaticAnalyzer.headingCheck. rewrite Hlow, Hlevel.
  destruct (Nat.ltb _ _); rewrite ?app_nil_r; reflexivity.
Qed.

(** The loop over heading elements is the trace over their tag names. *)
Lemma heading_loop filePath headings :
  Forall (fun e => Cheerio.isOneOf StaticAnalyzer.headingTags (Cheerio.tagName e) = true)
         headings ->
  forall k p st,
    snd (forEachFrom (StaticAnalyzer.headingCheck filePath) k headings (Some p, st))
    = (st ++ headingTrace filePath k p (map Cheerio.tagName headings))%list.
Proof.
  induction 1 as [|e hs He _ IH]; intros k p st; cbn [forEachFrom map headingTrace].
  - now rewrite app_nil_r.
  - rewrite headingCheck_on_heading by exact He.
    rewrite IH, <- app_assoc. reflexivity.
Qed.

Lemma byTag_tags names doc :
  Forall (fun e => Cheerio.isOneOf names (Cheerio.tagName e) = true)
         (Cheerio.byTag names doc).
Proof.
  apply Forall_forall. intros e He.
  apply filter_In in He. tauto.
Qed.

(** The heading pass of a document is the trace over the tag names of its
    headings, started at index 0 and level 0. *)
Lemma heading_pass_trace filePath doc :
  headingPass filePath (Cheerio.byTag StaticAnalyzer.headingTags doc)
  = headingTrace filePath 0 0
      (map Cheerio.tagName (Cheerio.byTag StaticAnalyzer.headingTags doc)).
Proof.
  unfold headingPass, forEach.
  now rewrite heading_loop by apply byTag_tags.
Qed.

(** The trace told by indices: the heading at [i] is reported exactly when
    its level exceeds by more than one the level before it, which is
    [previous] for the first heading. *)
Lemma headingTrace_by_index filePath tags :
  forall k previous,
    headingTrace filePath k previous tags
    = map (fun i =>
             StaticAnalyzer.headingIssue (k + i)
               (previousAt previous (map levelOfTag tags) i)
               (nth i (map levelOfTag tags) 0) (nth i tags "") filePath)
          (filter (fun i =>
                     (previousAt previous (map levelOfTag tags) i + 1
                      <? nth i (map levelOfTag tags) 0)%nat)
                  (seq 0 (List.length tags))).
Proof.
  induction tags as [|t tags IH]; intros k previous; [reflexivity|].
  cbn [headingTrace]. rewrite IH. clear IH.
  cbn [List.length seq]. rewrite <- seq_shift.
  cbn [filter]. rewrite filter_map_swap.
  change (previousAt previous (map levelOfTag (t :: tags)) 0) with previous.
  change (nth 0 (map levelOfTag (t :: tags)) 0) with (levelOfTag t).
  assert (P : forall i,
             previousAt previous (map levelOfTag (t :: tags)) (S i)
             = previousAt (levelOfTag t) (map levelOfTag tags) i)
    by (intros [|i]; reflexivity).
  assert (E : forall l,
    map (fun i =>
           StaticAnalyzer.headingIssue (S k + i)
             (previousAt (levelOfTag t) (map levelOfTag tags) i)
             (nth i (map levelOfTag tags) 0) (nth i tags "") filePath)
        (filter (fun i =>
                   (previousAt (levelOfTag t) (map levelOfTag tags) i + 1
                    <? nth i (map levelOfTag tags) 0)%nat) l)
    = map (fun i =>
             StaticAnalyzer.headingIssue (k + i)
               (previousAt previous (map levelOfTag (t :: tags)) i)
               (nth i (map levelOfTag (t :: tags)) 0) (nth i (t :: tags) "") filePath)
          (map S
             (filter (fun i =>
                        (previousAt previous (map levelOfTag (t :: tags)) (S i) + 1
                         <? nth (S i) (map levelOfTag (t :: tags)) 0)%nat) l))).
  { intros l. rewrite map_map.
    induction l as [|x l IHl]; [reflexivity|].
    cbn [filter]. rewrite P. cbn [map nth].
    destruct (Nat.ltb _ _); cbn [map nth]; rewrite IHl, ?P, ?Nat.add_succ_r;
      reflexivity. }
  rewrite E.
  destruct (Nat.ltb _ _); cbn [map app nth]; rewrite ?Nat.add_0_r; reflexivity.
Qed.

(* ===================================================================== *)
(** ** A scanned document                                                 *)
(* ===================================================================== *)

(** A scan that completes yields what the image check adds, then what the
    form-control check adds, then what the heading check adds. *)
Lemma analyzeDocument_parts host doc filePath issues :
  StaticAnalyzer.analyzeDocument host doc filePath = Ok issues ->
  exists labels,
    issues = (imagePass filePath (Cheerio.byTag ["img"] doc) ++ labels
              ++ headingPass filePath (Cheerio.byTag StaticAnalyzer.headingTags doc))%list
    /\ Forall (fun x => exists i t, x = StaticAnalyzer.inputLabelIssue i t filePath) labels.
Proof.
  unfold StaticAnalyzer.analyzeDocument. cbv zeta.
  fold (imagePass filePath (Cheerio.byTag ["img"] doc)).
  unfold forEach at 1.
  destruct (forEachFrom (StaticAnalyzer.labelCheck host doc filePath) 0 _ _)
    as [out|m] eqn:E; cbn [bind]; [|discriminate].
  apply label_loop in E. destruct E as (labels & -> & Hlabels).
  destruct (forEach (StaticAnalyzer.headingCheck filePath) _ _) as [lvl out] eqn:E.
  intros H. injection H as <-.
  assert (S : snd (forEach (StaticAnalyzer.headingCheck filePath)
                     (Cheerio.byTag StaticAnalyzer.headingTags doc)
                     (Some 0, (imagePass filePath (Cheerio.byTag ["img"] doc) ++ labels)%list))
              = out) by now rewrite E.
  unfold forEach in S. rewrite heading_loop in S by apply byTag_tags.
  exists labels. split; [|exact Hlabels].
  rewrite <- S, heading_pass_trace, <- app_assoc. reflexivity.
Qed.

Lemma headingTrace_shape filePath tags :
  forall k previous,
    Forall (fun x => exists i p c t, x = StaticAnalyzer.headingIssue i p c t filePath)
           (headingTrace filePath k previous tags).
Proof.
  induction tags as [|t tags IH]; intros k previous; cbn [headingTrace];
    [constructor|].
  apply Forall_app. split; [|apply IH].
  destruct (Nat.ltb _ _); constructor; eauto.
Qed.

Lemma imagePass_shape filePath images :
  Forall (fun x => exists i src, x = StaticAnalyzer.imgAltIssue i src filePath)
         (imagePass filePath images).
Proof.
  unfold imagePass. rewrite image_loop. cbn [app].
  generalize 0 as k.
  induction images as [|e images IH]; intros k; cbn [List.length seq combine flat_map];
    [constructor|].
  apply Forall_app. split; [|apply IH].
  cbn [fst snd]. unfold issuesOfImage.
  destruct (Cheerio.attr e "alt"); constructor; eauto.
Qed.

(** Among the issues of a completed scan, those of the heading rule are the
    ones the heading check added. *)
Lemma heading_issues_of_scan host doc filePath issues :
  StaticAnalyzer.analyzeDocument host doc filePath = Ok issues ->
  filter isHeadingIssue issues
  = headingPass filePath (Cheerio.byTag StaticAnalyzer.headingTags doc).
Proof.
  intros H. apply analyzeDocument_parts in H. destruct H as (labels & -> & Hlabels).
  rewrite !filter_app.
  rewrite (filter_none isHeadingIssue (imagePass _ _)).
  2:{ eapply Forall_impl; [|apply imagePass_shape].
      intros x (i & src & ->). reflexivity. }
  rewrite (filter_none isHeadingIssue labels).
  2:{ eapply Forall_impl; [|exact Hlabels].
      intros x (i & t & ->). reflexivity. }
  cbn [app]. apply forallb_filter_id.
  apply forallb_forall. apply Forall_forall.
  rewrite heading_pass_trace.
  eapply Forall_impl; [|apply headingTrace_shape].
  intros x (i & p & c & t & ->). reflexivity.
Qed.

(** C4, as the code has it.  The heading check walks the headings in
    document order with a tracked level that starts at 0 and becomes the
    level of each heading met, reported or not.  A heading is reported
    exactly when its level exceeds the tracked level plus 1: the first
    heading when its level exceeds 1, every later heading when its level
    exceeds the level of the heading just before it plus 1.  Each such
    heading gets one issue, so consecutive skips give one issue each; and
    these are all the heading issues of a scan that completes. *)
Theorem C4_heading_hierarchy (doc : Cheerio.Document) (filePath : string) :
  let headings := Cheerio.byTag StaticAnalyzer.headingTags doc in
  let tags := map Cheerio.tagName headings in
  let levels := map levelOfTag tags in
  headingPass filePath headings
  = map (issueOfHeading filePath tags) (skippingHeadings levels)
  /\ headingsFlaggedBy skipsLevel doc filePath
  /\ (forall host issues,
         StaticAnalyzer.analyzeDocument host doc filePath = Ok issues ->
         filter isHeadingIssue issues = headingPass filePath headings).
Proof.
  intros headings tags levels.
  assert (E : headingPass filePath headings
              = map (issueOfHeading filePath tags) (skippingHeadings levels)).
  { unfold headings. rewrite heading_pass_trace, headingTrace_by_index.
    unfold skippingHeadings, levels, tags, headings. rewrite !length_map.
    reflexivity. }
  split; [exact E|]. split.
  - unfold headingsFlaggedBy. fold headings. fold tags. fold levels.
    rewrite E, map_map. reflexivity.
  - intros host issues H. now apply heading_issues_of_scan with (host := host).
Qed.

Lemma C4_heading_hierarchy_witness :
  StaticAnalyzer.analyzeDocument Sample.host Sample.page135 "page.html"
  = Ok [StaticAnalyzer.headingIssue 1 1 3 "h3" "page.html";
        StaticAnalyzer.headingIssue 2 3 5 "h5" "page.html"]
  /\ filter isHeadingIssue
       [StaticAnalyzer.headingIssue 1 1 3 "h3" "page.html";
        StaticAnalyzer.headingIssue 2 3 5 "h5" "page.html"]
     = headingPass "page.html"
         (Cheerio.byTag StaticAnalyzer.headingTags Sample.page135).
Proof.
  split; [reflexivity|].
  apply (proj2 (proj2 (C4_heading_hierarchy Sample.page135 "page.html")) Sample.host).
  reflexivity.
Defined.

(** C4 as stated fails: on a page whose only heading is an h2, the first
    heading is reported, against the reading that never flags it. *)
Lemma C4_counterexample :
  StaticAnalyzer.analyzeDocument Sample.host Sample.onlyH2 "page.html"
  = Ok [StaticAnalyzer.headingIssue 0 0 2 "h2" "page.html"]
  /\ ~ headingsFlaggedBy skipsLevelAfterBaseline Sample.onlyH2 "page.html".
Proof.
  split; [reflexivity|].
  unfold headingsFlaggedBy. cbn. discriminate.
Qed.

(* ===================================================================== *)
(** ** When a scan completes                                              *)
(* ===================================================================== *)

(** The form-control check throws for a control exactly when the lookup
    of the label for its id does. *)
Lemma labelCheck_outcome host doc filePath k c st :
  (exists st', StaticAnalyzer.labelCheck host doc filePath k c (Ok st) = Ok st'
               /\ forall idValue m,
                   Cheerio.attr c "id" = Some idValue -> idValue <> EmptyString ->
                   select host doc (labelSelector idValue) <> Throw m)
  \/ (exists idValue m,
         StaticAnalyzer.labelCheck host doc filePath k c (Ok st) = Throw m
         /\ Cheerio.attr c "id" = Some idValue /\ idValue <> EmptyString
         /\ select host doc (labelSelector idValue) = Throw m).
Proof.
  unfold StaticAnalyzer.labelCheck, labelSelector. cbn [bind].
  destruct (Cheerio.attr c "id") as [[|a i]|] eqn:E.
  - left. cbn [bind].
    match goal with
    | |- exists st', (if ?b then _ else _) = _ /\ _ => destruct b
    end; eexists; (split; [reflexivity|]); intros idValue m H N; injection H as <-;
      now contradiction N.
  - destruct (select host doc ("label[for=" ++ dq ++ String a i ++ dq ++ "]"))
      as [labels|m] eqn:S; cbn [bind].
    + left.
      match goal with
      | |- exists st', (if ?b then _ else _) = _ /\ _ => destruct b
      end; eexists; (split; [reflexivity|]); intros idValue m H N; injection H as <-;
        rewrite S; discriminate.
    + right. exists (String a i), m. repeat split; [discriminate | exact S].
  - left. cbn [bind].
    match goal with
    | |- exists st', (if ?b then _ else _) = _ /\ _ => destruct b
    end; eexists; (split; [reflexivity|]); intros idValue m H; discriminate H.
Qed.

Lemma label_loop_fails host doc filePath controls :
  forall k st,
    (exists m,
        forEachFrom (StaticAnalyzer.labelCheck host doc filePath) k controls (Ok st)
        = Throw m)
    <-> exists control idValue m,
          In control controls
          /\ Cheerio.attr control "id" = Some idValue
          /\ idValue <> EmptyString
          /\ select host doc (labelSelector idValue) = Throw m.
Proof.
  induction controls as [|c cs IH]; intros k st; cbn [forEachFrom].
  - split; [intros [m H]; discriminate H | intros (c & i & m & [] & _)].
  - destruct (labelCheck_outcome host doc filePath k c st)
      as [(st' & -> & Fine)|(idValue & m & -> & E & N & S)].
    + rewrite IH. split.
      * intros (control & i & m & H & R). exists control, i, m. split; [now right | exact R].
      * intros (control & i & m & [<-|H] & E & N & S).
        -- now destruct (Fine i m E N).
        -- exists control, i, m. now repeat split.
    + rewrite label_loop_throw. split.
      * intros _. exists c, idValue, m. repeat split; try assumption. now left.
      * intros _. now exists m.
Qed.

(** A scan is abandoned exactly when a label lookup throws. *)
Lemma scan_fails_iff host doc filePath :
  (exists m, StaticAnalyzer.analyzeDocument host doc filePath = Throw m)
  <-> lookupFails host doc.
Proof.
  unfold lookupFails. rewrite <- (label_loop_fails host doc filePath _ 0
                                    (forEach (StaticAnalyzer.imageCheck filePath)
                                       (Cheerio.byTag ["img"] doc) [])).
  unfold StaticAnalyzer.analyzeDocument, forEach. cbv zeta.
  destruct (forEachFrom (StaticAnalyzer.labelCheck host doc filePath) 0 _ _)
    as [out|m]; cbn [bind].
  - destruct (forEachFrom (StaticAnalyzer.headingCheck filePath) 0 _ _) as [lvl issues].
    split; intros [m H]; discriminate H.
  - split; intros _; now exists m.
Qed.

Lemma scan_completes host doc filePath :
  ~ lookupFails host doc ->
  exists issues, StaticAnalyzer.analyzeDocument host doc filePath = Ok issues.
Proof.
  intros N. destruct (StaticAnalyzer.analyzeDocument host doc filePath) as [issues|m] eqn:E.
  - now exists issues.
  - destruct N. apply (scan_fails_iff host doc filePath). now exists m.
Qed.

(** What the scanner emits for a markup file it can read: the issues of
    the scan, or nothing when the scan is abandoned. *)
Lemma analyzeFile_markup host filePath projectPath content :
  readFile host filePath = Ok content ->
  extname host filePath = ".html" ->
  StaticAnalyzer.analyzeFile host filePath projectPath
  = match StaticAnalyzer.analyzeHtmlTemplate host content
            (relative host projectPath filePath) with
    | Ok issues => issues
    | Throw _ => []
    end.
Proof.
  intros R E. unfold StaticAnalyzer.analyzeFile. cbv zeta. rewrite R, E. reflexivity.
Qed.

Lemma emitted_by_scan host filePath projectPath content :
  readFile host filePath = Ok content ->
  extname host filePath = ".html" ->
  (lookupFails host (load host content) ->
   StaticAnalyzer.analyzeFile host filePath projectPath = []
   /\ exists m, StaticAnalyzer.analyzeHtmlTemplate host content
                  (relative host projectPath filePath) = Throw m)
  /\ (~ lookupFails host (load host content) ->
      StaticAnalyzer.analyzeHtmlTemplate host content (relative host projectPath filePath)
      = Ok (StaticAnalyzer.analyzeFile host filePath projectPath)).
Proof.
  intros R E. rewrite (analyzeFile_markup _ _ _ _ R E).
  unfold StaticAnalyzer.analyzeHtmlTemplate. split.
  - intros F. apply (scan_fails_iff host _ (relative host projectPath filePath)) in F.
    destruct F as [m ->]. split; [reflexivity | now exists m].
  - intros N.
    destruct (scan_completes host _ (relative host projectPath filePath) N) as [issues ->].
    reflexivity.
Qed.

(** C5, as the code has it.  In a markup file whose headings are h1, h2,
    h4 in this order the heading check adds exactly one issue, for the h4
    that follows the h2; with the headings h1, h3, h5 it adds exactly two,
    for the h3 and for the h5.  The scanner emits these, and no other
    heading issue, for a file that is read and whose scan completes.  When
    the file cannot be read, or when the lookup of the label of some form
    control of the file throws, so that the scan is abandoned, the scanner
    emits nothing for the file. *)
Theorem C5_heading_examples (host : Host) (filePath projectPath : string) :
  extname host filePath = ".html" ->
  let path := relative host projectPath filePath in
  let emitted := StaticAnalyzer.analyzeFile host filePath projectPath in
  (forall m, readFile host filePath = Throw m -> emitted = [])
  /\ (forall content,
        readFile host filePath = Ok content ->
        let doc := load host content in
        let tags := map Cheerio.tagName (Cheerio.byTag StaticAnalyzer.headingTags doc) in
        let added := headingPass path (Cheerio.byTag StaticAnalyzer.headingTags doc) in
        (tags = ["h1"; "h2"; "h4"] ->
         added = [StaticAnalyzer.headingIssue 2 2 4 "h4" path]
         /\ (~ lookupFails host doc ->
             filter isHeadingIssue emitted = [StaticAnalyzer.headingIssue 2 2 4 "h4" path]
             /\ List.length (filter isHeadingIssue emitted) = 1))
        /\ (tags = ["h1"; "h3"; "h5"] ->
            added = [StaticAnalyzer.headingIssue 1 1 3 "h3" path;
                     StaticAnalyzer.headingIssue 2 3 5 "h5" path]
            /\ (~ lookupFails host doc ->
                filter isHeadingIssue emitted
                = [StaticAnalyzer.headingIssue 1 1 3 "h3" path;
                   StaticAnalyzer.headingIssue 2 3 5 "h5" path]
                /\ List.length (filter isHeadingIssue emitted) = 2))
        /\ (lookupFails host doc ->
            emitted = []
            /\ exists m, StaticAnalyzer.analyzeHtmlTemplate host content path = Throw m)
        /\ (~ lookupFails host doc ->
            StaticAnalyzer.analyzeHtmlTemplate host content path = Ok emitted)).
Proof.
  intros X path emitted. split.
  { intros m R. unfold emitted, StaticAnalyzer.analyzeFile. cbv zeta. now rewrite R. }
  intros content R doc tags added.
  destruct (emitted_by_scan host filePath projectPath content R X) as [Fails Completes].
  fold doc in Fails, Completes. fold path in Fails, Completes.
  fold emitted in Fails, Completes.
  assert (Scan : ~ lookupFails host doc -> filter isHeadingIssue emitted = added).
  { intros N. apply (heading_issues_of_scan host). exact (Completes N). }
  assert (Trace : added = headingTrace path 0 0 tags).
  { unfold added. now rewrite heading_pass_trace. }
  split; [|split; [|split]].
  - intros E. rewrite E in Trace. split; [exact Trace|].
    intros N. rewrite (Scan N), Trace. split; reflexivity.
  - intros E. rewrite E in Trace. split; [exact Trace|].
    intros N. rewrite (Scan N), Trace. split; reflexivity.
  - exact Fails.
  - exact Completes.
Qed.

Lemma C5_heading_examples_witness :
  filter isHeadingIssue
    (StaticAnalyzer.analyzeFile Sample.host "/app/src/index.html" "/app")
  = [StaticAnalyzer.headingIssue 2 2 4 "h4" "src/index.html"].
Proof.
  refine (proj1 (proj2 (proj1 (proj2 (C5_heading_examples Sample.host
                                        "/app/src/index.html" "/app" eq_refl)
                                 _ eq_refl) eq_refl) _)).
  intros (control & idValue & m & H & _). exact H.
Defined.

(** C5 as stated fails: the headings of this file are h1, h2, h4, but the
    id of its text input makes the label lookup throw, and the scanner
    emits no heading issue for the file. *)
Lemma C5_counterexample :
  map Cheerio.tagName
      (Cheerio.byTag StaticAnalyzer.headingTags
         (load Cases.brokenLookupHost
            "<h1>A</h1><input type=text id='a&quot;b'><img src=logo.png><h2>B</h2><h4>C</h4>"))
  = ["h1"; "h2"; "h4"]
  /\ lookupFails Cases.brokenLookupHost Cases.brokenPage
  /\ StaticAnalyzer.analyzeFile Cases.brokenLookupHost "/app/src/form.html" "/app" = []
  /\ List.length
       (filter isHeadingIssue
          (StaticAnalyzer.analyzeFile Cases.brokenLookupHost "/app/src/form.html" "/app"))
     <> 1.
Proof.
  split; [reflexivity|]. split; [|split; [reflexivity | discriminate]].
  exists (Sample.el "input" [("type", "text"); ("id", Cases.quotedId)]),
    Cases.quotedId, "Attribute selector didn't terminate".
  split; [vm_compute; left; reflexivity|]. split; [reflexivity|].
  split; [vm_compute; discriminate | reflexivity].
Qed.

(* ===================================================================== *)
(** ** The image check                                                    *)
(* ===================================================================== *)

Lemma ofNumber_inj n m : ofNumber n = ofNumber m -> n = m.
Proof.
  unfold ofNumber. intros H.
  apply DecimalNat.Unsigned.to_uint_inj.
  assert (E : Some (Nat.to_uint n) = Some (Nat.to_uint m))
    by now rewrite <- !NilEmpty.usu, H.
  now injection E.
Qed.

Lemma hasId_image m j src filePath :
  hasId ("img-alt-" ++ ofNumber m) (StaticAnalyzer.imgAltIssue j src filePath)
  = (j =? m)%nat.
Proof.
  unfold hasId. cbn [id StaticAnalyzer.imgAltIssue].
  change (String.eqb ("img-alt-" ++ ofNumber j) ("img-alt-" ++ ofNumber m))
    with (String.eqb (ofNumber j) (ofNumber m)).
  destruct (Nat.eqb_spec j m) as [->|N].
  - apply String.eqb_refl.
  - apply String.eqb_neq. intros E. apply N. now apply ofNumber_inj.
Qed.

(** Among what the image check adds from index [k] on, nothing bears the
    id of an index below [k]. *)
Lemma image_ids_from filePath images :
  forall k m,
    m < k ->
    filter (hasId ("img-alt-" ++ ofNumber m))
           (flat_map (fun p => issuesOfImage filePath (fst p) (snd p))
                     (combine (seq k (List.length images)) images)) = [].
Proof.
  induction images as [|e images IH]; intros k m Hm; [reflexivity|].
  cbn [List.length seq combine flat_map fst snd].
  rewrite filter_app, IH by lia. rewrite app_nil_r.
  unfold issuesOfImage. destruct (Cheerio.attr e "alt"); [reflexivity|].
  cbn [filter]. rewrite hasId_image.
  destruct (Nat.eqb_spec k m); [lia | reflexivity].
Qed.

(** The issues bearing the id of the image at [i] are what this image
    contributes. *)
Lemma image_ids_at filePath images :
  forall k i image,
    nth_error images i = Some image ->
    filter (hasId ("img-alt-" ++ ofNumber (k + i)))
           (flat_map (fun p => issuesOfImage filePath (fst p) (snd p))
                     (combine (seq k (List.length images)) images))
    = issuesOfImage filePath (k + i) image.
Proof.
  induction images as [|e images IH]; intros k i image H;
    [destruct i; discriminate|].
  cbn [List.length seq combine flat_map fst snd]. rewrite filter_app.
  destruct i as [|i]; cbn [nth_error] in H.
  - injection H as ->. rewrite Nat.add_0_r.
    rewrite image_ids_from by lia. rewrite app_nil_r.
    unfold issuesOfImage. destruct (Cheerio.attr image "alt"); [reflexivity|].
    cbn [filter]. now rewrite hasId_image, Nat.eqb_refl.
  - replace (k + S i) with (S k + i) by lia.
    rewrite (IH (S k) i image H).
    replace (filter _ (issuesOfImage filePath k e)) with (@nil AccessibilityIssue);
      [reflexivity|].
    unfold issuesOfImage. destruct (Cheerio.attr e "alt"); [reflexivity|].
    cbn [filter]. rewrite hasId_image.
    destruct (Nat.eqb_spec k (S k + i)); [lia | reflexivity].
Qed.

(** The number of image issues is the number of images without [alt]. *)
Lemma image_issue_count filePath images :
  List.length (imagePass filePath images)
  = List.length (filter (fun e => match Cheerio.attr e "alt" with
                               | None => true
                               | Some _ => false
                               end) images).
Proof.
  unfold imagePass. rewrite image_loop. cbn [app].
  generalize 0 as k.
  induction images as [|e images IH]; intros k; [reflexivity|].
  cbn [List.length seq combine flat_map fst snd filter].
  rewrite length_app, IH. unfold issuesOfImage.
  destruct (Cheerio.attr e "alt"); reflexivity.
Qed.

(** Among the issues of a completed scan, those of the image rule are the
    ones the image check added: one for each image without [alt]. *)
Lemma image_issues_of_scan host doc filePath issues :
  StaticAnalyzer.analyzeDocument host doc filePath = Ok issues ->
  filter isImageIssue issues = imagePass filePath (Cheerio.byTag ["img"] doc)
  /\ List.length (filter isImageIssue issues)
     = List.length (filter (fun e => match Cheerio.attr e "alt" with
                                  | None => true
                                  | Some _ => false
                                  end) (Cheerio.byTag ["img"] doc)).
Proof.
  intros H. apply analyzeDocument_parts in H. destruct H as (labels & -> & Hlabels).
  assert (E : filter isImageIssue
                (imagePass filePath (Cheerio.byTag ["img"] doc) ++ labels
                 ++ headingPass filePath (Cheerio.byTag StaticAnalyzer.headingTags doc))
              = imagePass filePath (Cheerio.byTag ["img"] doc)).
  { rewrite !filter_app.
    rewrite (filter_none isImageIssue labels).
    2:{ eapply Forall_impl; [|exact Hlabels].
        intros x (i & t & ->). reflexivity. }
    rewrite (filter_none isImageIssue (headingPass _ _)).
    2:{ rewrite heading_pass_trace.
        eapply Forall_impl; [|apply headingTrace_shape].
        intros x (i & p & c & t & ->). reflexivity. }
    rewrite !app_nil_r. apply forallb_filter_id.
    apply forallb_forall. apply Forall_forall.
    eapply Forall_impl; [|apply imagePass_shape].
    intros x (i & src & ->). reflexivity. }
  rewrite E. split; [reflexivity | apply image_issue_count].
Qed.

(** The image check, image by image: what it adds under the id of an
    image, and what a completed scan holds under that id. *)
Lemma image_issues_by_id (doc : Cheerio.Document) (filePath : string)
        (i : nat) (image : Cheerio.Element) :
  nth_error (Cheerio.byTag ["img"] doc) i = Some image ->
  let mine := hasId ("img-alt-" ++ ofNumber i) in
  let added := imagePass filePath (Cheerio.byTag ["img"] doc) in
  (Cheerio.attr image "alt" = None ->
   exists issue,
     filter mine added = [issue]
     /\ severity issue = Serious
     /\ wcagCriterion issue = "1.1.1"
     /\ wcagLevel issue = LevelA
     /\ forall host issues,
          StaticAnalyzer.analyzeDocument host doc filePath = Ok issues ->
          filter mine issues = [issue])
  /\ (forall alt,
        Cheerio.attr image "alt" = Some alt ->
        filter mine added = []
        /\ forall host issues,
             StaticAnalyzer.analyzeDocument host doc filePath = Ok issues ->
             filter mine issues = []).
Proof.
  intros Hi mine added.
  assert (A : filter mine added = issuesOfImage filePath i image).
  { unfold added, imagePass, mine. rewrite image_loop. cbn [app].
    apply (image_ids_at filePath _ 0 i image Hi). }
  assert (B : forall host issues,
             StaticAnalyzer.analyzeDocument host doc filePath = Ok issues ->
             filter mine issues = issuesOfImage filePath i image).
  { intros host issues H. apply analyzeDocument_parts in H.
    destruct H as (labels & -> & Hlabels).
    rewrite !filter_app. fold added. rewrite A.
    rewrite (filter_none mine labels).
    2:{ eapply Forall_impl; [|exact Hlabels].
        intros x (j & t & ->). reflexivity. }
    rewrite (filter_none mine (headingPass _ _)).
    2:{ rewrite heading_pass_trace.
        eapply Forall_impl; [|apply headingTrace_shape].
        intros x (j & p & c & t & ->). reflexivity. }
    now rewrite !app_nil_r. }
  unfold issuesOfImage in A, B. split.
  - intros E. rewrite E in A, B. eexists. split; [exact A|].
    repeat (split; [reflexivity|]). exact B.
  - intros alt E. rewrite E in A, B. split; [exact A | exact B].
Qed.

(** C6, as the code has it.  For every image of a markup file the image
    check adds exactly one issue when the image has no alt attribute, of
    severity serious, criterion 1.1.1 and level A, and none when the
    attribute is there, be its value empty.  The scanner emits that issue
    for a file that is read and whose scan completes.  When the file
    cannot be read, or when the lookup of the label of some form control
    of the file throws, so that the scan is abandoned, the scanner emits
    nothing for the file, whatever its images lack. *)
Theorem C6_image_alt (host : Host) (filePath projectPath : string) :
  extname host filePath = ".html" ->
  let path := relative host projectPath filePath in
  let emitted := StaticAnalyzer.analyzeFile host filePath projectPath in
  (forall m, readFile host filePath = Throw m -> emitted = [])
  /\ (forall content i image,
        readFile host filePath = Ok content ->
        let doc := load host content in
        nth_error (Cheerio.byTag ["img"] doc) i = Some image ->
        let mine := hasId ("img-alt-" ++ ofNumber i) in
        let added := imagePass path (Cheerio.byTag ["img"] doc) in
        (Cheerio.attr image "alt" = None ->
         exists issue,
           filter mine added = [issue]
           /\ severity issue = Serious
           /\ wcagCriterion issue = "1.1.1"
           /\ wcagLevel issue = LevelA
           /\ (~ lookupFails host doc -> filter mine emitted = [issue]))
        /\ (forall alt,
              Cheerio.attr image "alt" = Some alt ->
              filter mine added = [] /\ filter mine emitted = [])
        /\ (lookupFails host doc ->
            emitted = []
            /\ exists m, StaticAnalyzer.analyzeHtmlTemplate host content path = Throw m)
        /\ (~ lookupFails host doc ->
            StaticAnalyzer.analyzeHtmlTemplate host content path = Ok emitted)).
Proof.
  intros X path emitted. split.
  { intros m R. unfold emitted, StaticAnalyzer.analyzeFile. cbv zeta. now rewrite R. }
  intros content i image R doc Hi mine added.
  destruct (emitted_by_scan host filePath projectPath content R X) as [Fails Completes].
  fold doc in Fails, Completes. fold path in Fails, Completes.
  fold emitted in Fails, Completes.
  destruct (image_issues_by_id doc path i image Hi) as [Absent Present].
  split; [|split; [|split]].
  - intros E. destruct (Absent E) as (issue & A & S1 & S2 & S3 & Scan).
    exists issue. repeat (split; [assumption|]).
    intros N. exact (Scan host emitted (Completes N)).
  - intros alt E. destruct (Present alt E) as [A Scan]. split; [exact A|].
    destruct (StaticAnalyzer.analyzeHtmlTemplate host content path) as [issues|m] eqn:T.
    + assert (N : ~ lookupFails host doc).
      { intros F. destruct (Fails F) as [_ [m' T']]. discriminate T'. }
      pose proof (Completes N) as C. injection C as C. rewrite <- C.
      exact (Scan host issues T).
    + assert (F : lookupFails host doc).
      { apply (scan_fails_iff host doc path). now exists m. }
      now rewrite (proj1 (Fails F)).
  - exact Fails.
  - exact Completes.
Qed.

Lemma C6_image_alt_witness :
  (exists issue,
      filter (hasId "img-alt-0")
             (StaticAnalyzer.analyzeFile Sample.host "/app/src/index.html" "/app")
      = [issue]
      /\ severity issue = Serious)
  /\ filter (hasId "img-alt-1")
            (StaticAnalyzer.analyzeFile Sample.host "/app/src/index.html" "/app")
     = [].
Proof.
  split.
  - destruct (proj1 (proj2 (C6_image_alt Sample.host "/app/src/index.html" "/app"
                              eq_refl) _ 0 _ eq_refl eq_refl) eq_refl)
      as (issue & _ & S & _ & _ & Scan).
    exists issue. split; [|exact S]. apply Scan.
    intros (control & idValue & m & H & _). exact H.
  - apply (proj1 (proj2 (proj2 (C6_image_alt Sample.host "/app/src/index.html" "/app"
                                  eq_refl) _ 1 _ eq_refl eq_refl)) "" eq_refl).
Defined.

(** C6 as stated fails: the image of this file has no alt attribute, but
    the id of the text input makes the label lookup throw, and the
    scanner emits no issue for the image. *)
Lemma C6_counterexample :
  (exists image,
      nth_error (Cheerio.byTag ["img"] Cases.brokenPage) 0 = Some image
      /\ Cheerio.attr image "alt" = None)
  /\ StaticAnalyzer.analyzeHtmlTemplate Cases.brokenLookupHost
       "<h1>A</h1><input type=text id='a&quot;b'><img src=logo.png><h2>B</h2><h4>C</h4>"
       "src/form.html"
     = Throw "Attribute selector didn't terminate"
  /\ filter (hasId "img-alt-0")
            (StaticAnalyzer.analyzeFile Cases.brokenLookupHost "/app/src/form.html" "/app")
     = [].
Proof.
  split; [eexists; split; reflexivity|]. split; reflexivity.
Qed.

(* ===================================================================== *)
(** ** WCAG metadata of a violation                                       *)
(* ===================================================================== *)

Lemma find_none {T} (p : T -> bool) (xs : list T) :
  (forall x, In x xs -> p x = false) -> find p xs = None.
Proof.
  unfold find. induction xs as [|x xs IH]; intros H; cbn [List.find]; [reflexivity|].
  rewrite (H x) by now left. apply IH. intros y Hy. apply H. now right.
Qed.

Lemma find_first {T} (p : T -> bool) (before : list T) (x : T) (after : list T) :
  (forall y, In y before -> p y = false) -> p x = true ->
  find p (before ++ x :: after) = Some x.
Proof.
  unfold find. induction before as [|b before IH]; intros H Hx; cbn [app List.find].
  - now rewrite Hx.
  - rewrite (H b) by now left. apply IH; [|exact Hx].
    intros y Hy. apply H. now right.
Qed.

Lemma count_letter_a (s : string) :
  List.length (filter (fun p => Ascii.eqb p "a") (splitChars s)) = countA s.
Proof.
  unfold splitChars, countA.
  induction (list_ascii_of_string s) as [|c l IH]; [reflexivity|].
  cbn [filter count_occ].
  destruct (Ascii.eqb_spec c "a") as [->|N].
  - destruct (ascii_dec "a" "a"); [cbn [List.length]; now rewrite IH | contradiction].
  - destruct (ascii_dec c "a"); [contradiction | exact IH].
Qed.

Lemma startsWith_append (p rest : string) : startsWith (p ++ rest) p = true.
Proof.
  induction p as [|c p IH]; cbn [append startsWith].
  - now destruct rest.
  - now rewrite Ascii.eqb_refl, IH.
Qed.

Lemma startsWith_split (s p : string) :
  startsWith s p = true -> exists rest, s = p ++ rest.
Proof.
  revert s. induction p as [|c p IH]; intros s H.
  - now exists s.
  - destruct s as [|d s]; cbn [startsWith] in H; [discriminate|].
    apply andb_prop in H. destruct H as [Hc Hs].
    apply Ascii.eqb_eq in Hc. subst d.
    destruct (IH _ Hs) as [rest ->]. now exists rest.
Qed.

(** C3, as the code has it.  The level comes from the first tag that
    starts with wcag, by counting the letter a over the whole of that tag,
    the a of the prefix included: for the tag wcag followed by [rest] the
    count is one more than the number of a in [rest], and a count of 1
    gives A, of 2 gives AA, of 3 or more gives AAA.  Without a tag that
    starts with wcag the level is AA and the criterion is Unknown. *)
Theorem C3_wcag_level (tags : list string) :
  ((forall t, In t tags -> startsWith t "wcag" = false) ->
   DynamicAnalyzer.extractWcagInfo tags
   = {| DynamicAnalyzer.level := LevelAA; DynamicAnalyzer.criterion := "Unknown" |})
  /\ (forall before rest after,
        tags = (before ++ ("wcag" ++ rest)%string :: after)%list ->
        (forall t, In t before -> startsWith t "wcag" = false) ->
        Some (DynamicAnalyzer.level (DynamicAnalyzer.extractWcagInfo tags))
        = levelOfTokenCount (1 + countA rest)).
Proof.
  split.
  - intros H. unfold DynamicAnalyzer.extractWcagInfo.
    now rewrite find_none.
  - intros before rest after -> H.
    unfold DynamicAnalyzer.extractWcagInfo.
    rewrite find_first; [|exact H|apply startsWith_append].
    cbn [DynamicAnalyzer.level]. rewrite count_letter_a.
    assert (E : countA ("wcag" ++ rest) = S (countA rest)) by reflexivity.
    rewrite E. destruct (countA rest) as [|[|n]]; reflexivity.
Qed.

Lemma C3_wcag_level_witness :
  (forall t, In t [("best-practice")%string] -> startsWith t "wcag" = false)
  /\ DynamicAnalyzer.extractWcagInfo ["best-practice"]
     = {| DynamicAnalyzer.level := LevelAA; DynamicAnalyzer.criterion := "Unknown" |}
  /\ Some (DynamicAnalyzer.level (DynamicAnalyzer.extractWcagInfo ["wcag2a"]))
     = levelOfTokenCount (1 + countA "2a")
  /\ levelOfTokenCount (1 + countA "2a") = Some LevelAA.
Proof.
  assert (H : forall t, In t [("best-practice")%string] -> startsWith t "wcag" = false).
  { intros t [<-|[]]. reflexivity. }
  split; [exact H|]. split; [|split; [|reflexivity]].
  - apply (proj1 (C3_wcag_level ["best-practice"]) H).
  - apply (proj2 (C3_wcag_level ["wcag2a"]) [] "2a" [] eq_refl).
    intros t [].
Defined.

(** The tag wcag2a names level A with its single trailing a, and the
    normalizer answers AA; it answers AAA for wcag2aa. *)
Lemma wcag2a_is_reported_AA :
  levelOfTokenCount (countA "2a") = Some LevelA
  /\ DynamicAnalyzer.extractWcagInfo ["wcag2a"]
     = {| DynamicAnalyzer.level := LevelAA; DynamicAnalyzer.criterion := "Unknown" |}
  /\ DynamicAnalyzer.extractWcagInfo ["cat.color"; "wcag2aa"; "wcag143"]
     = {| DynamicAnalyzer.level := LevelAAA; DynamicAnalyzer.criterion := "Unknown" |}.
Proof.
  repeat split.
Qed.

(* ===================================================================== *)
(** ** Searching a text                                                   *)
(* ===================================================================== *)

Lemma includes_contains (s sub : string) :
  includes s sub = true <-> contains s sub.
Proof.
  unfold contains. split.
  - induction s as [|c s IH]; cbn [includes]; intros H.
    + rewrite orb_false_r in H. apply startsWith_split in H.
      destruct H as [rest ->]. now exists EmptyString, rest.
    + apply orb_prop in H. destruct H as [H|H].
      * apply startsWith_split in H. destruct H as [rest ->].
        now exists EmptyString, rest.
      * destruct (IH H) as (before & after & ->).
        now exists (String c before), after.
  - intros (before & after & ->).
    induction before as [|c before IH].
    + cbn [append]. destruct (sub ++ after) eqn:E; cbn [includes];
        rewrite <- E, startsWith_append; reflexivity.
    + cbn [append includes]. rewrite IH. apply orb_true_r.
Qed.

(** The match of a repetition at [s]: either one more character of the
    class and the repetition again, or the rest of the pattern. *)
Lemma matchHere_star_eq cls p s :
  RegExp.matchHere (RegExp.Star cls :: p) s
  = let stop :=
      match RegExp.matchHere p s with
      | Some (groups, rest) => Some (EmptyString :: groups, rest)
      | None => None
      end in
    match s with
    | String c s' =>
        if cls c then
          match RegExp.matchHere (RegExp.Star cls :: p) s' with
          | Some (g :: groups, rest) => Some (String c g :: groups, rest)
          | _ => stop
          end
        else stop
    | EmptyString => stop
    end.
Proof.
  destruct s; reflexivity.
Qed.

Lemma matchHere_star_groups cls p s groups rest :
  RegExp.matchHere (RegExp.Star cls :: p) s = Some (groups, rest) -> groups <> [].
Proof.
  revert groups rest. induction s as [|c s IH]; intros groups rest;
    rewrite matchHere_star_eq; cbv zeta.
  - destruct (RegExp.matchHere p EmptyString) as [[gs r]|]; [|discriminate].
    intros H. injection H as <- _. discriminate.
  - assert (Stop : match RegExp.matchHere p (String c s) with
                   | Some (groups0, rest0) => Some (EmptyString :: groups0, rest0)
                   | None => None
                   end = Some (groups, rest) -> groups <> []).
    { destruct (RegExp.matchHere p (String c s)) as [[gs r]|]; [|discriminate].
      intros H. injection H as <- _. discriminate. }
    destruct (cls c); [|exact Stop].
    destruct (RegExp.matchHere (RegExp.Star cls :: p) s) as [[[|g gs] r]|];
      [exact Stop| |exact Stop].
    intros H. injection H as <- _. discriminate.
Qed.

Lemma matchesAt_one cls p s :
  matchesAt (RegExp.One cls :: p) s
  <-> exists c s', s = String c s' /\ cls c = true /\ matchesAt p s'.
Proof.
  unfold matchesAt. cbn [RegExp.matchHere]. split.
  - destruct s as [|c s]; [tauto|].
    destruct (cls c) eqn:E; [|tauto].
    intros H. exists c, s. repeat split; [exact E|].
    intros N. rewrite N in H. tauto.
  - intros (c & s' & -> & E & H). rewrite E.
    destruct (RegExp.matchHere p s') as [[gs r]|]; [discriminate | tauto].
Qed.

Lemma matchesAt_star cls p s :
  matchesAt (RegExp.Star cls :: p) s
  <-> exists ws s', s = ws ++ s' /\ allOf cls ws = true /\ matchesAt p s'.
Proof.
  unfold matchesAt. split.
  - induction s as [|c s IH]; rewrite matchHere_star_eq; cbv zeta.
    + intros H. exists EmptyString, EmptyString. repeat split.
      intros N. rewrite N in H. tauto.
    + assert (Stop : match RegExp.matchHere p (String c s) with
                     | Some (groups0, rest0) => Some (EmptyString :: groups0, rest0)
                     | None => None
                     end <> None ->
                     exists ws s', String c s = ws ++ s' /\ allOf cls ws = true
                                   /\ RegExp.matchHere p s' <> None).
      { intros H. exists EmptyString, (String c s). repeat split.
        intros N. rewrite N in H. tauto. }
      destruct (cls c) eqn:E; [|exact Stop].
      destruct (RegExp.matchHere (RegExp.Star cls :: p) s) as [[[|g gs] r]|] eqn:M;
        [exact Stop| |exact Stop].
      intros _. destruct IH as (ws & s' & -> & Hws & Hs'); [discriminate|].
      exists (String c ws), s'. cbn [append allOf]. rewrite E, Hws. tauto.
  - intros (ws & s' & -> & Hws & Hs').
    induction ws as [|c ws IH]; cbn [append].
    + rewrite matchHere_star_eq; cbv zeta.
      assert (Stop : match RegExp.matchHere p s' with
                     | Some (groups0, rest0) => Some (EmptyString :: groups0, rest0)
                     | None => None
                     end <> None).
      { destruct (RegExp.matchHere p s') as [[gs r]|]; [discriminate | tauto]. }
      destruct s' as [|c s']; [exact Stop|].
      destruct (cls c); [|exact Stop].
      destruct (RegExp.matchHere (RegExp.Star cls :: p) s') as [[[|g gs] r]|];
        [exact Stop|discriminate|exact Stop].
    + cbn [allOf] in Hws. apply andb_prop in Hws. destruct Hws as [Hc Hws].
      specialize (IH Hws).
      rewrite matchHere_star_eq; cbv zeta. rewrite Hc.
      destruct (RegExp.matchHere (RegExp.Star cls :: p) (ws ++ s'))
        as [[[|g gs] r]|] eqn:M; [|discriminate|tauto].
      now apply matchHere_star_groups in M.
Qed.

Lemma matchesAt_lit w p s :
  matchesAt (RegExp.lit w ++ p)%list s <-> exists s', s = w ++ s' /\ matchesAt p s'.
Proof.
  revert s. induction w as [|c w IH]; intros s; cbn [RegExp.lit app].
  - split; [intros H; now exists s | intros (s' & -> & H); exact H].
  - rewrite matchesAt_one. split.
    + intros (d & s' & -> & Hd & H). apply Ascii.eqb_eq in Hd. subst d.
      apply IH in H. destruct H as (s'' & -> & H). now exists s''.
    + intros (s' & -> & H). exists c, (w ++ s'). repeat split.
      * apply Ascii.eqb_refl.
      * apply IH. now exists s'.
Qed.

Lemma matchesAt_nil s : matchesAt [] s.
Proof. unfold matchesAt. cbn. discriminate. Qed.

(** A global search finds something exactly when the pattern matches at
    some position. *)
Lemma scan_found p s :
  RegExp.scan p 0 s <> [] <-> exists before t, s = before ++ t /\ matchesAt p t.
Proof.
  unfold matchesAt. split.
  - induction s as [|c s IH]; cbn [RegExp.scan].
    + destruct (RegExp.matchHere p EmptyString) as [[gs r]|] eqn:M; [|tauto].
      intros _. exists EmptyString, EmptyString. rewrite M. split; [reflexivity|discriminate].
    + destruct (RegExp.matchHere p (String c s)) as [[gs r]|] eqn:M.
      * intros _. exists EmptyString, (String c s). rewrite M.
        split; [reflexivity|discriminate].
      * intros H. destruct (IH H) as (before & t & -> & Ht).
        now exists (String c before), t.
  - intros (before & t & -> & Ht).
    induction before as [|c before IH]; cbn [append].
    + destruct t as [|c t]; cbn [RegExp.scan];
        destruct (RegExp.matchHere p _) as [[gs r]|]; try discriminate; tauto.
    + cbn [RegExp.scan].
      destruct (RegExp.matchHere p (String c (before ++ t))) as [[gs r]|];
        [intros N; discriminate N | exact IH].
Qed.

(** The pattern of the stylesheet check matches the texts made of outline,
    white space, a colon, white space and none. *)
Lemma outlineNone_matches t :
  matchesAt StaticAnalyzer.outlineNonePattern t
  <-> exists ws1 ws2 after,
      t = "outline" ++ ws1 ++ ":" ++ ws2 ++ "none" ++ after
      /\ allSpace ws1 = true /\ allSpace ws2 = true.
Proof.
  unfold StaticAnalyzer.outlineNonePattern, allSpace.
  rewrite matchesAt_lit. cbn [app]. split.
  - intros (s1 & -> & H).
    apply matchesAt_star in H. destruct H as (ws1 & s2 & -> & H1 & H).
    apply matchesAt_one in H. destruct H as (c & s3 & -> & Hc & H).
    apply Ascii.eqb_eq in Hc. subst c.
    apply matchesAt_star in H. destruct H as (ws2 & s4 & -> & H2 & H).
    rewrite <- (app_nil_r (RegExp.lit "none")) in H.
    apply matchesAt_lit in H. destruct H as (after & -> & _).
    now exists ws1, ws2, after.
  - intros (ws1 & ws2 & after & -> & H1 & H2).
    eexists. split; [reflexivity|].
    apply matchesAt_star. exists ws1. eexists. split; [reflexivity|].
    split; [exact H1|].
    apply matchesAt_one. exists ":"%char. eexists. split; [reflexivity|].
    split; [reflexivity|].
    apply matchesAt_star. exists ws2. eexists. split; [reflexivity|].
    split; [exact H2|].
    rewrite <- (app_nil_r (RegExp.lit "none")).
    apply matchesAt_lit. exists after. split; [reflexivity | apply matchesAt_nil].
Qed.

(** The stylesheet's search for the pattern finds something exactly when
    the text has an occurrence of outline: none. *)
Lemma matchAll_outlineNone content :
  RegExp.matchAll StaticAnalyzer.outlineNonePattern content <> None
  <-> hasOutlineNone content.
Proof.
  unfold RegExp.matchAll, hasOutlineNone.
  assert (E : RegExp.scan StaticAnalyzer.outlineNonePattern 0 content <> []
              <-> match RegExp.scan StaticAnalyzer.outlineNonePattern 0 content with
                  | [] => None
                  | m :: ms => Some (m :: ms)
                  end <> None).
  { destruct (RegExp.scan _ 0 content); split; intros H; try discriminate; tauto. }
  rewrite <- E, scan_found. split.
  - intros (before & t & -> & H). apply outlineNone_matches in H.
    destruct H as (ws1 & ws2 & after & -> & H1 & H2).
    now exists before, ws1, ws2, after.
  - intros (before & ws1 & ws2 & after & -> & H1 & H2).
    exists before. eexists. split; [reflexivity|].
    apply outlineNone_matches. now exists ws1, ws2, after.
Qed.

Lemma focus_selectors content :
  some (fun selector => includes content selector) StaticAnalyzer.focusSelectors = true
  <-> hasFocusSelector content.
Proof.
  unfold some, StaticAnalyzer.focusSelectors, hasFocusSelector. cbn [existsb].
  rewrite orb_false_r, !orb_true_iff, !includes_contains. tauto.
Qed.

(** C9, as the code has it.  A stylesheet gets one outline issue for the
    file as a whole, however many times it removes the outline, exactly
    when it has an occurrence of outline: none (with any white space around
    the colon) and none of the selectors :focus, :focus-visible and
    :focus-within; with one of these selectors anywhere in the file, or
    without such an occurrence, it gets no issue. *)
Theorem C9_outline_none (content filePath : string) :
  (hasFocusSelector content -> StaticAnalyzer.analyzeCssFile content filePath = [])
  /\ (~ hasOutlineNone content -> StaticAnalyzer.analyzeCssFile content filePath = [])
  /\ (hasOutlineNone content -> ~ hasFocusSelector content ->
      StaticAnalyzer.analyzeCssFile content filePath
      = [StaticAnalyzer.outlineNoneIssue filePath]).
Proof.
  unfold StaticAnalyzer.analyzeCssFile. cbv zeta.
  pose proof (focus_selectors content) as F.
  pose proof (matchAll_outlineNone content) as M.
  destruct (some _ StaticAnalyzer.focusSelectors) eqn:EF; cbn [negb andb].
  - repeat split; try reflexivity. intros _ N. exfalso. apply N. now apply F.
  - assert (NF : ~ hasFocusSelector content)
      by (intros H; apply F in H; discriminate).
    destruct (RegExp.matchAll StaticAnalyzer.outlineNonePattern content) as [ms|] eqn:EM.
    + assert (O : hasOutlineNone content) by (apply M; discriminate).
      assert (I : includes content "outline" = true).
      { apply includes_contains.
        destruct O as (before & ws1 & ws2 & after & -> & _).
        exists before. eexists. reflexivity. }
      rewrite I. repeat split; try reflexivity; tauto.
    + assert (O : ~ hasOutlineNone content) by (intros H; apply M in H; tauto).
      destruct (includes content "outline"); repeat split; try reflexivity; tauto.
Qed.

Lemma C9_outline_none_witness :
  StaticAnalyzer.analyzeCssFile "a:focus { outline: none; }" "a.css" = []
  /\ StaticAnalyzer.analyzeCssFile "a { outline: 0; }" "a.css" = []
  /\ StaticAnalyzer.analyzeCssFile "a { outline : none; }" "a.css"
     = [StaticAnalyzer.outlineNoneIssue "a.css"].
Proof.
  split; [|split].
  - apply (proj1 (C9_outline_none "a:focus { outline: none; }" "a.css")).
    left. apply includes_contains. reflexivity.
  - apply (proj1 (proj2 (C9_outline_none "a { outline: 0; }" "a.css"))).
    intros H. apply matchAll_outlineNone in H. apply H. reflexivity.
  - apply (proj2 (proj2 (C9_outline_none "a { outline : none; }" "a.css"))).
    + apply matchAll_outlineNone. discriminate.
    + intros H. apply focus_selectors in H. discriminate H.
Defined.

(** C9 as stated fails: a stylesheet that removes the outline twice and
    styles no focus state gets one issue, not one for each occurrence. *)
Lemma C9_counterexample :
  some (fun selector => includes Sample.twoOutlines selector)
       StaticAnalyzer.focusSelectors = false
  /\ RegExp.matchAll StaticAnalyzer.outlineNonePattern Sample.twoOutlines
     = Some ["outline: none"; "outline : none"]
  /\ StaticAnalyzer.analyzeCssFile Sample.twoOutlines "a.css"
     = [StaticAnalyzer.outlineNoneIssue "a.css"]
  /\ List.length (StaticAnalyzer.analyzeCssFile Sample.twoOutlines "a.css")
     <> List.length (RegExp.scan StaticAnalyzer.outlineNonePattern 0 Sample.twoOutlines).
Proof.
  repeat split. cbn. discriminate.
Qed.


(* ===================================================================== *)
(** * Further properties of the code                                      *)
(* ===================================================================== *)

(* ===================================================================== *)
(** ** The files of a static analysis                                     *)
(* ===================================================================== *)

Lemma dedupe_spec (xs : list string) :
  forall seen,
    NoDup (StaticAnalyzer.dedupe seen xs)
    /\ forall x, In x (StaticAnalyzer.dedupe seen xs) <-> In x xs /\ ~ In x seen.
Proof.
  induction xs as [|x xs IH]; intros seen; cbn [StaticAnalyzer.dedupe].
  - split; [constructor|]. intros y. cbn. tauto.
  - destruct (existsb (String.eqb x) seen) eqn:E.
    + apply existsb_exists in E. destruct E as (z & Hz & Ez).
      apply String.eqb_eq in Ez. subst z.
      destruct (IH seen) as [N M]. split; [exact N|].
      intros y. rewrite M. cbn [In]. split; [tauto|].
      intros [[<-|H] Hs]; tauto.
    + assert (Hx : ~ In x seen).
      { intros H. apply Bool.not_true_iff_false in E. apply E.
        apply existsb_exists. exists x. split; [exact H | apply String.eqb_refl]. }
      destruct (IH (x :: seen)) as [N M]. split.
      * constructor; [|exact N]. rewrite M. cbn [In]. tauto.
      * intros y. cbn [In]. rewrite M. cbn [In].
        destruct (string_dec x y) as [->|D]; [tauto|]. tauto.
Qed.

Lemma globAll_spec host projectPath excludes includes0 :
  forall allFiles,
    StaticAnalyzer.globAll host projectPath includes0 excludes = Ok allFiles ->
    forall f, In f allFiles
              <-> exists pattern files,
                  In pattern includes0
                  /\ glob host pattern projectPath excludes = Ok files
                  /\ In f files.
Proof.
  induction includes0 as [|pattern rest IH]; intros allFiles H f;
    cbn [StaticAnalyzer.globAll] in H.
  - injection H as <-. split; [intros [] | intros (p & fs & [] & _)].
  - destruct (glob host pattern projectPath excludes) as [files|m] eqn:G;
      cbn [bind] in H; [|discriminate].
    destruct (StaticAnalyzer.globAll host projectPath rest excludes) as [more|m] eqn:R;
      cbn [bind] in H; [|discriminate].
    injection H as <-. rewrite in_app_iff, (IH more eq_refl f). split.
    + intros [Hf | (p & fs & Hp & Hg & Hf)].
      * exists pattern, files. cbn [In]. tauto.
      * exists p, fs. cbn [In]. tauto.
    + intros (p & fs & [<-|Hp] & Hg & Hf).
      * left. rewrite G in Hg. now injection Hg as <-.
      * right. now exists p, fs.
Qed.

(** X1. The files a static analysis looks at: every file that some include
    pattern matches, each one once, however many patterns match it. *)
Theorem X1_findFiles_once (host : Host) (projectPath : string)
        (includePatterns excludePatterns files : list string) :
  StaticAnalyzer.findFiles host projectPath includePatterns excludePatterns = Ok files ->
  NoDup files
  /\ forall f, In f files
               <-> exists pattern matched,
                   In pattern includePatterns
                   /\ glob host pattern projectPath excludePatterns = Ok matched
                   /\ In f matched.
Proof.
  unfold StaticAnalyzer.findFiles. intros H.
  destruct (StaticAnalyzer.globAll host projectPath includePatterns excludePatterns)
    as [allFiles|m] eqn:G; cbn [bind] in H; [|discriminate].
  injection H as <-. destruct (dedupe_spec allFiles []) as [N M].
  split; [exact N|]. intros f. rewrite M, (globAll_spec _ _ _ _ _ G f).
  cbn [In]. tauto.
Qed.

Lemma X1_findFiles_once_witness :
  StaticAnalyzer.findFiles Cases.overlapHost "/app" ["**/*.ts"; "**/*"] []
  = Ok ["/app/a.ts"; "/app/b.html"]
  /\ NoDup [("/app/a.ts")%string; ("/app/b.html")%string].
Proof.
  split; [reflexivity|].
  apply (X1_findFiles_once Cases.overlapHost "/app" ["**/*.ts"; "**/*"] []).
  reflexivity.
Defined.

(** The search stops at the first include pattern whose glob fails. *)
Lemma globAll_first_failure host projectPath excludePatterns before pattern after m :
  (forall p, In p before ->
     exists matched, glob host p projectPath excludePatterns = Ok matched) ->
  glob host pattern projectPath excludePatterns = Throw m ->
  StaticAnalyzer.globAll host projectPath (before ++ pattern :: after)%list excludePatterns
  = Throw m.
Proof.
  intros H G. induction before as [|p before IH]; cbn [app StaticAnalyzer.globAll].
  - now rewrite G.
  - destruct (H p (or_introl eq_refl)) as [matched ->]. cbn [bind].
    rewrite IH; [reflexivity|]. intros q Hq. apply H. now right.
Qed.

Lemma globAll_succeeds host projectPath excludePatterns includePatterns :
  (forall pattern,
      In pattern includePatterns ->
      exists matched, glob host pattern projectPath excludePatterns = Ok matched) ->
  exists all,
    StaticAnalyzer.globAll host projectPath includePatterns excludePatterns = Ok all.
Proof.
  induction includePatterns as [|p rest IH]; intros H; cbn [StaticAnalyzer.globAll].
  - now exists [].
  - destruct (H p (or_introl eq_refl)) as [matched ->]. cbn [bind].
    destruct IH as [more ->]; [intros q Hq; apply H; now right|].
    cbn [bind]. eauto.
Qed.

Lemma globAll_failure host projectPath excludePatterns includePatterns m :
  StaticAnalyzer.globAll host projectPath includePatterns excludePatterns = Throw m ->
  exists pattern,
    In pattern includePatterns
    /\ glob host pattern projectPath excludePatterns = Throw m.
Proof.
  revert m. induction includePatterns as [|p rest IH]; intros m H;
    cbn [StaticAnalyzer.globAll] in H; [discriminate|].
  destruct (glob host p projectPath excludePatterns) as [matched|m'] eqn:E;
    cbn [bind] in H.
  - destruct (StaticAnalyzer.globAll host projectPath rest excludePatterns)
      as [more|m'] eqn:R; cbn [bind] in H; [discriminate|].
    injection H as ->. destruct (IH m eq_refl) as (q & Hq & Eq).
    exists q. split; [now right | exact Eq].
  - injection H as ->. exists p. split; [now left | exact E].
Qed.

(** X2. A static analysis fails exactly when the glob of one of its include
    patterns fails, and then with the error of the first glob that fails;
    otherwise it returns a static result on the project path whose issues
    are the issues of the files found, file after file.  What goes wrong
    with a single file never fails the analysis: a file that cannot be
    read, or whose template or source analysis throws, contributes no
    issue. *)
Theorem X2_static_outcome (host : Host) (options : StaticAnalysisOptions) :
  ((forall pattern,
       In pattern (includesOf options) ->
       exists matched,
         glob host pattern (sa_projectPath options) (excludesOf options) = Ok matched) ->
   exists files r,
     StaticAnalyzer.findFiles host (sa_projectPath options)
       (includesOf options) (excludesOf options) = Ok files
     /\ StaticAnalyzer.analyze host options = Ok r
     /\ issues r
        = flat_map (fun filePath =>
                      StaticAnalyzer.analyzeFile host filePath (sa_projectPath options))
                   files
     /\ analysisType r = Static
     /\ projectPath r = Some (sa_projectPath options)
     /\ url r = None)
  /\ (forall m,
        StaticAnalyzer.analyze host options = Throw m ->
        exists pattern,
          In pattern (includesOf options)
          /\ glob host pattern (sa_projectPath options) (excludesOf options) = Throw m)
  /\ (forall before pattern after m,
        includesOf options = (before ++ pattern :: after)%list ->
        (forall p, In p before ->
           exists matched,
             glob host p (sa_projectPath options) (excludesOf options) = Ok matched) ->
        glob host pattern (sa_projectPath options) (excludesOf options) = Throw m ->
        StaticAnalyzer.analyze host options = Throw m)
  /\ (forall filePath m,
        readFile host filePath = Throw m ->
        StaticAnalyzer.analyzeFile host filePath (sa_projectPath options) = [])
  /\ (forall filePath content m,
        readFile host filePath = Ok content ->
        (extname host filePath = ".html"
         /\ StaticAnalyzer.analyzeHtmlTemplate host content
              (relative host (sa_projectPath options) filePath) = Throw m)
        \/ (extname host filePath = ".ts"
            /\ StaticAnalyzer.analyzeTypeScriptFile host content
                 (relative host (sa_projectPath options) filePath) = Throw m) ->
        StaticAnalyzer.analyzeFile host filePath (sa_projectPath options) = []).
Proof.
  split; [|split; [|split; [|split]]].
  - intros H. unfold StaticAnalyzer.analyze, StaticAnalyzer.findFiles.
    fold (includesOf options). fold (excludesOf options).
    destruct (globAll_succeeds host _ _ _ H) as [all ->]. cbn [bind].
    do 2 eexists. repeat split.
  - intros m H. unfold StaticAnalyzer.analyze, StaticAnalyzer.findFiles in H.
    fold (includesOf options) in H. fold (excludesOf options) in H.
    destruct (StaticAnalyzer.globAll host (sa_projectPath options) (includesOf options)
                (excludesOf options)) as [all|m'] eqn:E; cbn [bind] in H;
      [discriminate|].
    injection H as ->. now apply globAll_failure.
  - intros before pattern after m E H G.
    unfold StaticAnalyzer.analyze, StaticAnalyzer.findFiles.
    fold (includesOf options). fold (excludesOf options). rewrite E.
    now rewrite (globAll_first_failure host _ _ before pattern after m H G).
  - intros filePath m R. unfold StaticAnalyzer.analyzeFile. cbv zeta.
    now rewrite R.
  - intros filePath content m R [[E T]|[E T]];
      unfold StaticAnalyzer.analyzeFile; cbv zeta; rewrite R, E; cbn [bind String.eqb];
      now rewrite T.
Qed.

Lemma X2_static_outcome_witness :
  (exists r,
      StaticAnalyzer.analyze Cases.overlapHost Cases.overlapOptions = Ok r
      /\ issues r = [])
  /\ StaticAnalyzer.analyze Cases.overlapHost Cases.badPatternOptions
     = Throw "Invalid pattern"
  /\ StaticAnalyzer.analyzeFile Cases.overlapHost "/app/b.html" "/app" = [].
Proof.
  split; [|split].
  - destruct (proj1 (X2_static_outcome Cases.overlapHost Cases.overlapOptions))
      as (files & r & F & A & I & _).
    + intros pattern [<-|[<-|[]]]; eexists; reflexivity.
    + exists r. split; [exact A|].
      rewrite I. injection F as <-. reflexivity.
  - apply (proj1 (proj2 (proj2 (X2_static_outcome Cases.overlapHost Cases.badPatternOptions)))
             ["**/*.ts"] "[" ["**/*"] "Invalid pattern").
    + reflexivity.
    + intros p [<-|[]]. eexists; reflexivity.
    + reflexivity.
  - apply (proj1 (proj2 (proj2 (proj2 (X2_static_outcome Cases.overlapHost
                                         Cases.overlapOptions))))
             "/app/b.html" "EACCES: permission denied").
    reflexivity.
Defined.

(* ===================================================================== *)
(** ** The issues of a dynamic analysis                                   *)
(* ===================================================================== *)

Lemma node_loop violation index severity wcagInfo nodes :
  forall k st,
    forEachFrom
      (fun nodeIndex node issues =>
         (issues ++ [DynamicAnalyzer.nodeIssue violation index severity wcagInfo
                       nodeIndex node])%list)
      k nodes st
    = (st ++ map (fun p => DynamicAnalyzer.nodeIssue violation index severity wcagInfo
                             (fst p) (snd p))
                 (combine (seq k (List.length nodes)) nodes))%list.
Proof.
  induction nodes as [|n nodes IH]; intros k st; cbn [forEachFrom List.length seq combine map].
  - now rewrite app_nil_r.
  - rewrite IH, <- app_assoc. reflexivity.
Qed.

(** The conversion lists, violation after violation, one issue for each
    node of the violation. *)
Lemma convertAxeResults_by_violation axeResults pageUrl :
  DynamicAnalyzer.convertAxeResults axeResults pageUrl
  = flat_map (fun p => issuesOfViolation (fst p) (snd p))
             (combine (seq 0 (List.length (violationsOf axeResults)))
                      (violationsOf axeResults)).
Proof.
  unfold DynamicAnalyzer.convertAxeResults, violationsOf.
  destruct (Axe.violations axeResults) as [violations|]; [|reflexivity].
  unfold forEach at 1.
  rewrite (forEachFrom_push _ issuesOfViolation); [reflexivity|].
  intros i v st. unfold forEach, issuesOfViolation. apply node_loop.
Qed.

Lemma in_indexed {T} (xs : list T) :
  forall s k x,
    In (k, x) (combine (seq s (List.length xs)) xs)
    <-> s <= k /\ nth_error xs (k - s) = Some x.
Proof.
  induction xs as [|y xs IH]; intros s k x; cbn [List.length seq combine In].
  - split; [tauto|]. intros [_ H]. now destruct (k - s).
  - rewrite IH. split.
    + intros [E|[L H]].
      * injection E as <- <-. rewrite Nat.sub_diag. split; [lia | reflexivity].
      * split; [lia|]. replace (k - s) with (S (k - S s)) by lia. exact H.
    + intros [L H]. destruct (k - s) as [|d] eqn:D.
      * left. cbn in H. injection H as <-. f_equal. lia.
      * right. split; [lia|]. cbn in H. now replace (k - S s) with d by lia.
Qed.

Lemma nth_error_indexed {T B} (f : nat -> T -> B) (xs : list T) :
  forall s k x,
    nth_error xs k = Some x ->
    nth_error (map (fun p => f (fst p) (snd p)) (combine (seq s (List.length xs)) xs)) k
    = Some (f (s + k) x).
Proof.
  induction xs as [|y xs IH]; intros s k x H; [now destruct k|].
  destruct k as [|k]; cbn [List.length seq combine map nth_error fst snd] in *.
  - injection H as <-. now rewrite Nat.add_0_r.
  - rewrite (IH (S s) k x H). f_equal. f_equal. lia.
Qed.

(** X3. The normalizer gives every node of every violation its own issue
    and nothing else: the issue of the node at place k of the violation
    at place j is in the list, numbered j and k, with the rule and the
    severity of that very violation and the markup of that very node,
    tagged dynamic and naming no file; every issue of the list is such an
    issue; the list goes violation by violation, node by node, so it is as
    long as the violations have nodes; and it is empty when the auditor
    reports no violations list. *)
Theorem X3_one_issue_per_node (axeResults : Axe.Results) (pageUrl : string) :
  let converted := DynamicAnalyzer.convertAxeResults axeResults pageUrl in
  converted
  = flat_map (fun p => issuesOfViolation (fst p) (snd p))
             (combine (seq 0 (List.length (violationsOf axeResults)))
                      (violationsOf axeResults))
  /\ (forall j violation k node,
        nth_error (violationsOf axeResults) j = Some violation ->
        nth_error (Axe.nodes violation) k = Some node ->
        In (issueOfNode j violation k node) converted
        /\ nth_error (issuesOfViolation j violation) k
           = Some (issueOfNode j violation k node)
        /\ id (issueOfNode j violation k node)
           = "axe-" ++ Axe.id violation ++ "-" ++ ofNumber j ++ "-" ++ ofNumber k
        /\ rule (issueOfNode j violation k node) = Axe.id violation
        /\ severity (issueOfNode j violation k node)
           = DynamicAnalyzer.mapAxeSeverity (Axe.impact violation)
        /\ element (issueOfNode j violation k node) = Some (Axe.html node)
        /\ source (issueOfNode j violation k node) = Dynamic
        /\ file (issueOfNode j violation k node) = None)
  /\ Forall (fun issue =>
               exists j violation k node,
                 nth_error (violationsOf axeResults) j = Some violation
                 /\ nth_error (Axe.nodes violation) k = Some node
                 /\ issue = issueOfNode j violation k node)
            converted
  /\ List.length converted
     = list_sum (map (fun v => List.length (Axe.nodes v)) (violationsOf axeResults))
  /\ (Axe.violations axeResults = None -> converted = []).
Proof.
  intros converted. subst converted. rewrite convertAxeResults_by_violation.
  assert (Nodes : forall j violation,
             issuesOfViolation j violation
             = map (fun p => issueOfNode j violation (fst p) (snd p))
                   (combine (seq 0 (List.length (Axe.nodes violation)))
                            (Axe.nodes violation))) by reflexivity.
  split; [reflexivity|]. split; [|split; [|split]].
  - intros j violation k node Hv Hn.
    assert (Here : In (issueOfNode j violation k node) (issuesOfViolation j violation)).
    { rewrite Nodes. apply in_map_iff. exists (k, node). split; [reflexivity|].
      apply in_indexed. rewrite Nat.sub_0_r. split; [lia | exact Hn]. }
    split; [|split; [|repeat split]].
    + apply in_flat_map. exists (j, violation). split; [|exact Here].
      apply in_indexed. rewrite Nat.sub_0_r. split; [lia | exact Hv].
    + rewrite Nodes.
      exact (nth_error_indexed (issueOfNode j violation) _ 0 k node Hn).
  - apply Forall_forall. intros issue Hi. apply in_flat_map in Hi.
    destruct Hi as ([j violation] & Hv & Hi). cbn [fst snd] in Hi.
    rewrite Nodes in Hi. apply in_map_iff in Hi. destruct Hi as ([k node] & <- & Hn).
    apply in_indexed in Hv. apply in_indexed in Hn. rewrite Nat.sub_0_r in Hv, Hn.
    exists j, violation, k, node. cbn [fst snd]. now repeat split.
  - generalize 0 as k.
    induction (violationsOf axeResults) as [|v vs IH]; intros k; [reflexivity|].
    cbn [List.length seq combine flat_map map list_sum fold_right fst snd].
    change (fold_right Init.Nat.add 0 (map (fun v0 => List.length (Axe.nodes v0)) vs))
      with (list_sum (map (fun v0 => List.length (Axe.nodes v0)) vs)).
    rewrite length_app, IH.
    unfold issuesOfViolation. rewrite length_map, length_combine, length_seq.
    now rewrite Nat.min_id.
  - unfold violationsOf. now intros ->.
Qed.

Lemma X3_one_issue_per_node_witness :
  In {| id := "axe-color-contrast-0-0";
        rule := "color-contrast";
        severity := Minor;
        wcagLevel := LevelAAA;
        wcagCriterion := "Unknown";
        description := "Elements must have sufficient color contrast";
        helpText := "Ensure the contrast between foreground and background colors";
        wcagUrl := "https://dequeuniversity.com/rules/axe/4.8/color-contrast";
        element := Some "<p>";
        selector := Some "p";
        file := None;
        source := Dynamic |}
     (DynamicAnalyzer.convertAxeResults Sample.axeResults "http://localhost:4200").
Proof.
  exact (proj1 (proj1 (proj2 (X3_one_issue_per_node Sample.axeResults
                                "http://localhost:4200"))
                  0 (Sample.violation "blocker" ["cat.color"; "wcag2aa"; "wcag143"])
                  0 {| Axe.html := "<p>"; Axe.target := ["p"] |} eq_refl eq_refl)).
Defined.



Lemma analyzePages_skips host options pages :
  forall allIssues,
    DynamicAnalyzer.analyzePages host pages options allIssues
    = (allIssues ++ flat_map (pageIssues host options) pages)%list.
Proof.
  induction pages as [|pageUrl rest IH]; intros allIssues;
    cbn [DynamicAnalyzer.analyzePages flat_map].
  - now rewrite app_nil_r.
  - unfold pageIssues at 1.
    destruct (DynamicAnalyzer.analyzePage host pageUrl options) as [found|m];
      rewrite IH; [now rewrite app_assoc | reflexivity].
Qed.

(** X4. A dynamic analysis fails when the browser cannot be launched or
    when the main page cannot be analyzed, with that error.  Otherwise it
    returns a dynamic result on the main URL whose issues are those of the
    main page followed by those of the additional pages in order, where an
    additional page that fails is skipped and the pages after it are still
    analyzed. *)
Theorem X4_dynamic_outcome (host : Host) (options : DynamicAnalysisOptions) :
  (forall m, launch host = Throw m -> DynamicAnalyzer.analyze host options = Throw m)
  /\ (forall u m,
        launch host = Ok u ->
        audit host options (da_url options) = Throw m ->
        DynamicAnalyzer.analyze host options = Throw m)
  /\ (forall u axeResults,
        launch host = Ok u ->
        audit host options (da_url options) = Ok axeResults ->
        exists r,
          DynamicAnalyzer.analyze host options = Ok r
          /\ issues r
             = (DynamicAnalyzer.convertAxeResults axeResults (da_url options)
                ++ flat_map (pageIssues host options) (additionalPages options))%list
          /\ analysisType r = Dynamic
          /\ url r = Some (da_url options)).
Proof.
  unfold DynamicAnalyzer.analyze, DynamicAnalyzer.analyzePage.
  split; [|split].
  - now intros m ->.
  - intros u m -> E. cbn [bind]. now rewrite E.
  - intros u axeResults -> E. cbn [bind]. rewrite E. cbn [bind].
    eexists. split; [reflexivity|]. cbn [issues analysisType url].
    repeat split. unfold additionalPages.
    destruct (da_pages options) as [[|p ps]|]; cbn [flat_map];
      rewrite ?app_nil_r; try reflexivity.
    apply analyzePages_skips.
Qed.

Lemma X4_dynamic_outcome_witness :
  DynamicAnalyzer.analyze Cases.overlapHost Cases.brokenMainOptions
  = Throw "net::ERR_CONNECTION_REFUSED"
  /\ exists r,
      DynamicAnalyzer.analyze Cases.overlapHost Cases.pagesOptions = Ok r
      /\ map id (issues r) = ["axe-color-contrast-0-0"; "axe-color-contrast-0-0"].
Proof.
  split.
  - apply (proj1 (proj2 (X4_dynamic_outcome Cases.overlapHost Cases.brokenMainOptions))
             tt); reflexivity.
  - destruct (proj2 (proj2 (X4_dynamic_outcome Cases.overlapHost Cases.pagesOptions))
                tt Sample.axeResults eq_refl eq_refl) as (r & A & I & _).
    exists r. split; [exact A|]. rewrite I. reflexivity.
Defined.

(* ===================================================================== *)
(** ** Aggregation                                                        *)
(* ===================================================================== *)

Lemma sort_of_sorted l :
  StronglySorted rankLe l -> sort A11yRobotServer.bySeverity l = l.
Proof.
  induction 1 as [|x l Hl IH Hx]; [reflexivity|].
  cbn [sort]. rewrite IH.
  destruct l as [|y l]; [reflexivity|]. cbn [sortInsert].
  apply Forall_inv in Hx. unfold rankLe in Hx.
  unfold A11yRobotServer.bySeverity.
  destruct (Z.leb_spec
              (A11yRobotServer.severityOrder (severity x)
               - A11yRobotServer.severityOrder (severity y)) 0); [reflexivity | lia].
Qed.

(** X5. Aggregating the combined result of an aggregation again, at
    whatever later time, gives the same issues in the same order and the
    same summary; the result is again tagged static, and only its time
    stamp changes, to the time of the second aggregation. *)
Theorem X5_aggregation_idempotent (host later : Host) (results : list AnalysisResult) :
  let once := A11yRobotServer.combinedResult host results in
  let twice := A11yRobotServer.combinedResult later [once] in
  issues twice = issues once
  /\ summary twice = summary once
  /\ analysisType twice = analysisType once
  /\ timestamp twice = now later.
Proof.
  intros once twice.
  assert (I : issues twice = issues once).
  { unfold twice, A11yRobotServer.combinedResult at 1. cbn [issues flat_map].
    rewrite app_nil_r.
    change (issues once)
      with (sort A11yRobotServer.bySeverity (flat_map issues results)).
    now rewrite (sort_of_sorted _ (sort_sorted _)). }
  split; [exact I|]. split; [|split; reflexivity].
  change (summary twice) with (A11yRobotServer.calculateSummary (issues twice)).
  now rewrite I.
Qed.

Lemma dynamic_summary_filters (l : list AccessibilityIssue) :
  DynamicAnalyzer.calculateSummary l = A11yRobotServer.calculateSummary l.
Proof.
  unfold DynamicAnalyzer.calculateSummary, A11yRobotServer.calculateSummary.
  generalize (List.length l) as n.
  assert (G : forall s,
    fold_left DynamicAnalyzer.countIssue l s =
    {| total := total s;
       critical := critical s + List.length (filter (hasSeverity Critical) l);
       serious := serious s + List.length (filter (hasSeverity Serious) l);
       moderate := moderate s + List.length (filter (hasSeverity Moderate) l);
       minor := minor s + List.length (filter (hasSeverity Minor) l) |}).
  { induction l as [|i l IH]; intros s; simpl.
    - destruct s; simpl; f_equal; lia.
    - rewrite IH. unfold DynamicAnalyzer.countIssue, hasSeverity.
      destruct (severity i); simpl; f_equal; lia. }
  intros n. rewrite G. reflexivity.
Qed.

(** The summary of a produced result is the one the four filters give. *)
Lemma produced_summary host r :
  Produced host r -> summary r = A11yRobotServer.calculateSummary (issues r).
Proof.
  intros [options r' H | options r' H | results _].
  - unfold StaticAnalyzer.analyze in H.
    destruct (StaticAnalyzer.findFiles _ _ _ _) as [files|m]; cbn [bind] in H;
      [|discriminate].
    injection H as <-. cbn [summary issues]. apply static_summary_filters.
  - unfold DynamicAnalyzer.analyze in H.
    destruct (launch host) as [u|m]; cbn [bind] in H; [|discriminate].
    destruct (DynamicAnalyzer.analyzePage _ _ _) as [main|m]; cbn [bind] in H;
      [|discriminate].
    injection H as <-. cbn [summary issues]. apply dynamic_summary_filters.
  - reflexivity.
Qed.

Lemma count_in_merge (f : AccessibilityIssue -> bool) (results : list AnalysisResult) :
  List.length (filter f (flat_map issues results))
  = list_sum (map (fun r => List.length (filter f (issues r))) results).
Proof.
  induction results as [|r rs IH]; [reflexivity|].
  cbn [flat_map map list_sum]. now rewrite filter_app, length_app, IH.
Qed.

(** X6. The summary that aggregation recomputes from the merged issues is
    the sum of the summaries of the merged results, count by count, when
    these results are ones the system produced. *)
Theorem X6_recomputed_is_summed (host : Host) (results : list AnalysisResult) :
  Forall (Produced host) results ->
  summary (A11yRobotServer.combinedResult host results) = summedSummary results.
Proof.
  intros H. cbn [A11yRobotServer.combinedResult summary].
  assert (E : forall f : AnalysisResult -> nat,
             forall g : list AccessibilityIssue -> nat,
               (forall r, Produced host r -> f r = g (issues r)) ->
               list_sum (map f results) = list_sum (map (fun r => g (issues r)) results)).
  { intros f g Hfg. induction H as [|r rs Hr _ IH]; [reflexivity|].
    cbn [map list_sum fold_right].
    change (fold_right Init.Nat.add 0 (map f rs)) with (list_sum (map f rs)).
    now rewrite IH, (Hfg r Hr). }
  unfold A11yRobotServer.calculateSummary, summedSummary.
  f_equal.
  - rewrite (E _ (@List.length _)).
    + rewrite <- (Permutation_length (sort_perm _ _)).
      rewrite length_flat_map. reflexivity.
    + intros r Hr. now rewrite (produced_summary host r Hr).
  - fold (hasSeverity Critical). rewrite sort_stable, count_in_merge.
    symmetry.
    apply (E _ (fun l => List.length (filter (hasSeverity Critical) l))).
    intros r Hr. now rewrite (produced_summary host r Hr).
  - fold (hasSeverity Serious). rewrite sort_stable, count_in_merge.
    symmetry.
    apply (E _ (fun l => List.length (filter (hasSeverity Serious) l))).
    intros r Hr. now rewrite (produced_summary host r Hr).
  - fold (hasSeverity Moderate). rewrite sort_stable, count_in_merge.
    symmetry.
    apply (E _ (fun l => List.length (filter (hasSeverity Moderate) l))).
    intros r Hr. now rewrite (produced_summary host r Hr).
  - fold (hasSeverity Minor). rewrite sort_stable, count_in_merge.
    symmetry.
    apply (E _ (fun l => List.length (filter (hasSeverity Minor) l))).
    intros r Hr. now rewrite (produced_summary host r Hr).
Qed.

Lemma X6_recomputed_is_summed_witness :
  Forall (Produced Sample.host) [Cases.staticResult; Cases.dynamicResult]
  /\ summary (A11yRobotServer.combinedResult Sample.host
                [Cases.staticResult; Cases.dynamicResult])
     = {| total := 3; critical := 0; serious := 1; moderate := 1; minor := 1 |}.
Proof.
  assert (H : Forall (Produced Sample.host) [Cases.staticResult; Cases.dynamicResult]).
  { constructor; [|constructor; [|constructor]].
    - now apply (by_static Sample.host Sample.staticOptions).
    - now apply (by_dynamic Sample.host Sample.dynamicOptions). }
  split; [exact H|].
  rewrite (X6_recomputed_is_summed Sample.host _ H). reflexivity.
Defined.

(* ===================================================================== *)
(** ** The results the server keeps                                       *)
(* ===================================================================== *)

(** X7. The server keeps the result of every analysis that succeeds, in
    the order of the calls, and keeps nothing of an analysis that fails.
    Once an analysis has succeeded, report generation no longer stops at
    the missing-results error: it renders the combined result of all the
    results kept, and fails only if the renderer does. *)
Theorem X7_results_accumulate (host : Host) (format : AnalysisResult -> string)
        (this : A11yRobotServer.Server) :
  (forall options outcome this',
      A11yRobotServer.analyzeStaticAccessibility host format this options
      = (outcome, this') ->
      match outcome with
      | Ok _ => exists r, StaticAnalyzer.analyze host options = Ok r
                          /\ A11yRobotServer.analysisResults this'
                             = (A11yRobotServer.analysisResults this ++ [r])%list
      | Throw m => this' = this
                   /\ exists cause, StaticAnalyzer.analyze host options = Throw cause
                                     /\ m = "Static analysis failed: " ++ cause
      end)
  /\ (forall options outcome this',
        A11yRobotServer.analyzeDynamicAccessibility host format this options
        = (outcome, this') ->
        match outcome with
        | Ok _ => exists r, DynamicAnalyzer.analyze host options = Ok r
                            /\ A11yRobotServer.analysisResults this'
                               = (A11yRobotServer.analysisResults this ++ [r])%list
        | Throw m => this' = this
                     /\ exists cause, DynamicAnalyzer.analyze host options = Throw cause
                                       /\ m = "Dynamic analysis failed: " ++ cause
        end)
  /\ (forall r options,
        let this' := {| A11yRobotServer.analysisResults :=
                          (A11yRobotServer.analysisResults this ++ [r])%list |} in
        A11yRobotServer.generateAccessibilityReport host format this' options
        = match generate host
                  (A11yRobotServer.combinedResult host
                     (A11yRobotServer.analysisResults this ++ [r])%list) options with
          | Ok reportPath =>
              Ok ["Accessibility report generated successfully!" ++ nl ++ nl
                  ++ "Report saved to: " ++ reportPath ++ nl ++ nl
                  ++ "Summary:" ++ nl
                  ++ format (A11yRobotServer.combinedResult host
                               (A11yRobotServer.analysisResults this ++ [r])%list)]
          | Throw m => Throw ("Report generation failed: " ++ m)
          end).
Proof.
  split; [|split].
  - intros options outcome this'. unfold A11yRobotServer.analyzeStaticAccessibility.
    destruct (StaticAnalyzer.analyze host options) as [r|cause];
      intros H; injection H as <- <-; eauto.
  - intros options outcome this'. unfold A11yRobotServer.analyzeDynamicAccessibility.
    destruct (DynamicAnalyzer.analyze host options) as [r|cause];
      intros H; injection H as <- <-; eauto.
  - intros r options this'. rewrite report_from_combined; [reflexivity|].
    unfold this'. cbn [A11yRobotServer.analysisResults].
    rewrite length_app. cbn [List.length]. apply Nat.eqb_neq. lia.
Qed.

Lemma X7_results_accumulate_witness :
  exists r,
    StaticAnalyzer.analyze Sample.host Sample.staticOptions = Ok r
    /\ A11yRobotServer.analysisResults
         (snd (A11yRobotServer.analyzeStaticAccessibility Sample.host Sample.format
                 A11yRobotServer.newServer Sample.staticOptions))
       = ([] ++ [r])%list.
Proof.
  apply (proj1 (X7_results_accumulate Sample.host Sample.format A11yRobotServer.newServer)
           Sample.staticOptions
           (Ok (match fst (A11yRobotServer.analyzeStaticAccessibility Sample.host
                             Sample.format A11yRobotServer.newServer
                             Sample.staticOptions) with
                | Ok response => response
                | Throw _ => []
                end))).
  reflexivity.
Defined.

(* ===================================================================== *)
(** ** Issues and their ids                                               *)
(* ===================================================================== *)

Lemma eqb_common_prefix (prefix a b : string) :
  String.eqb (prefix ++ a) (prefix ++ b) = String.eqb a b.
Proof.
  induction prefix as [|c prefix IH]; [reflexivity|].
  cbn [append String.eqb]. now rewrite Ascii.eqb_refl.
Qed.

Lemma hasId_numbered prefix m j (y : AccessibilityIssue) :
  id y = prefix ++ ofNumber j ->
  hasId (prefix ++ ofNumber m) y = (j =? m)%nat.
Proof.
  intros E. unfold hasId. rewrite E, eqb_common_prefix.
  destruct (Nat.eqb_spec j m) as [->|N].
  - apply String.eqb_refl.
  - apply String.eqb_neq. intros H. apply N. now apply ofNumber_inj.
Qed.

(** In a loop that gives the issues of the element at index [j] ids made
    of [prefix] and [j], the issues that bear the id of an index are the
    ones of the element at that index. *)
Lemma numbered_ids_at {T} (g : nat -> T -> list AccessibilityIssue) (prefix : string)
      (Hg : forall j x y, In y (g j x) -> id y = prefix ++ ofNumber j) (xs : list T) :
  forall k,
    (forall m, m < k ->
       filter (hasId (prefix ++ ofNumber m))
              (flat_map (fun p => g (fst p) (snd p))
                        (combine (seq k (List.length xs)) xs)) = [])
    /\ (forall i x, nth_error xs i = Some x ->
          filter (hasId (prefix ++ ofNumber (k + i)))
                 (flat_map (fun p => g (fst p) (snd p))
                           (combine (seq k (List.length xs)) xs))
          = g (k + i) x).
Proof.
  assert (Same : forall j x, filter (hasId (prefix ++ ofNumber j)) (g j x) = g j x).
  { intros j x. apply forallb_filter_id. apply forallb_forall.
    intros y Hy. rewrite (hasId_numbered prefix j j y (Hg _ _ _ Hy)).
    apply Nat.eqb_refl. }
  assert (Other : forall j m x, j <> m ->
                    filter (hasId (prefix ++ ofNumber m)) (g j x) = []).
  { intros j m x N. apply filter_none. apply Forall_forall.
    intros y Hy. rewrite (hasId_numbered prefix m j y (Hg _ _ _ Hy)).
    now apply Nat.eqb_neq. }
  induction xs as [|e xs IH]; intros k.
  - split; [reflexivity|]. intros [|i] x H; discriminate.
  - destruct (IH (S k)) as [Below At].
    cbn [List.length seq combine flat_map fst snd]. split.
    + intros m Hm. rewrite filter_app, Other, Below by lia. reflexivity.
    + intros [|i] x H; cbn [nth_error] in H; rewrite filter_app.
      * injection H as ->. rewrite Nat.add_0_r, Same, Below by lia.
        apply app_nil_r.
      * rewrite Other by lia. replace (k + S i) with (S k + i) by lia.
        now rewrite (At i x H).
Qed.

(** A step of the form-control check adds to the issues so far what the
    control contributes, whatever the issues so far are. *)
Lemma labelCheck_frame host doc filePath k c st st' :
  StaticAnalyzer.labelCheck host doc filePath k c (Ok st) = Ok st' ->
  st' = (st ++ controlIssues host doc filePath k c)%list.
Proof.
  unfold controlIssues, StaticAnalyzer.labelCheck. cbn [bind].
  match goal with
  | |- bind ?q _ = _ -> _ => destruct q as [hasLabel|m]
  end; cbn [bind]; [|discriminate].
  match goal with
  | |- (if ?b then _ else _) = _ -> _ => destruct b
  end; intros E; injection E as <-; [reflexivity | now rewrite app_nil_r].
Qed.

Lemma label_loop_by_control host doc filePath controls :
  forall k st out,
    forEachFrom (StaticAnalyzer.labelCheck host doc filePath) k controls (Ok st) = Ok out ->
    out = (st ++ flat_map (fun p => controlIssues host doc filePath (fst p) (snd p))
                          (combine (seq k (List.length controls)) controls))%list.
Proof.
  induction controls as [|c cs IH]; intros k st out H; cbn [forEachFrom] in H.
  - injection H as <-. cbn. now rewrite app_nil_r.
  - destruct (StaticAnalyzer.labelCheck host doc filePath k c (Ok st)) as [st'|m] eqn:E.
    + apply labelCheck_frame in E. subst st'.
      rewrite (IH _ _ _ H). cbn [List.length seq combine flat_map fst snd].
      now rewrite <- app_assoc.
    + rewrite label_loop_throw in H. discriminate.
Qed.

Lemma controlIssues_ids host doc filePath j c y :
  In y (controlIssues host doc filePath j c) ->
  id y = "input-label-" ++ ofNumber j.
Proof.
  unfold controlIssues.
  destruct (StaticAnalyzer.labelCheck host doc filePath j c (Ok [])) as [added|m] eqn:E;
    [|intros []].
  apply labelCheck_step in E. destruct E as [->|[t ->]]; [intros []|].
  intros [<-|[]]. reflexivity.
Qed.

(** A completed scan, part by part, with the form-control part told
    control by control. *)
Lemma analyzeDocument_by_control host doc filePath issues :
  StaticAnalyzer.analyzeDocument host doc filePath = Ok issues ->
  issues
  = (imagePass filePath (Cheerio.byTag ["img"] doc)
     ++ flat_map (fun p => controlIssues host doc filePath (fst p) (snd p))
                 (combine (seq 0 (List.length (filter StaticAnalyzer.isFormControl doc)))
                          (filter StaticAnalyzer.isFormControl doc))
     ++ headingPass filePath (Cheerio.byTag StaticAnalyzer.headingTags doc))%list.
Proof.
  unfold StaticAnalyzer.analyzeDocument. cbv zeta.
  fold (imagePass filePath (Cheerio.byTag ["img"] doc)).
  unfold forEach at 1.
  destruct (forEachFrom (StaticAnalyzer.labelCheck host doc filePath) 0 _ _)
    as [out|m] eqn:E; cbn [bind]; [|discriminate].
  apply label_loop_by_control in E. subst out.
  destruct (forEach (StaticAnalyzer.headingCheck filePath) _ _) as [lvl out] eqn:E.
  intros H. injection H as <-.
  match type of E with
  | forEach _ _ (_, ?st) = _ =>
      assert (S : snd (forEach (StaticAnalyzer.headingCheck filePath)
                         (Cheerio.byTag StaticAnalyzer.headingTags doc) (Some 0, st))
                  = out) by now rewrite E
  end.
  unfold forEach in S. rewrite heading_loop in S by apply byTag_tags.
  rewrite <- S, heading_pass_trace, <- app_assoc. reflexivity.
Qed.

(* ===================================================================== *)
(** ** The form-control check                                             *)
(* ===================================================================== *)

Lemma controlIssues_named host doc filePath i c :
  hasNameAttribute c = true -> controlIssues host doc filePath i c = [].
Proof.
  unfold hasNameAttribute, controlIssues, StaticAnalyzer.labelCheck. cbn [bind].
  intros H. apply orb_prop in H.
  match goal with
  | |- context [bind ?q _] => destruct q as [hasLabel|m]
  end; cbn [bind]; [|reflexivity].
  destruct H as [-> | ->]; cbn [negb andb]; rewrite ?andb_false_r; reflexivity.
Qed.

Lemma controlIssues_no_id host doc filePath i c :
  hasNameAttribute c = false ->
  truthy (Cheerio.attr c "id") = false ->
  exists t, controlIssues host doc filePath i c
            = [StaticAnalyzer.inputLabelIssue i t filePath].
Proof.
  unfold hasNameAttribute, controlIssues, StaticAnalyzer.labelCheck. cbn [bind].
  intros H Hid. apply orb_false_elim in H. destruct H as [-> ->].
  destruct (Cheerio.attr c "id") as [[|a idv]|]; try discriminate Hid;
    cbn [bind negb andb app]; eauto.
Qed.

Lemma controlIssues_with_id host doc filePath i c idValue labels :
  Cheerio.attr c "id" = Some idValue ->
  idValue <> EmptyString ->
  select host doc (labelSelector idValue) = Ok labels ->
  (labels <> [] -> controlIssues host doc filePath i c = [])
  /\ (labels = [] -> hasNameAttribute c = false ->
      exists t, controlIssues host doc filePath i c
                = [StaticAnalyzer.inputLabelIssue i t filePath]).
Proof.
  unfold hasNameAttribute, controlIssues, StaticAnalyzer.labelCheck, labelSelector.
  cbn [bind]. intros -> Hne S.
  destruct idValue as [|a idValue]; [contradiction|].
  rewrite S. cbn [bind]. split.
  - intros N. destruct labels as [|l labels]; [contradiction|]. reflexivity.
  - intros -> H. apply orb_false_elim in H. destruct H as [-> ->].
    cbn [List.length Nat.ltb Nat.leb negb andb app]. eauto.
Qed.

(** X8. The scan of a document is abandoned, with no issue at all,
    exactly when the lookup of the label for the non-empty id of some form
    control throws; for such a control the check throws instead of raising
    an issue.  In a scan that completes, a text-like form control (an
    input of type text, email, password, number, tel or url, a textarea or
    a select) with a non-empty aria-label or aria-labelledby gets no
    issue.  Without either, it gets exactly one issue, serious, criterion
    1.3.1, level A, when it has no id or an empty one, or when no label
    element is found for its id; and none when such a label is found.  An
    empty aria-label counts as none. *)
Theorem X8_form_control_label (host : Host) (doc : Cheerio.Document)
        (filePath : string) (i : nat) (control : Cheerio.Element) :
  nth_error (filter StaticAnalyzer.isFormControl doc) i = Some control ->
  ((exists m, StaticAnalyzer.analyzeDocument host doc filePath = Throw m)
   <-> lookupFails host doc)
  /\ (forall idValue m,
        Cheerio.attr control "id" = Some idValue ->
        idValue <> EmptyString ->
        select host doc (labelSelector idValue) = Throw m ->
        exists m', StaticAnalyzer.analyzeDocument host doc filePath = Throw m')
  /\ (forall issues,
        StaticAnalyzer.analyzeDocument host doc filePath = Ok issues ->
        let mine := filter (hasId ("input-label-" ++ ofNumber i)) issues in
        let oneIssue :=
          exists issue, mine = [issue] /\ severity issue = Serious
                        /\ wcagCriterion issue = "1.3.1" /\ wcagLevel issue = LevelA in
        (hasNameAttribute control = true -> mine = [])
        /\ (hasNameAttribute control = false ->
            truthy (Cheerio.attr control "id") = false -> oneIssue)
        /\ (forall idValue labels,
              Cheerio.attr control "id" = Some idValue ->
              idValue <> EmptyString ->
              select host doc (labelSelector idValue) = Ok labels ->
              (labels <> [] -> mine = [])
              /\ (labels = [] -> hasNameAttribute control = false -> oneIssue))).
Proof.
  intros Hi. split; [apply scan_fails_iff|]. split.
  { intros idValue m A N S. apply (scan_fails_iff host doc filePath).
    exists control, idValue, m. repeat split; try assumption.
    now apply nth_error_In with (n := i). }
  intros issues H mine oneIssue.
  assert (M : mine = controlIssues host doc filePath i control).
  { unfold mine. rewrite (analyzeDocument_by_control _ _ _ _ H), !filter_app.
    rewrite (filter_none _ (imagePass _ _)).
    2:{ eapply Forall_impl; [|apply imagePass_shape].
        intros x (j & src & ->). reflexivity. }
    rewrite (filter_none _ (headingPass _ _)).
    2:{ rewrite heading_pass_trace.
        eapply Forall_impl; [|apply headingTrace_shape].
        intros x (j & p & c & t & ->). reflexivity. }
    rewrite app_nil_r. cbn [app].
    apply (proj2 (numbered_ids_at (controlIssues host doc filePath) "input-label-"
                    (controlIssues_ids host doc filePath) _ 0) i control Hi). }
  assert (One : forall t, mine = [StaticAnalyzer.inputLabelIssue i t filePath] -> oneIssue).
  { intros t E. eexists. split; [exact E|]. repeat split. }
  split; [|split].
  - intros N. rewrite M. now apply controlIssues_named.
  - intros N Hid. destruct (controlIssues_no_id host doc filePath i control N Hid) as [t E].
    apply (One t). now rewrite M.
  - intros idValue labels A Hne S.
    destruct (controlIssues_with_id host doc filePath i control idValue labels A Hne S)
      as [Found Missing].
    split.
    + intros N. rewrite M. now apply Found.
    + intros E N. destruct (Missing E N) as [t Et]. apply (One t). now rewrite M.
Qed.

Lemma X8_form_control_label_witness :
  (exists issue,
      filter (hasId "input-label-1")
             [StaticAnalyzer.inputLabelIssue 1 "email" "form.html";
              StaticAnalyzer.inputLabelIssue 3 "select" "form.html"] = [issue]
      /\ severity issue = Serious /\ wcagCriterion issue = "1.3.1"
      /\ wcagLevel issue = LevelA)
  /\ exists m,
      StaticAnalyzer.analyzeDocument Cases.brokenLookupHost Cases.brokenPage "form.html"
      = Throw m.
Proof.
  split.
  - apply (proj1 (proj2 (proj2 (proj2 (X8_form_control_label Sample.host Cases.formPage
                                         "form.html" 1
                                         (Sample.el "input"
                                            [("type", "email"); ("aria-label", "")])
                                         eq_refl))
                           _ eq_refl)));
      reflexivity.
  - apply (proj1 (proj2 (X8_form_control_label Cases.brokenLookupHost Cases.brokenPage
                           "form.html" 0
                           (Sample.el "input" [("type", "text"); ("id", Cases.quotedId)])
                           eq_refl))
             Cases.quotedId "Attribute selector didn't terminate").
    + reflexivity.
    + vm_compute. discriminate.
    + reflexivity.
Defined.

Lemma numbered_ids_nodup {T} (g : nat -> T -> list AccessibilityIssue) (prefix : string)
      (Hg : forall j x y, In y (g j x) -> id y = prefix ++ ofNumber j)
      (Hone : forall j x, List.length (g j x) <= 1) (xs : list T) :
  forall k,
    NoDup (map id (flat_map (fun p => g (fst p) (snd p))
                            (combine (seq k (List.length xs)) xs))).
Proof.
  induction xs as [|e xs IH]; intros k; [constructor|].
  cbn [List.length seq combine flat_map fst snd]. rewrite map_app.
  apply NoDup_app.
  - specialize (Hone k e). destruct (g k e) as [|y [|z l]]; cbn in *;
      [constructor | constructor; [intros [] | constructor] | lia].
  - apply IH.
  - intros a Ha Hrest.
    apply in_map_iff in Ha. destruct Ha as (y & <- & Hy).
    apply in_map_iff in Hrest. destruct Hrest as (z & Ez & Hz).
    pose proof (proj1 (numbered_ids_at g prefix Hg xs (S k)) k (Nat.lt_succ_diag_r k))
      as Below.
    assert (Hin : In z (filter (hasId (prefix ++ ofNumber k))
                          (flat_map (fun p => g (fst p) (snd p))
                                    (combine (seq (S k) (List.length xs)) xs)))).
    { apply filter_In. split; [exact Hz|].
      unfold hasId. rewrite Ez, (Hg _ _ _ Hy). apply String.eqb_refl. }
    rewrite Below in Hin. exact Hin.
Qed.

Lemma issuesOfImage_ids filePath j e y :
  In y (issuesOfImage filePath j e) -> id y = "img-alt-" ++ ofNumber j.
Proof.
  unfold issuesOfImage. destruct (Cheerio.attr e "alt"); [intros []|].
  intros [<-|[]]. reflexivity.
Qed.

Lemma headingTrace_ids filePath tags :
  forall k previous,
    NoDup (map id (headingTrace filePath k previous tags))
    /\ Forall (fun y => exists j, id y = "heading-hierarchy-" ++ ofNumber j)
              (headingTrace filePath k previous tags).
Proof.
  intros k previous. rewrite headingTrace_by_index, map_map. split.
  - cbn [id StaticAnalyzer.headingIssue].
    apply Finite.Injective_map_NoDup.
    + intros a b E. cbn [id StaticAnalyzer.headingIssue] in E.
      apply String.eqb_eq in E. rewrite eqb_common_prefix in E.
      apply String.eqb_eq, ofNumber_inj in E. lia.
    + apply NoDup_filter, seq_NoDup.
  - apply Forall_forall. intros y Hy. apply in_map_iff in Hy.
    destruct Hy as (j & <- & _). eexists. reflexivity.
Qed.

(** X9. Within one scanned document no two issues bear the same id: the
    counter of each check and the word each check puts in front of it tell
    all the issues apart. *)
Theorem X9_ids_distinct_in_document (host : Host) (doc : Cheerio.Document)
        (filePath : string) (issues : list AccessibilityIssue) :
  StaticAnalyzer.analyzeDocument host doc filePath = Ok issues ->
  NoDup (map id issues).
Proof.
  intros H. rewrite (analyzeDocument_by_control _ _ _ _ H), !map_app.
  assert (Img : Forall (fun a => exists j, a = "img-alt-" ++ ofNumber j)
                  (map id (imagePass filePath (Cheerio.byTag ["img"] doc)))).
  { apply Forall_forall. intros a Ha. apply in_map_iff in Ha.
    destruct Ha as (y & <- & Hy).
    pose proof (imagePass_shape filePath (Cheerio.byTag ["img"] doc)) as S.
    rewrite Forall_forall in S. destruct (S y Hy) as (j & src & ->). now exists j. }
  assert (Lab : Forall (fun a => exists j, a = "input-label-" ++ ofNumber j)
                  (map id (flat_map (fun p => controlIssues host doc filePath (fst p) (snd p))
                             (combine (seq 0 (List.length (filter StaticAnalyzer.isFormControl doc)))
                                (filter StaticAnalyzer.isFormControl doc))))).
  { apply Forall_forall. intros a Ha. apply in_map_iff in Ha.
    destruct Ha as (y & <- & Hy). apply in_flat_map in Hy.
    destruct Hy as ([j c] & _ & Hy). exists j.
    now apply (controlIssues_ids host doc filePath j c). }
  assert (Head : Forall (fun a => exists j, a = "heading-hierarchy-" ++ ofNumber j)
                   (map id (headingPass filePath
                              (Cheerio.byTag StaticAnalyzer.headingTags doc)))).
  { rewrite heading_pass_trace. apply Forall_forall. intros a Ha.
    apply in_map_iff in Ha. destruct Ha as (y & <- & Hy).
    pose proof (proj2 (headingTrace_ids filePath
                         (map Cheerio.tagName
                            (Cheerio.byTag StaticAnalyzer.headingTags doc)) 0 0)) as S.
    rewrite Forall_forall in S. exact (S y Hy). }
  rewrite Forall_forall in Img, Lab, Head.
  apply NoDup_app; [|apply NoDup_app|].
  - unfold imagePass. rewrite image_loop. cbn [app].
    apply (numbered_ids_nodup (issuesOfImage filePath) "img-alt-").
    + apply issuesOfImage_ids.
    + intros j x. unfold issuesOfImage. destruct (Cheerio.attr x "alt"); cbn; lia.
  - apply (numbered_ids_nodup (controlIssues host doc filePath) "input-label-").
    + apply controlIssues_ids.
    + intros j x. unfold controlIssues.
      destruct (StaticAnalyzer.labelCheck host doc filePath j x (Ok [])) as [added|m] eqn:E;
        [|cbn; lia].
      apply labelCheck_step in E. destruct E as [->|[t ->]]; cbn; lia.
  - rewrite heading_pass_trace. apply headingTrace_ids.
  - intros a Ha Hb. destruct (Lab a Ha) as [j ->].
    destruct (Head _ Hb) as [j' E]. discriminate E.
  - intros a Ha Hb. destruct (Img a Ha) as [j ->].
    apply in_app_or in Hb. destruct Hb as [Hb|Hb].
    + destruct (Lab _ Hb) as [j' E]. discriminate E.
    + destruct (Head _ Hb) as [j' E]. discriminate E.
Qed.

Lemma X9_ids_distinct_in_document_witness :
  NoDup (map id [StaticAnalyzer.inputLabelIssue 1 "email" "form.html";
                 StaticAnalyzer.inputLabelIssue 3 "select" "form.html"]).
Proof.
  apply (X9_ids_distinct_in_document Sample.host Cases.formPage "form.html").
  reflexivity.
Defined.

(* ===================================================================== *)
(** ** What a match holds                                                 *)
(* ===================================================================== *)

(** A match splits the text it starts at: the texts of the atoms, each of
    the kind its atom takes, and then the rest. *)
Lemma matchHere_sound p :
  forall s groups rest,
    RegExp.matchHere p s = Some (groups, rest) ->
    s = RegExp.matched groups ++ rest /\ Forall2 atomTakes p groups.
Proof.
  induction p as [|a p IH]; intros s groups rest H.
  - cbn in H. injection H as <- <-. split; [reflexivity | constructor].
  - destruct a as [cls|cls|].
    + cbn [RegExp.matchHere] in H. destruct s as [|c s]; [discriminate|].
      destruct (cls c) eqn:E; [|discriminate].
      destruct (RegExp.matchHere p s) as [[gs r]|] eqn:M; [|discriminate].
      injection H as <- <-. destruct (IH _ _ _ M) as [-> F].
      split; [reflexivity|]. constructor; [|exact F]. cbn. eauto.
    + revert groups rest H. induction s as [|c s IHs]; intros groups rest H;
        rewrite matchHere_star_eq in H; cbv zeta in H.
      * destruct (RegExp.matchHere p EmptyString) as [[gs r]|] eqn:M; [|discriminate].
        injection H as <- <-. destruct (IH _ _ _ M) as [E F].
        split; [exact E|]. constructor; [reflexivity | exact F].
      * assert (Stop : match RegExp.matchHere p (String c s) with
                       | Some (groups0, rest0) => Some (EmptyString :: groups0, rest0)
                       | None => None
                       end = Some (groups, rest) ->
                       String c s = RegExp.matched groups ++ rest
                       /\ Forall2 atomTakes (RegExp.Star cls :: p) groups).
        { destruct (RegExp.matchHere p (String c s)) as [[gs r]|] eqn:M; [|discriminate].
          intros H'. injection H' as <- <-. destruct (IH _ _ _ M) as [E F].
          split; [exact E|]. constructor; [reflexivity | exact F]. }
        destruct (cls c) eqn:E; [|now apply Stop].
        destruct (RegExp.matchHere (RegExp.Star cls :: p) s) as [[[|g gs] r]|] eqn:M;
          [now apply Stop| |now apply Stop].
        injection H as <- <-. destruct (IHs _ _ eq_refl) as [Es F].
        inversion F as [|? ? ? ? Hg Hgs]; subst.
        split; [reflexivity|].
        constructor; [|exact Hgs]. cbn [atomTakes allOf] in *. now rewrite E, Hg.
    + cbn [RegExp.matchHere] in H. destruct s as [|c s]; [|discriminate].
      destruct (RegExp.matchHere p EmptyString) as [[gs r]|] eqn:M; [|discriminate].
      injection H as <- <-. destruct (IH _ _ _ M) as [E F].
      split; [exact E|]. constructor; [reflexivity | exact F].
Qed.

(** The texts of the atoms of a literal word spell the word. *)
Lemma lit_groups w :
  forall p groups,
    Forall2 atomTakes (RegExp.lit w ++ p)%list groups ->
    exists tail, RegExp.matched groups = w ++ RegExp.matched tail
                 /\ Forall2 atomTakes p tail
                 /\ forall n, nth (String.length w + n) groups EmptyString
                              = nth n tail EmptyString.
Proof.
  induction w as [|c w IH]; intros p groups F; cbn [RegExp.lit app] in F.
  - exists groups. repeat split; assumption.
  - inversion F as [|a g ? gs Hg Hgs]; subst.
    destruct Hg as (d & -> & Hd). apply Ascii.eqb_eq in Hd. subst d.
    destruct (IH _ _ Hgs) as (tail & E & Ft & N).
    exists tail. split.
    { change (RegExp.matched (String c EmptyString :: gs))
        with (String c (RegExp.matched gs)).
      now rewrite E. }
    split; [exact Ft|].
    intros n. cbn [String.length Nat.add nth]. apply N.
Qed.

(** A search without the g flag stops at the leftmost position where the
    pattern matches. *)
Lemma exec_leftmost p s groups :
  RegExp.exec p s = Some groups ->
  exists before rest,
    s = before ++ RegExp.matched groups ++ rest
    /\ RegExp.matchHere p (RegExp.matched groups ++ rest) = Some (groups, rest)
    /\ forall b t, s = b ++ t -> String.length b < String.length before ->
                   RegExp.matchHere p t = None.
Proof.
  revert groups. induction s as [|c s IH]; intros groups H; cbn [RegExp.exec] in H.
  - destruct (RegExp.matchHere p EmptyString) as [[gs r]|] eqn:M; [|discriminate].
    injection H as <-. destruct (matchHere_sound _ _ _ _ M) as [E _].
    exists EmptyString, r. cbn [append]. rewrite <- E. repeat split; try assumption.
    intros b t _ L. cbn in L. lia.
  - destruct (RegExp.matchHere p (String c s)) as [[gs r]|] eqn:M.
    + injection H as <-. destruct (matchHere_sound _ _ _ _ M) as [E _].
      exists EmptyString, r. cbn [append]. rewrite <- E. repeat split; try assumption.
      intros b t _ L. cbn in L. lia.
    + destruct (IH _ H) as (before & rest & -> & Hm & Left).
      exists (String c before), rest. repeat split; try assumption.
      intros b t E L. destruct b as [|d b].
      * cbn [append] in E. now subst t.
      * cbn [append] in E. injection E as <- E.
        apply (Left b t E). cbn in L. lia.
Qed.

(* ===================================================================== *)
(** ** Component sources                                                  *)
(* ===================================================================== *)

Lemma ngFor_loop filePath matches :
  forall k st,
    forEachFrom (StaticAnalyzer.ngForCheck filePath) k matches st
    = (st ++ flat_map (fun p =>
                         if includes (snd p) "trackBy" then []
                         else [StaticAnalyzer.ngForIssue (fst p) (snd p) filePath])
                      (combine (seq k (List.length matches)) matches))%list.
Proof.
  intros k st.
  apply (forEachFrom_push (StaticAnalyzer.ngForCheck filePath)
           (fun i m => if includes m "trackBy" then []
                       else [StaticAnalyzer.ngForIssue i m filePath])).
  intros i m st'. unfold StaticAnalyzer.ngForCheck.
  destruct (includes m "trackBy"); cbn [negb]; [now rewrite app_nil_r | reflexivity].
Qed.

(** The issues of the [*ngFor] search, whatever the issues so far. *)
Lemma ngFor_part content filePath st :
  match RegExp.matchAll StaticAnalyzer.ngForPattern content with
  | Some ngForMatches => Ok (forEach (StaticAnalyzer.ngForCheck filePath) ngForMatches st)
  | None => Ok st
  end = Ok (st ++ ngForIssuesOf content filePath)%list.
Proof.
  unfold RegExp.matchAll, ngForIssuesOf.
  destruct (RegExp.scan StaticAnalyzer.ngForPattern 0 content) as [|m ms] eqn:E.
  - cbn. now rewrite app_nil_r.
  - unfold forEach. now rewrite ngFor_loop.
Qed.

(** Every text a global search lists is the text of a match at some
    position. *)
Lemma scan_elements p s :
  forall skip m,
    In m (RegExp.scan p skip s) ->
    exists before groups rest,
      s = before ++ RegExp.matched groups ++ rest
      /\ RegExp.matchHere p (RegExp.matched groups ++ rest) = Some (groups, rest)
      /\ m = RegExp.matched groups.
Proof.
  induction s as [|c s IH]; intros skip m H.
  - destruct skip; cbn [RegExp.scan] in H; [|destruct H].
    destruct (RegExp.matchHere p EmptyString) as [[gs r]|] eqn:M; [|destruct H].
    destruct H as [<-|[]]. destruct (matchHere_sound _ _ _ _ M) as [E _].
    exists EmptyString, gs, r. cbn [append]. rewrite <- E. auto.
  - assert (Later : forall k, In m (RegExp.scan p k s) ->
               exists before groups rest,
                 String c s = before ++ RegExp.matched groups ++ rest
                 /\ RegExp.matchHere p (RegExp.matched groups ++ rest) = Some (groups, rest)
                 /\ m = RegExp.matched groups).
    { intros k Hk. destruct (IH _ _ Hk) as (before & gs & r & -> & Hm & Em).
      exists (String c before), gs, r. auto. }
    destruct skip; cbn [RegExp.scan] in H; [|now apply (Later skip)].
    destruct (RegExp.matchHere p (String c s)) as [[gs r]|] eqn:M;
      [|now apply (Later 0)].
    destruct H as [<-|H]; [|now apply (Later _ H)].
    destruct (matchHere_sound _ _ _ _ M) as [E _].
    exists EmptyString, gs, r. cbn [append]. rewrite <- E. auto.
Qed.

Lemma string_app_assoc (a b c : string) : (a ++ b) ++ c = a ++ b ++ c.
Proof.
  induction a as [|x a IH]; cbn [append]; [reflexivity | now rewrite IH].
Qed.

(** The text of a match of the [*ngFor] pattern. *)
Lemma ngFor_text t groups rest :
  RegExp.matchHere StaticAnalyzer.ngForPattern t = Some (groups, rest) ->
  exists body,
    RegExp.matched groups = "*ngFor=" ++ dq ++ body ++ dq
    /\ without (ascii_of_nat 34) body.
Proof.
  intros H. apply matchHere_sound in H. destruct H as [_ F].
  unfold StaticAnalyzer.ngForPattern in F.
  apply lit_groups in F. destruct F as (tail & E & F & _).
  inversion F as [|a1 g1 ? t1 H1 F1]; subst.
  inversion F1 as [|a2 g2 ? t2 H2 F2]; subst.
  inversion F2 as [|a3 g3 ? t3 H3 F3]; subst.
  inversion F3; subst.
  destruct H1 as (c1 & -> & C1). apply Ascii.eqb_eq in C1. subst c1.
  destruct H3 as (c3 & -> & C3). apply Ascii.eqb_eq in C3. subst c3.
  exists g2. split; [|exact H2].
  rewrite E. reflexivity.
Qed.

(** The text of a match of the inline-template pattern, and its
    capture. *)
Lemma template_text t groups rest :
  RegExp.matchHere StaticAnalyzer.templatePattern t = Some (groups, rest) ->
  exists ws1 ws2 body,
    RegExp.matched groups = "template" ++ ws1 ++ ":" ++ ws2 ++ "`" ++ body ++ "`"
    /\ allSpace ws1 = true /\ allSpace ws2 = true
    /\ without "`" body
    /\ nth StaticAnalyzer.templateCapture groups EmptyString = body.
Proof.
  intros H. apply matchHere_sound in H. destruct H as [_ F].
  unfold StaticAnalyzer.templatePattern in F.
  apply lit_groups in F. destruct F as (tail & E & F & N).
  inversion F as [|a1 g1 ? t1 H1 F1]; subst.
  inversion F1 as [|a2 g2 ? t2 H2 F2]; subst.
  inversion F2 as [|a3 g3 ? t3 H3 F3]; subst.
  inversion F3 as [|a4 g4 ? t4 H4 F4]; subst.
  inversion F4 as [|a5 g5 ? t5 H5 F5]; subst.
  inversion F5 as [|a6 g6 ? t6 H6 F6]; subst.
  inversion F6; subst.
  destruct H2 as (c2 & -> & C2). apply Ascii.eqb_eq in C2. subst c2.
  destruct H4 as (c4 & -> & C4). apply Ascii.eqb_eq in C4. subst c4.
  destruct H6 as (c6 & -> & C6). apply Ascii.eqb_eq in C6. subst c6.
  exists g1, g3, g5. split; [|repeat split; try assumption].
  - rewrite E. reflexivity.
  - unfold StaticAnalyzer.templateCapture. rewrite N. reflexivity.
Qed.

(** X10. In a component source, the template handed to the markup checks
    is the text between the backticks of the leftmost inline template:
    the word template, a colon with any white space around it, and a
    backtick-quoted text without backticks.  The issues of the file are
    the issues of that template followed by the issues of the *ngFor
    search over the whole source; a template whose scan throws makes the
    analysis of the file throw. *)
Theorem X10_inline_template (host : Host) (content filePath : string)
        (groups : list string) :
  StaticAnalyzer.isAngularComponent content = true ->
  RegExp.exec StaticAnalyzer.templatePattern content = Some groups ->
  exists before ws1 ws2 body after,
    content = before ++ "template" ++ ws1 ++ ":" ++ ws2 ++ "`" ++ body ++ "`" ++ after
    /\ allSpace ws1 = true /\ allSpace ws2 = true /\ without "`" body
    /\ (forall b t, content = b ++ t -> String.length b < String.length before ->
                    ~ matchesAt StaticAnalyzer.templatePattern t)
    /\ StaticAnalyzer.analyzeTypeScriptFile host content filePath
       = match StaticAnalyzer.analyzeHtmlTemplate host body filePath with
         | Ok templateIssues => Ok (templateIssues ++ ngForIssuesOf content filePath)%list
         | Throw m => Throw m
         end.
Proof.
  intros A X. destruct (exec_leftmost _ _ _ X) as (before & after & E & M & Left).
  destruct (template_text _ _ _ M) as (ws1 & ws2 & body & T & S1 & S2 & B & C).
  exists before, ws1, ws2, body, after. repeat split; try assumption.
  - rewrite E, T. f_equal.
    repeat (progress (cbn [append]; rewrite ?string_app_assoc)). reflexivity.
  - intros b t Eb L N. apply N. now apply (Left b t).
  - unfold StaticAnalyzer.analyzeTypeScriptFile. rewrite A, X. cbv zeta.
    rewrite C. cbn [app].
    destruct (StaticAnalyzer.analyzeHtmlTemplate host body filePath) as [issues|m];
      cbn [bind]; [|reflexivity].
    apply ngFor_part.
Qed.

Lemma X10_inline_template_witness :
  exists body,
    without "`" body
    /\ StaticAnalyzer.analyzeTypeScriptFile Cases.componentHost Cases.componentSource
         "list.component.ts"
       = match StaticAnalyzer.analyzeHtmlTemplate Cases.componentHost body
                 "list.component.ts" with
         | Ok templateIssues =>
             Ok (templateIssues
                 ++ ngForIssuesOf Cases.componentSource "list.component.ts")%list
         | Throw m => Throw m
         end.
Proof.
  destruct (X10_inline_template Cases.componentHost Cases.componentSource
              "list.component.ts" _ eq_refl eq_refl)
    as (before & ws1 & ws2 & body & after & _ & _ & _ & B & _ & E).
  exists body. split; [exact B | exact E].
Defined.

Lemma ngForIssues_count filePath matches :
  forall k,
    List.length
      (flat_map (fun p =>
                   if includes (snd p) "trackBy" then []
                   else [StaticAnalyzer.ngForIssue (fst p) (snd p) filePath])
                (combine (seq k (List.length matches)) matches))
    = List.length (filter (fun m => negb (includes m "trackBy")) matches).
Proof.
  induction matches as [|m ms IH]; intros k; [reflexivity|].
  cbn [List.length seq combine flat_map fst snd filter].
  rewrite length_app, IH. destruct (includes m "trackBy"); reflexivity.
Qed.

(** X11. A source without component marker gets no issue.  In a component
    source, every *ngFor directive with a double-quoted expression is
    looked at: those whose text mentions trackBy are never reported, each
    of the others gets one issue, minor, criterion 2.4.3, level AA, that
    quotes the directive; and without inline template these are all the
    issues of the file. *)
Theorem X11_ngFor_trackBy (host : Host) (content filePath : string) :
  let directives := RegExp.scan StaticAnalyzer.ngForPattern 0 content in
  (StaticAnalyzer.isAngularComponent content = false ->
   StaticAnalyzer.analyzeTypeScriptFile host content filePath = Ok [])
  /\ (StaticAnalyzer.isAngularComponent content = true ->
      RegExp.exec StaticAnalyzer.templatePattern content = None ->
      StaticAnalyzer.analyzeTypeScriptFile host content filePath
      = Ok (ngForIssuesOf content filePath))
  /\ Forall (fun m => exists body,
                 m = "*ngFor=" ++ dq ++ body ++ dq /\ without (ascii_of_nat 34) body)
            directives
  /\ Forall (fun i => severity i = Minor /\ wcagCriterion i = "2.4.3"
                      /\ wcagLevel i = LevelAA
                      /\ exists m, element i = Some m /\ In m directives
                                   /\ includes m "trackBy" = false)
            (ngForIssuesOf content filePath)
  /\ List.length (ngForIssuesOf content filePath)
     = List.length (filter (fun m => negb (includes m "trackBy")) directives).
Proof.
  intros directives. split; [|split; [|split; [|split]]].
  - intros A. unfold StaticAnalyzer.analyzeTypeScriptFile. now rewrite A.
  - intros A X. unfold StaticAnalyzer.analyzeTypeScriptFile. rewrite A, X.
    cbn [bind]. apply (ngFor_part content filePath []).
  - apply Forall_forall. intros m Hm.
    destruct (scan_elements _ _ _ _ Hm) as (before & groups & rest & _ & M & ->).
    destruct (ngFor_text _ _ _ M) as (body & E & B). now exists body.
  - apply Forall_forall. intros i Hi. unfold ngForIssuesOf in Hi.
    apply in_flat_map in Hi. destruct Hi as ([k m] & Hp & Hi). cbn [fst snd] in Hi.
    destruct (includes m "trackBy") eqn:E; [destruct Hi|].
    destruct Hi as [<-|[]]. repeat split. exists m. repeat split; [|exact E].
    now apply in_combine_r in Hp.
  - apply ngForIssues_count.
Qed.

Lemma X11_ngFor_trackBy_witness :
  StaticAnalyzer.analyzeTypeScriptFile Cases.componentHost "export const n = 1;" "n.ts"
  = Ok []
  /\ StaticAnalyzer.analyzeTypeScriptFile Cases.componentHost Cases.directiveSource "d.ts"
     = Ok [StaticAnalyzer.ngForIssue 1 ("*ngFor=" ++ dq ++ "let c of cs" ++ dq) "d.ts"].
Proof.
  split.
  - apply (proj1 (X11_ngFor_trackBy Cases.componentHost "export const n = 1;" "n.ts")).
    reflexivity.
  - rewrite (proj1 (proj2 (X11_ngFor_trackBy Cases.componentHost Cases.directiveSource
                             "d.ts")) eq_refl eq_refl).
    reflexivity.
Defined.

(* ===================================================================== *)
(** ** The ids of the issues of a page                                    *)
(* ===================================================================== *)

Lemma allOf_app cls (a b : string) :
  allOf cls (a ++ b) = allOf cls a && allOf cls b.
Proof.
  induction a as [|c a IH]; cbn [append allOf]; [reflexivity|].
  now rewrite IH, andb_assoc.
Qed.

(** A printed number is made of digits, so it has no dash. *)
Lemma ofNumber_no_dash n : without "-" (ofNumber n).
Proof.
  unfold ofNumber, without. generalize (Nat.to_uint n) as d.
  induction d; cbn [NilEmpty.string_of_uint allOf]; try rewrite IHd; reflexivity.
Qed.

(** Two texts that end with a dash and a dash-free tail are equal only
    when the tails are equal and what precedes the dash is equal. *)
Lemma split_at_last_dash (a a' d d' : string) :
  without "-" d -> without "-" d' ->
  a ++ "-" ++ d = a' ++ "-" ++ d' -> a = a' /\ d = d'.
Proof.
  unfold without. intros Hd Hd'. revert a'.
  induction a as [|c a IH]; intros [|c' a'] E; cbn [append] in E.
  - injection E as ->. now split.
  - injection E as <- ->. rewrite allOf_app in Hd. cbn in Hd.
    rewrite andb_false_r in Hd. discriminate.
  - injection E as -> <-. rewrite allOf_app in Hd'. cbn in Hd'.
    rewrite andb_false_r in Hd'. discriminate.
  - injection E as <- E. destruct (IH _ E) as [-> ->]. now split.
Qed.

(** The id of a node issue tells the index of its violation and the index
    of its node. *)
Lemma axe_id_indices (v v' : string) (i j i' j' : nat) :
  "axe-" ++ v ++ "-" ++ ofNumber i ++ "-" ++ ofNumber j
  = "axe-" ++ v' ++ "-" ++ ofNumber i' ++ "-" ++ ofNumber j' ->
  i = i' /\ j = j'.
Proof.
  intros E. apply String.eqb_eq in E. rewrite eqb_common_prefix in E.
  apply String.eqb_eq in E.
  assert (R : forall w k l,
             w ++ "-" ++ ofNumber k ++ "-" ++ ofNumber l
             = (w ++ "-" ++ ofNumber k) ++ "-" ++ ofNumber l)
    by (intros; now rewrite string_app_assoc).
  rewrite !R in E.
  apply split_at_last_dash in E; try apply ofNumber_no_dash.
  destruct E as [E Ej].
  apply split_at_last_dash in E; try apply ofNumber_no_dash.
  destruct E as [_ Ei]. split; now apply ofNumber_inj.
Qed.

Lemma violation_ids index violation :
  forall a, In a (map id (issuesOfViolation index violation)) ->
            exists j, a = "axe-" ++ Axe.id violation ++ "-" ++ ofNumber index
                          ++ "-" ++ ofNumber j.
Proof.
  intros a Ha. apply in_map_iff in Ha. destruct Ha as (y & <- & Hy).
  unfold issuesOfViolation in Hy. apply in_map_iff in Hy.
  destruct Hy as ([j node] & <- & _). now exists j.
Qed.

Lemma violation_ids_nodup index violation :
  NoDup (map id (issuesOfViolation index violation)).
Proof.
  unfold issuesOfViolation. generalize 0 as k.
  induction (Axe.nodes violation) as [|node nodes IH]; intros k; [constructor|].
  cbn [List.length seq combine map fst snd]. constructor; [|apply IH].
  intros H. apply in_map_iff in H. destruct H as (y & E & Hy).
  apply in_map_iff in Hy. destruct Hy as ([j n] & <- & Hp).
  cbn [id DynamicAnalyzer.nodeIssue fst snd] in E.
  apply axe_id_indices in E. destruct E as [_ ->].
  apply in_combine_l, in_seq in Hp. lia.
Qed.

(** X12. Within the issues of one page no two issues bear the same id:
    the id names the index of the violation and the index of the node, and
    these can be read back from it whatever the rule id contains. *)
Theorem X12_ids_distinct_in_page (axeResults : Axe.Results) (pageUrl : string) :
  NoDup (map id (DynamicAnalyzer.convertAxeResults axeResults pageUrl)).
Proof.
  rewrite convertAxeResults_by_violation.
  generalize (violationsOf axeResults) as vs. intros vs.
  assert (G : forall k,
             NoDup (map id (flat_map (fun p => issuesOfViolation (fst p) (snd p))
                                     (combine (seq k (List.length vs)) vs)))
             /\ forall a,
                 In a (map id (flat_map (fun p => issuesOfViolation (fst p) (snd p))
                                        (combine (seq k (List.length vs)) vs))) ->
                 exists v i j, k <= i
                               /\ a = "axe-" ++ v ++ "-" ++ ofNumber i ++ "-" ++ ofNumber j).
  { induction vs as [|v vs IH]; intros k.
    - split; [constructor | intros a []].
    - destruct (IH (S k)) as [N Later].
      cbn [List.length seq combine flat_map fst snd]. rewrite map_app. split.
      + apply NoDup_app; [apply violation_ids_nodup | exact N |].
        intros a Ha Hb. apply violation_ids in Ha. destruct Ha as [j ->].
        destruct (Later _ Hb) as (v' & i' & j' & L & E).
        apply axe_id_indices in E. lia.
      + intros a Ha. apply in_app_or in Ha. destruct Ha as [Ha|Ha].
        * apply violation_ids in Ha. destruct Ha as [j ->]. eauto.
        * destruct (Later _ Ha) as (v' & i' & j' & L & E).
          exists v', i', j'. split; [lia | exact E]. }
  apply G.
Qed.

(* ===================================================================== *)
(** ** The criterion of a violation                                       *)
(* ===================================================================== *)

Lemma string_app_nil_r (s : string) : s ++ EmptyString = s.
Proof.
  induction s as [|c s IH]; cbn [append]; [reflexivity | now f_equal].
Qed.

Lemma matchesAt_end p s :
  matchesAt (RegExp.AtEnd :: p) s <-> s = EmptyString /\ matchesAt p EmptyString.
Proof.
  unfold matchesAt. cbn [RegExp.matchHere]. destruct s as [|c s].
  - split.
    + intros H. split; [reflexivity|]. intros N. rewrite N in H. now apply H.
    + intros [_ H].
      destruct (RegExp.matchHere p EmptyString) as [[gs r]|]; [discriminate | exact H].
  - split; [tauto | intros [E _]; discriminate E].
Qed.

Lemma matchesAt_plus cls p s :
  matchesAt (RegExp.plus cls ++ p)%list s
  <-> exists n s', s = n ++ s' /\ n <> EmptyString /\ allOf cls n = true
                   /\ matchesAt p s'.
Proof.
  unfold RegExp.plus. cbn [app]. rewrite matchesAt_one. split.
  - intros (c & s1 & -> & Hc & H). apply matchesAt_star in H.
    destruct H as (ws & s' & -> & Hws & H).
    exists (String c ws), s'. cbn [append allOf]. rewrite Hc, Hws.
    repeat split; [discriminate | exact H].
  - intros (n & s' & -> & Hn & Ha & H). destruct n as [|c ws]; [contradiction|].
    cbn [allOf] in Ha. apply andb_prop in Ha. destruct Ha as [Hc Hws].
    exists c, (ws ++ s'). repeat split; [exact Hc|].
    apply matchesAt_star. now exists ws, s'.
Qed.

(** The criterion pattern accepts exactly the tags made of three numbers
    separated by dots. *)
Lemma isCriterion_dotted tag :
  DynamicAnalyzer.isCriterion tag = true <-> isDotted tag.
Proof.
  assert (M : DynamicAnalyzer.isCriterion tag = true
              <-> matchesAt DynamicAnalyzer.criterionPattern tag).
  { unfold DynamicAnalyzer.isCriterion, RegExp.execAnchored, matchesAt.
    destruct (RegExp.matchHere DynamicAnalyzer.criterionPattern tag) as [[gs r]|].
    - split; [intros _; discriminate | reflexivity].
    - split; [discriminate | intros H; now contradiction H]. }
  rewrite M. unfold DynamicAnalyzer.criterionPattern, isDotted, isNumber.
  rewrite matchesAt_plus. split.
  - intros (a & s1 & -> & Na & Da & H). cbn [app] in H.
    apply matchesAt_one in H. destruct H as (d1 & s2 & -> & Hd1 & H).
    apply Ascii.eqb_eq in Hd1. subst d1.
    apply matchesAt_plus in H. destruct H as (b & s3 & -> & Nb & Db & H).
    cbn [app] in H.
    apply matchesAt_one in H. destruct H as (d2 & s4 & -> & Hd2 & H).
    apply Ascii.eqb_eq in Hd2. subst d2.
    apply matchesAt_plus in H. destruct H as (c & s5 & -> & Nc & Dc & H).
    apply matchesAt_end in H. destruct H as [-> _].
    exists a, b, c. repeat split; try assumption.
    now rewrite string_app_nil_r.
  - intros (a & b & c & -> & [Na Da] & [Nb Db] & [Nc Dc]).
    exists a. eexists. split; [reflexivity|]. repeat split; try assumption.
    cbn [app]. apply matchesAt_one. exists "."%char. eexists.
    split; [reflexivity|]. split; [reflexivity|].
    apply matchesAt_plus. exists b. eexists. split; [reflexivity|].
    repeat split; try assumption.
    cbn [app]. apply matchesAt_one. exists "."%char. eexists.
    split; [reflexivity|]. split; [reflexivity|].
    apply matchesAt_plus. exists c, EmptyString. split.
    { now rewrite string_app_nil_r. }
    repeat split; try assumption.
    apply matchesAt_end. split; [reflexivity | apply matchesAt_nil].
Qed.

(** X13. The criterion of a violation is its first tag made of three
    numbers separated by dots, but only when some tag starts with wcag:
    without such a tag the criterion is Unknown even if a dotted tag is
    there, and so it is when no tag is dotted. *)
Theorem X13_criterion_of_tags (tags : list string) :
  ((forall t, In t tags -> startsWith t "wcag" = false) ->
   DynamicAnalyzer.criterion (DynamicAnalyzer.extractWcagInfo tags) = "Unknown")
  /\ ((exists t, In t tags /\ startsWith t "wcag" = true) ->
      (forall t, In t tags -> ~ isDotted t) ->
      DynamicAnalyzer.criterion (DynamicAnalyzer.extractWcagInfo tags) = "Unknown")
  /\ ((exists t, In t tags /\ startsWith t "wcag" = true) ->
      forall before tag after,
        tags = (before ++ tag :: after)%list ->
        isDotted tag ->
        (forall t, In t before -> ~ isDotted t) ->
        DynamicAnalyzer.criterion (DynamicAnalyzer.extractWcagInfo tags) = tag).
Proof.
  assert (W : (exists t, In t tags /\ startsWith t "wcag" = true) ->
              exists w, find (fun tag => startsWith tag "wcag") tags = Some w).
  { intros (t & Ht & St). unfold find.
    destruct (List.find (fun tag => startsWith tag "wcag") tags) as [w|] eqn:F;
      [now exists w|].
    rewrite (List.find_none _ _ F t Ht) in St. discriminate. }
  split; [|split].
  - intros H. unfold DynamicAnalyzer.extractWcagInfo. now rewrite find_none.
  - intros Hw Hn. destruct (W Hw) as [w Fw].
    unfold DynamicAnalyzer.extractWcagInfo. rewrite Fw. cbn [DynamicAnalyzer.criterion].
    rewrite find_none; [reflexivity|].
    intros t Ht. apply Bool.not_true_iff_false. intros C.
    apply (Hn t Ht). now apply isCriterion_dotted.
  - intros Hw before tag after E D Hb. destruct (W Hw) as [w Fw].
    unfold DynamicAnalyzer.extractWcagInfo. rewrite Fw. cbn [DynamicAnalyzer.criterion].
    rewrite E, find_first; [reflexivity| |now apply isCriterion_dotted].
    intros t Ht. apply Bool.not_true_iff_false. intros C.
    apply (Hb t Ht). now apply isCriterion_dotted.
Qed.

Lemma X13_criterion_of_tags_witness :
  DynamicAnalyzer.criterion (DynamicAnalyzer.extractWcagInfo ["cat.color"; "1.4.3"])
  = "Unknown"
  /\ DynamicAnalyzer.criterion
       (DynamicAnalyzer.extractWcagInfo ["wcag2aa"; "v1.4"; "1.4.3"; "1.4.6"])
     = "1.4.3".
Proof.
  split.
  - apply (proj1 (X13_criterion_of_tags ["cat.color"; "1.4.3"])).
    intros t [<-|[<-|[]]]; reflexivity.
  - apply (proj2 (proj2 (X13_criterion_of_tags ["wcag2aa"; "v1.4"; "1.4.3"; "1.4.6"]))
             (ex_intro _ "wcag2aa" (conj (or_introl eq_refl) eq_refl))
             ["wcag2aa"; "v1.4"] "1.4.3" ["1.4.6"] eq_refl).
    + apply isCriterion_dotted. reflexivity.
    + intros t [<-|[<-|[]]] D; apply isCriterion_dotted in D; discriminate D.
Defined.

(* ===================================================================== *)
(** ** Where an issue comes from                                          *)
(* ===================================================================== *)

Lemma document_issue_origin host doc filePath issues :
  StaticAnalyzer.analyzeDocument host doc filePath = Ok issues ->
  Forall (fun i => source i = Static /\ file i = Some filePath) issues.
Proof.
  intros H. apply analyzeDocument_parts in H. destruct H as (labels & -> & Hlabels).
  apply Forall_app. split; [|apply Forall_app; split].
  - eapply Forall_impl; [|apply imagePass_shape].
    intros x (i & src & ->). now split.
  - eapply Forall_impl; [|exact Hlabels].
    intros x (i & t & ->). now split.
  - rewrite heading_pass_trace. eapply Forall_impl; [|apply headingTrace_shape].
    intros x (i & p & c & t & ->). now split.
Qed.

Lemma ngFor_issue_origin content filePath :
  Forall (fun i => source i = Static /\ file i = Some filePath)
         (ngForIssuesOf content filePath).
Proof.
  apply Forall_forall. intros i Hi. unfold ngForIssuesOf in Hi.
  apply in_flat_map in Hi. destruct Hi as ([k m] & _ & Hi). cbn [fst snd] in Hi.
  destruct (includes m "trackBy"); [destruct Hi|].
  destruct Hi as [<-|[]]. now split.
Qed.

Lemma file_issue_origin host filePath projectPath :
  Forall (fun i => source i = Static
                   /\ file i = Some (relative host projectPath filePath))
         (StaticAnalyzer.analyzeFile host filePath projectPath).
Proof.
  unfold StaticAnalyzer.analyzeFile. cbv zeta.
  destruct (readFile host filePath) as [content|m]; cbn [bind]; [|constructor].
  destruct (String.eqb (extname host filePath) ".html").
  { unfold StaticAnalyzer.analyzeHtmlTemplate.
    destruct (StaticAnalyzer.analyzeDocument host (load host content) _) as [issues|m] eqn:E;
      [|constructor].
    now apply document_issue_origin in E. }
  destruct (String.eqb (extname host filePath) ".ts").
  { unfold StaticAnalyzer.analyzeTypeScriptFile.
    destruct (StaticAnalyzer.isAngularComponent content); [|constructor].
    destruct (RegExp.exec StaticAnalyzer.templatePattern content) as [groups|].
    - unfold StaticAnalyzer.analyzeHtmlTemplate.
      destruct (StaticAnalyzer.analyzeDocument host _ _) as [issues|m] eqn:E;
        cbn [bind]; [|constructor].
      cbn [app]. rewrite ngFor_part. apply Forall_app. split.
      + now apply document_issue_origin in E.
      + apply ngFor_issue_origin.
    - cbn [bind]. rewrite ngFor_part. apply ngFor_issue_origin. }
  destruct (String.eqb (extname host filePath) ".scss"
            || String.eqb (extname host filePath) ".css"); [|constructor].
  unfold StaticAnalyzer.analyzeCssFile. cbv zeta.
  destruct (negb _ && _); [|constructor].
  destruct (RegExp.matchAll _ content); [|constructor].
  constructor; [now split | constructor].
Qed.

(** The issues of a dynamic analysis that returns. *)
Lemma dynamic_issues host options r :
  DynamicAnalyzer.analyze host options = Ok r ->
  exists axeResults,
    audit host options (da_url options) = Ok axeResults
    /\ issues r
       = (DynamicAnalyzer.convertAxeResults axeResults (da_url options)
          ++ flat_map (pageIssues host options) (additionalPages options))%list.
Proof.
  unfold DynamicAnalyzer.analyze, DynamicAnalyzer.analyzePage. intros H.
  destruct (launch host) as [u|m]; cbn [bind] in H; [|discriminate].
  destruct (audit host options (da_url options)) as [res|m] eqn:A;
    cbn [bind] in H; [|discriminate].
  injection H as <-. exists res. split; [reflexivity|].
  unfold additionalPages.
  destruct (da_pages options) as [[|p ps]|]; cbn [issues flat_map];
    rewrite ?app_nil_r; try reflexivity.
  exact (analyzePages_skips host options (p :: ps) _).
Qed.

Lemma converted_issue_origin axeResults pageUrl :
  Forall (fun i => source i = Dynamic /\ file i = None)
         (DynamicAnalyzer.convertAxeResults axeResults pageUrl).
Proof.
  rewrite convertAxeResults_by_violation.
  apply Forall_forall. intros i Hi. apply in_flat_map in Hi.
  destruct Hi as ([k v] & _ & Hi). unfold issuesOfViolation in Hi.
  apply in_map_iff in Hi. destruct Hi as (p & <- & _). now split.
Qed.

(** X14. Every issue of a static analysis is tagged static and names the
    path, relative to the project, of one of the files the analysis found;
    every issue of a dynamic analysis is tagged dynamic and names no
    file. *)
Theorem X14_issue_origin (host : Host) :
  (forall options r,
      StaticAnalyzer.analyze host options = Ok r ->
      Forall (fun i =>
                source i = Static
                /\ exists files filePath,
                    StaticAnalyzer.findFiles host (sa_projectPath options)
                      (includesOf options) (excludesOf options) = Ok files
                    /\ In filePath files
                    /\ file i = Some (relative host (sa_projectPath options) filePath))
             (issues r))
  /\ (forall options r,
        DynamicAnalyzer.analyze host options = Ok r ->
        Forall (fun i => source i = Dynamic /\ file i = None) (issues r)).
Proof.
  split.
  - intros options r H. unfold StaticAnalyzer.analyze in H.
    fold (includesOf options) in H. fold (excludesOf options) in H.
    destruct (StaticAnalyzer.findFiles host (sa_projectPath options)
                (includesOf options) (excludesOf options)) as [files|m] eqn:F;
      cbn [bind] in H; [|discriminate].
    injection H as <-. cbn [issues].
    apply Forall_forall. intros i Hi. apply in_flat_map in Hi.
    destruct Hi as (filePath & Hf & Hi).
    pose proof (file_issue_origin host filePath (sa_projectPath options)) as O.
    rewrite Forall_forall in O. destruct (O i Hi) as [S1 S2].
    split; [exact S1|]. now exists files, filePath.
  - intros options r H. destruct (dynamic_issues _ _ _ H) as (res & _ & ->).
    apply Forall_app. split; [apply converted_issue_origin|].
    apply Forall_forall. intros i Hi. apply in_flat_map in Hi.
    destruct Hi as (pageUrl & _ & Hi). revert i Hi. apply Forall_forall.
    unfold pageIssues, DynamicAnalyzer.analyzePage.
    destruct (audit host options pageUrl) as [found|m]; cbn [bind]; [|constructor].
    apply converted_issue_origin.
Qed.

Lemma X14_issue_origin_witness :
  Forall (fun i => source i = Dynamic /\ file i = None) (issues Cases.dynamicResult).
Proof.
  apply (proj2 (X14_issue_origin Sample.host) Sample.dynamicOptions).
  reflexivity.
Defined.

(* ===================================================================== *)
(** ** The guideline service                                              *)
(* ===================================================================== *)

Lemma forEachFrom_append {T B} (body : nat -> T -> list B -> list B)
      (g : T -> list B)
      (Hbody : forall i x st, body i x st = (st ++ g x)%list) (xs : list T) :
  forall k st, forEachFrom body k xs st = (st ++ flat_map g xs)%list.
Proof.
  induction xs as [|x xs IH]; intros k st; cbn [forEachFrom flat_map].
  - now rewrite app_nil_r.
  - rewrite IH, Hbody, <- app_assoc. reflexivity.
Qed.

Lemma criterionCheck_pushes j sc st :
  WcagService.criterionCheck j sc st = (st ++ criterionEntries sc)%list.
Proof.
  unfold criterionEntries, WcagService.criterionCheck.
  destruct (RegExp.execAnchored _ _); cbv zeta; [reflexivity|].
  now rewrite app_nil_r.
Qed.

Lemma guidelineCheck_pushes i block st :
  WcagService.guidelineCheck i block st = (st ++ blockGuidelines block)%list.
Proof.
  unfold blockGuidelines, WcagService.guidelineCheck.
  destruct (RegExp.execAnchored _ _); cbv zeta.
  - cbn [app]. now rewrite <- app_assoc.
  - now rewrite app_nil_r.
Qed.

Lemma guideline_loop blocks :
  forEach WcagService.guidelineCheck blocks [] = flat_map blockGuidelines blocks.
Proof.
  unfold forEach.
  now rewrite (forEachFrom_append _ blockGuidelines guidelineCheck_pushes).
Qed.

Lemma criterion_loop scs :
  forEach WcagService.criterionCheck scs [] = flat_map criterionEntries scs.
Proof.
  unfold forEach.
  now rewrite (forEachFrom_append _ criterionEntries criterionCheck_pushes).
Qed.


(** X15.  The guidelines fetched from the web are never empty: when the
    request fails they are the built-in guidelines; when it succeeds they
    are what the blocks of the page contribute, block after block, or the
    built-in guidelines when no block contributes anything. *)
Theorem X15_fetch_falls_back (world : WcagService.World) :
  WcagService.fetchGuidelinesFromWeb world <> []
  /\ (forall m,
        WcagService.httpGet world WcagService.wcagUrl = Throw m ->
        WcagService.fetchGuidelinesFromWeb world = WcagService.getDefaultGuidelines)
  /\ (forall data,
        WcagService.httpGet world WcagService.wcagUrl = Ok data ->
        WcagService.fetchGuidelinesFromWeb world
        = match flat_map blockGuidelines (WcagService.guidelineBlocks world data) with
          | [] => WcagService.getDefaultGuidelines
          | parsed => parsed
          end).
Proof.
  unfold WcagService.fetchGuidelinesFromWeb.
  destruct (WcagService.httpGet world WcagService.wcagUrl) as [data|m]; cbv zeta.
  - rewrite guideline_loop.
    destruct (flat_map blockGuidelines _) as [|g gs] eqn:E; cbn [List.length Nat.eqb app].
    + split; [discriminate | split; [discriminate|]].
      intros d H. injection H as <-. now rewrite E.
    + split; [discriminate | split; [discriminate|]].
      intros d H. injection H as <-. now rewrite E.
  - split; [discriminate | split; [reflexivity | discriminate]].
Qed.

Lemma X15_fetch_falls_back_witness :
  WcagService.fetchGuidelinesFromWeb Cases.offlineWorld
  = WcagService.getDefaultGuidelines
  /\ List.length (WcagService.fetchGuidelinesFromWeb Cases.onlineWorld) = 2.
Proof.
  split.
  - apply (proj1 (proj2 (X15_fetch_falls_back Cases.offlineWorld))
             "getaddrinfo ENOTFOUND www.w3.org").
    reflexivity.
  - rewrite (proj2 (proj2 (X15_fetch_falls_back Cases.onlineWorld)) "<html>" eq_refl).
    vm_compute. reflexivity.
Defined.

Lemma trimStart_head s c r :
  JSText.trimStart s = String c r -> JSText.isSpace c = false.
Proof.
  induction s as [|a s IH]; cbn [JSText.trimStart]; [discriminate|].
  destruct (JSText.isSpace a) eqn:E; [exact IH|].
  intros H. injection H as <- _. exact E.
Qed.

Lemma trimEnd_head s c r :
  JSText.trimEnd s = String c r -> exists r', s = String c r'.
Proof.
  destruct s as [|a s]; cbn [JSText.trimEnd]; [discriminate|].
  destruct (JSText.trimEnd s) as [|b t].
  - destruct (JSText.isSpace a); [discriminate|].
    intros H. injection H as <- _. now exists s.
  - intros H. injection H as <- _. now exists s.
Qed.

Lemma trimEnd_last s :
  forall r c, JSText.trimEnd s = r ++ String c EmptyString -> JSText.isSpace c = false.
Proof.
  induction s as [|a s IH]; intros r c; cbn [JSText.trimEnd].
  - destruct r; discriminate.
  - destruct (JSText.trimEnd s) as [|b t].
    + destruct (JSText.isSpace a) eqn:E.
      * destruct r; discriminate.
      * destruct r as [|x r]; cbn [append]; intros H.
        -- injection H as <-. exact E.
        -- destruct r; discriminate.
    + destruct r as [|x r]; cbn [append]; intros H.
      * discriminate.
      * injection H as _ H. exact (IH _ _ H).
Qed.

Lemma trim_tight s : tight (JSText.trim s).
Proof.
  unfold JSText.trim. split.
  - intros c r H. apply trimEnd_head in H. destruct H as [r' H].
    exact (trimStart_head _ _ _ H).
  - apply trimEnd_last.
Qed.

Lemma techniquesOf_tight texts :
  Forall (fun t => t <> EmptyString /\ tight t) (WcagService.techniquesOf texts).
Proof.
  unfold WcagService.techniquesOf, forEach.
  rewrite (forEachFrom_append _
             (fun x => if truthy (Some (JSText.trim x)) then [JSText.trim x] else [])).
  - cbn [app]. apply Forall_forall. intros t Ht. apply in_flat_map in Ht.
    destruct Ht as (x & _ & Ht).
    destruct (JSText.trim x) as [|c r] eqn:E; cbn [truthy] in Ht; [destruct Ht|].
    destruct Ht as [<-|[]]. split; [discriminate|].
    rewrite <- E. apply trim_tight.
  - intros i x st. cbv zeta. destruct (truthy _); [reflexivity|].
    now rewrite app_nil_r.
Qed.

Ltac split_groups :=
  repeat match goal with
         | H : Forall2 atomTakes (_ :: _) _ |- _ => inversion H; subst; clear H
         | H : Forall2 atomTakes [] _ |- _ => inversion H; subst; clear H
         end;
  cbn [atomTakes] in *;
  repeat match goal with
         | H : exists c, _ = String c EmptyString /\ _ |- _ =>
             let c := fresh "c" in
             let E := fresh "E" in
             destruct H as (c & -> & E)
         end.

Ltac by_facts :=
  cbn [append allOf];
  repeat match goal with
         | H : _ = true |- _ => rewrite H; clear H
         end;
  reflexivity.

(** What the pattern of a guideline heading captures. *)
Lemma header_captures text groups :
  RegExp.execAnchored WcagService.headerPattern text = Some groups ->
  isDottedPair (JSText.capture 0 5 groups)
  /\ JSText.capture 7 2 groups <> EmptyString
  /\ oneLine (JSText.capture 7 2 groups).
Proof.
  unfold RegExp.execAnchored.
  destruct (RegExp.matchHere WcagService.headerPattern text) as [[gs rest]|] eqn:M;
    [|discriminate].
  intros H. injection H as <-. apply matchHere_sound in M. destruct M as [_ F].
  unfold WcagService.headerPattern, RegExp.plus in F. cbn [app] in F.
  split_groups.
  cbn [JSText.capture skipn firstn RegExp.matched fold_right].
  rewrite !string_app_nil_r.
  repeat match goal with
         | H : RegExp.chr _ _ = true |- _ => apply Ascii.eqb_eq in H; subst
         end.
  match goal with
  | |- isDottedPair (String ?a EmptyString ++ ?x ++ "." ++ String ?b EmptyString ++ ?y)
       /\ _ =>
      split; [exists (String a x), (String b y)|]
  end.
  - cbn [append]. unfold isNumber.
    repeat split; try discriminate; by_facts.
  - split; [discriminate|]. unfold oneLine. by_facts.
Qed.

(** What the pattern of a success criterion heading captures. *)
Lemma criterion_captures text groups :
  RegExp.execAnchored WcagService.criterionHeaderPattern text = Some groups ->
  isDotted (JSText.capture 0 8 groups)
  /\ (JSText.capture 10 2 groups <> EmptyString
      /\ oneLine (JSText.capture 10 2 groups))
  /\ JSText.capture 22 2 groups <> EmptyString
  /\ allOf (RegExp.chr "A") (JSText.capture 22 2 groups) = true.
Proof.
  unfold RegExp.execAnchored.
  destruct (RegExp.matchHere WcagService.criterionHeaderPattern text) as [[gs rest]|] eqn:M;
    [|discriminate].
  intros H. injection H as <-. apply matchHere_sound in M. destruct M as [_ F].
  unfold WcagService.criterionHeaderPattern, RegExp.plus in F. cbn [app RegExp.lit] in F.
  split_groups.
  cbn [JSText.capture skipn firstn RegExp.matched fold_right].
  rewrite !string_app_nil_r.
  repeat match goal with
         | H : RegExp.chr "." _ = true |- _ => apply Ascii.eqb_eq in H; subst
         end.
  match goal with
  | |- isDotted (String ?a EmptyString ++ ?x ++ "." ++ String ?b EmptyString ++ ?y
                 ++ "." ++ String ?c EmptyString ++ ?z) /\ _ =>
      split; [exists (String a x), (String b y), (String c z)|]
  end.
  - cbn [append]. unfold isNumber.
    repeat split; try discriminate; by_facts.
  - split; [split; [discriminate | unfold oneLine; by_facts]|].
    split; [discriminate | by_facts].
Qed.

Lemma criterionEntries_scraped sc : Forall scraped (criterionEntries sc).
Proof.
  unfold criterionEntries, WcagService.criterionCheck.
  destruct (RegExp.execAnchored _ _) as [groups|] eqn:M; cbv zeta; [|constructor].
  apply criterion_captures in M. destruct M as (Hid & [Ht Hl] & Hne & Ha).
  cbn [app]. constructor; [|constructor].
  unfold scraped.
  cbn [WcagService.url WcagService.id WcagService.title WcagService.description
       WcagService.level WcagService.techniques].
  split; [reflexivity|]. split; [exact Ht|]. split; [exact Hl|].
  split; [apply trim_tight|]. right.
  split; [exact Hid|]. split; [exact Hne|]. split; [exact Ha|].
  apply techniquesOf_tight.
Qed.

(** X16.  Whatever the page holds, every entry the scraper builds from it
    has the page address followed by its own number with dashes for dots
    as its address, a title of one line, and a description without white
    space around it; it is either a guideline, numbered n.n with level A
    and no techniques, or a success criterion, numbered n.n.n, whose level
    is a run of the letter A of any length and whose techniques are
    neither empty nor padded. *)
Theorem X16_scraped_entries (blocks : list WcagService.GuidelineBlock) :
  Forall scraped (forEach WcagService.guidelineCheck blocks []).
Proof.
  rewrite guideline_loop. apply Forall_forall. intros g Hg.
  apply in_flat_map in Hg. destruct Hg as (block & _ & Hg). revert g Hg.
  apply Forall_forall. unfold blockGuidelines, WcagService.guidelineCheck.
  destruct (RegExp.execAnchored _ _) as [groups|] eqn:M; cbv zeta; [|constructor].
  apply header_captures in M. destruct M as (Hid & Hne & Hl).
  cbn [app]. constructor.
  - unfold scraped.
    cbn [WcagService.url WcagService.id WcagService.title WcagService.description
         WcagService.level WcagService.techniques].
    split; [reflexivity|]. split; [exact Hne|]. split; [exact Hl|].
    split; [apply trim_tight|]. left. now repeat split.
  - rewrite criterion_loop. apply Forall_forall. intros g Hg.
    apply in_flat_map in Hg. destruct Hg as (sc & _ & Hg). revert g Hg.
    apply Forall_forall. apply criterionEntries_scraped.
Qed.

(** The greedy star: it takes the longest run after which the rest of the
    pattern matches. *)
Lemma star_none cls p :
  forall s,
    (forall u v, s = u ++ v -> allOf cls u = true -> RegExp.matchHere p v = None) ->
    RegExp.matchHere (RegExp.Star cls :: p) s = None.
Proof.
  induction s as [|c s IH]; intros H; rewrite matchHere_star_eq; cbv zeta.
  - now rewrite (H EmptyString EmptyString eq_refl eq_refl).
  - rewrite (H EmptyString (String c s) eq_refl eq_refl).
    destruct (cls c) eqn:E; [|reflexivity].
    rewrite IH; [reflexivity|].
    intros u v -> Hu. apply (H (String c u) v eq_refl). cbn [allOf]. now rewrite E.
Qed.

Lemma star_longest cls p w :
  forall r gs rest,
    allOf cls w = true ->
    (forall u v, u <> EmptyString -> r = u ++ v -> allOf cls u = true ->
                 RegExp.matchHere p v = None) ->
    RegExp.matchHere p r = Some (gs, rest) ->
    RegExp.matchHere (RegExp.Star cls :: p) (w ++ r) = Some (w :: gs, rest).
Proof.
  induction w as [|a w IH]; intros r gs rest Hw Hr M; rewrite matchHere_star_eq;
    cbv zeta; cbn [append].
  - rewrite M. destruct r as [|c r]; [reflexivity|].
    destruct (cls c) eqn:E; [|reflexivity].
    rewrite star_none; [reflexivity|].
    intros u v -> Hu. apply (Hr (String c u) v); [discriminate | reflexivity |].
    cbn [allOf]. now rewrite E.
  - cbn [allOf] in Hw. apply andb_prop in Hw. destruct Hw as [Ha Hw].
    rewrite Ha, (IH _ _ _ Hw Hr M). reflexivity.
Qed.

Lemma plus_longest cls p c w r gs rest :
  cls c = true -> allOf cls w = true ->
  (forall u v, u <> EmptyString -> r = u ++ v -> allOf cls u = true ->
               RegExp.matchHere p v = None) ->
  RegExp.matchHere p r = Some (gs, rest) ->
  RegExp.matchHere (RegExp.plus cls ++ p)%list (String c w ++ r)
  = Some (String c EmptyString :: w :: gs, rest).
Proof.
  intros Hc Hw Hr M. unfold RegExp.plus. cbn [app append].
  change (RegExp.matchHere (RegExp.One cls :: RegExp.Star cls :: p) (String c (w ++ r)))
    with (if cls c then
            match RegExp.matchHere (RegExp.Star cls :: p) (w ++ r) with
            | Some (groups, rest) => Some (String c EmptyString :: groups, rest)
            | None => None
            end
          else None).
  now rewrite Hc, (star_longest _ _ _ _ _ _ Hw Hr M).
Qed.

Lemma blocked cls (p : RegExp.Pattern) r :
  beginsOutside cls r ->
  forall u v, u <> EmptyString -> r = u ++ v -> allOf cls u = true ->
              RegExp.matchHere p v = None.
Proof.
  intros B u v Hu -> Ha. destruct u as [|c u]; [contradiction|].
  cbn [allOf] in Ha. apply andb_prop in Ha. destruct Ha as [Hc _].
  now rewrite (B c (u ++ v) eq_refl) in Hc.
Qed.

Lemma space_not_digit c : RegExp.space c = true -> RegExp.digit c = false.
Proof.
  destruct c as [[] [] [] [] [] [] [] []]; vm_compute; intros H;
    first [reflexivity | discriminate H].
Qed.

Lemma digit_not_dot c : RegExp.digit c = true -> Ascii.eqb c "." = false.
Proof.
  destruct c as [[] [] [] [] [] [] [] []]; vm_compute; intros H;
    first [reflexivity | discriminate H].
Qed.

Lemma dotsToDashes_app a b :
  JSText.dotsToDashes (a ++ b) = JSText.dotsToDashes a ++ JSText.dotsToDashes b.
Proof.
  induction a as [|c a IH]; cbn [append JSText.dotsToDashes]; [reflexivity|].
  now rewrite IH.
Qed.

Lemma dotsToDashes_number d :
  allOf RegExp.digit d = true -> JSText.dotsToDashes d = d.
Proof.
  induction d as [|c d IH]; cbn [allOf JSText.dotsToDashes]; [reflexivity|].
  intros H. apply andb_prop in H. destruct H as [Hc Hd].
  now rewrite (digit_not_dot _ Hc), (IH Hd).
Qed.

(** The match of the guideline heading pattern on a well-formed heading. *)
Lemma header_match d1 d2 ws t :
  isNumber d1 -> isNumber d2 -> isGap ws ->
  t <> EmptyString -> oneLine t -> beginsOutside RegExp.space t ->
  exists groups,
    RegExp.execAnchored WcagService.headerPattern (d1 ++ "." ++ d2 ++ ws ++ t)
    = Some groups
    /\ JSText.capture 0 5 groups = d1 ++ "." ++ d2
    /\ JSText.capture 7 2 groups = t.
Proof.
  intros [N1 D1] [N2 D2] [Nw Dw] Nt Dt Bt.
  destruct d1 as [|a1 d1]; [contradiction|].
  destruct d2 as [|a2 d2]; [contradiction|].
  destruct ws as [|aw ws]; [contradiction|].
  destruct t as [|at' t]; [contradiction|].
  cbn [allOf] in D1, D2. unfold allSpace, oneLine in *. cbn [allOf] in Dw, Dt.
  apply andb_prop in D1, D2, Dw, Dt.
  destruct D1 as [A1 D1], D2 as [A2 D2], Dw as [Aw Dw], Dt as [At Dt].
  assert (M4 : RegExp.matchHere (RegExp.plus JSText.anyChar ++ [RegExp.AtEnd])%list
                 (String at' t ++ EmptyString)
               = Some ([String at' EmptyString; t; EmptyString], EmptyString)).
  { apply plus_longest; [exact At | exact Dt | | reflexivity].
    apply blocked. intros c r H. discriminate H. }
  rewrite string_app_nil_r in M4.
  assert (M3 : RegExp.matchHere
                 (RegExp.plus RegExp.space ++ RegExp.plus JSText.anyChar ++ [RegExp.AtEnd])%list
                 (String aw ws ++ String at' t)
               = Some ([String aw EmptyString; ws; String at' EmptyString; t; EmptyString],
                       EmptyString)).
  { apply plus_longest; [exact Aw | exact Dw | | exact M4]. apply blocked. exact Bt. }
  assert (M2 : RegExp.matchHere
                 (RegExp.plus RegExp.digit ++ RegExp.plus RegExp.space
                  ++ RegExp.plus JSText.anyChar ++ [RegExp.AtEnd])%list
                 (String a2 d2 ++ String aw ws ++ String at' t)
               = Some ([String a2 EmptyString; d2; String aw EmptyString; ws;
                        String at' EmptyString; t; EmptyString], EmptyString)).
  { apply plus_longest; [exact A2 | exact D2 | | exact M3]. apply blocked.
    intros c r H. cbn [append] in H. injection H as <- _. now apply space_not_digit. }
  assert (M1 : RegExp.matchHere
                 ([RegExp.One (RegExp.chr ".")] ++ RegExp.plus RegExp.digit
                  ++ RegExp.plus RegExp.space
                  ++ RegExp.plus JSText.anyChar ++ [RegExp.AtEnd])%list
                 ("." ++ String a2 d2 ++ String aw ws ++ String at' t)
               = Some ([String "." EmptyString; String a2 EmptyString; d2;
                        String aw EmptyString; ws;
                        String at' EmptyString; t; EmptyString], EmptyString)).
  { cbn [app append].
    change (RegExp.matchHere (RegExp.One (RegExp.chr ".") :: ?p) (String "." ?s))
      with (match RegExp.matchHere p s with
            | Some (groups, rest) => Some (String "."%char EmptyString :: groups, rest)
            | None => None
            end).
    cbn [app append] in M2. now rewrite M2. }
  eexists. split.
  - unfold RegExp.execAnchored, WcagService.headerPattern.
    assert (B : beginsOutside RegExp.digit
                  ("." ++ String a2 d2 ++ String aw ws ++ String at' t)).
    { intros c r H. injection H as <- _. reflexivity. }
    now rewrite (plus_longest _ _ _ _ _ _ _ A1 D1 (blocked _ _ _ B) M1).
  - cbn [JSText.capture skipn firstn RegExp.matched fold_right append].
    rewrite !string_app_nil_r. split; reflexivity.
Qed.

Lemma allOf_impl (cls cls' : ascii -> bool) s :
  (forall c, cls c = true -> cls' c = true) ->
  allOf cls s = true -> allOf cls' s = true.
Proof.
  intros I. induction s as [|c s IH]; cbn [allOf]; [reflexivity|].
  intros H. apply andb_prop in H. destruct H as [Hc Hs].
  now rewrite (I _ Hc), (IH Hs).
Qed.

Lemma space_not_paren c : RegExp.space c = true -> RegExp.notChr "(" c = true.
Proof.
  destruct c as [[] [] [] [] [] [] [] []]; vm_compute; intros H;
    first [reflexivity | discriminate H].
Qed.

Lemma lit_match w p :
  forall r gs rest,
    RegExp.matchHere p r = Some (gs, rest) ->
    RegExp.matchHere (RegExp.lit w ++ p)%list (w ++ r)
    = Some ((map (fun c => String c EmptyString) (list_ascii_of_string w) ++ gs)%list, rest).
Proof.
  induction w as [|c w IH]; intros r gs rest M; cbn [RegExp.lit app append map list_ascii_of_string].
  - exact M.
  - change (RegExp.matchHere (RegExp.One (RegExp.chr c) :: ?q) (String c ?s))
      with (if RegExp.chr c c then
              match RegExp.matchHere q s with
              | Some (groups, rest) => Some (String c EmptyString :: groups, rest)
              | None => None
              end
            else None).
    unfold RegExp.chr at 1. now rewrite Ascii.eqb_refl, (IH _ _ _ M).
Qed.

(** After the title of a success criterion heading, the rest of the
    pattern matches nowhere but at the gap before the parenthesis. *)
Lemma level_tail_fails s ws lv u v :
  RegExp.space s = true -> allSpace ws = true -> allOf (RegExp.chr "A") lv = true ->
  u <> EmptyString ->
  String s ("(Level" ++ ws ++ lv ++ ")") = u ++ v ->
  RegExp.matchHere
    (RegExp.plus RegExp.space ++ RegExp.lit "(Level" ++ RegExp.plus RegExp.space
     ++ RegExp.plus (RegExp.chr "A") ++ [RegExp.One (RegExp.chr ")"); RegExp.AtEnd])%list v
  = None.
Proof.
  intros Hs Hws Hlv Hu E.
  match goal with |- ?m = None => destruct m as [[gs rest]|] eqn:M; [exfalso | reflexivity] end.
  assert (Mv : matchesAt
                 (RegExp.plus RegExp.space ++ RegExp.lit "(Level" ++ RegExp.plus RegExp.space
                  ++ RegExp.plus (RegExp.chr "A")
                  ++ [RegExp.One (RegExp.chr ")"); RegExp.AtEnd])%list v).
  { unfold matchesAt. rewrite M. discriminate. }
  apply matchesAt_plus in Mv. destruct Mv as (n & s1 & -> & Nn & Hn & Mv).
  apply matchesAt_lit in Mv. destruct Mv as (s2 & -> & _).
  destruct u as [|x u]; [contradiction|]. cbn [append] in E. injection E as _ E.
  destruct n as [|n0 n]; [contradiction|].
  cbn [allOf] in Hn. apply andb_prop in Hn. destruct Hn as [Hn0 _].
  destruct u as [|y u]; cbn [append] in E.
  - injection E as <- _. discriminate Hn0.
  - injection E as _ E.
    assert (P : allOf (RegExp.notChr "(") (u ++ String n0 n ++ "(Level" ++ s2) = true).
    { replace (u ++ String n0 n ++ "(Level" ++ s2) with ("Level" ++ ws ++ lv ++ ")")
        by exact E.
      cbn [append allOf]. rewrite !allOf_app.
      rewrite (allOf_impl _ _ _ space_not_paren Hws).
      rewrite (allOf_impl (RegExp.chr "A") (RegExp.notChr "(") lv); [reflexivity | | exact Hlv].
      intros c Hc. apply Ascii.eqb_eq in Hc. now subst c. }
    rewrite allOf_app in P. apply andb_prop in P. destruct P as [_ P].
    change (String n0 n ++ "(Level" ++ s2) with (String n0 (n ++ "(Level" ++ s2)) in P.
    cbn [allOf] in P. apply andb_prop in P. destruct P as [_ P].
    rewrite allOf_app in P. apply andb_prop in P. destruct P as [_ P].
    discriminate P.
Qed.

(** The match of the success criterion heading pattern on a well-formed
    heading: the title is all that stands between the number and the last
    parenthesis. *)
Lemma criterion_match d1 d2 d3 ws t s ws3 lv :
  isNumber d1 -> isNumber d2 -> isNumber d3 -> isGap ws ->
  t <> EmptyString -> oneLine t -> beginsOutside RegExp.space t ->
  RegExp.space s = true -> isGap ws3 ->
  lv <> EmptyString -> allOf (RegExp.chr "A") lv = true ->
  exists groups,
    RegExp.execAnchored WcagService.criterionHeaderPattern
      (d1 ++ "." ++ d2 ++ "." ++ d3 ++ ws ++ t ++ String s ("(Level" ++ ws3 ++ lv ++ ")"))
    = Some groups
    /\ JSText.capture 0 8 groups = d1 ++ "." ++ d2 ++ "." ++ d3
    /\ JSText.capture 10 2 groups = t
    /\ JSText.capture 22 2 groups = lv.
Proof.
  intros [N1 D1] [N2 D2] [N3 D3] [Nw Dw] Nt Dt Bt Hs [Nw3 Dw3] Nlv Dlv.
  destruct d1 as [|a1 d1]; [contradiction|].
  destruct d2 as [|a2 d2]; [contradiction|].
  destruct d3 as [|a3 d3]; [contradiction|].
  destruct ws as [|aw ws]; [contradiction|].
  destruct t as [|at' t]; [contradiction|].
  destruct ws3 as [|aw3 ws3]; [contradiction|].
  destruct lv as [|al lv]; [contradiction|].
  pose proof Dw3 as Gap3. pose proof Dlv as Level.
  unfold allSpace, oneLine in *. cbn [allOf] in D1, D2, D3, Dw, Dt, Dw3, Dlv.
  apply andb_prop in D1, D2, D3, Dw, Dt, Dw3, Dlv.
  destruct D1 as [A1 D1], D2 as [A2 D2], D3 as [A3 D3], Dw as [Aw Dw], Dt as [At Dt],
           Dw3 as [Aw3 Dw3], Dlv as [Al Dlv].
  pose proof Al as IsA. apply Ascii.eqb_eq in IsA. subst al.
  set (close := [RegExp.One (RegExp.chr ")"); RegExp.AtEnd]).
  assert (ML : RegExp.matchHere (RegExp.plus (RegExp.chr "A") ++ close)%list
                 (String "A" lv ++ ")")
               = Some ([String "A" EmptyString; lv; ")"; EmptyString], EmptyString)).
  { apply plus_longest; [exact Al | exact Dlv | | reflexivity].
    apply blocked. intros c r H. injection H as <- _. reflexivity. }
  assert (MW : RegExp.matchHere
                 (RegExp.plus RegExp.space ++ RegExp.plus (RegExp.chr "A") ++ close)%list
                 (String aw3 ws3 ++ String "A" lv ++ ")")
               = Some ([String aw3 EmptyString; ws3; String "A" EmptyString; lv; ")";
                        EmptyString], EmptyString)).
  { apply plus_longest; [exact Aw3 | exact Dw3 | | exact ML].
    apply blocked. intros c r H. injection H as <- _. reflexivity. }
  apply (lit_match "(Level") in MW. cbn [list_ascii_of_string map app] in MW.
  assert (MS : RegExp.matchHere
                 (RegExp.plus RegExp.space ++ RegExp.lit "(Level" ++ RegExp.plus RegExp.space
                  ++ RegExp.plus (RegExp.chr "A") ++ close)%list
                 (String s EmptyString ++ "(Level" ++ String aw3 ws3 ++ String "A" lv ++ ")")
               = Some ([String s EmptyString; EmptyString; "("; "L"; "e"; "v"; "e"; "l";
                        String aw3 EmptyString; ws3; String "A" EmptyString; lv; ")";
                        EmptyString], EmptyString)).
  { apply plus_longest; [exact Hs | reflexivity | | exact MW].
    apply blocked. intros c r H. injection H as <- _. reflexivity. }
  change (String s EmptyString ++ "(Level" ++ String aw3 ws3 ++ String "A" lv ++ ")")
    with (String s ("(Level" ++ String aw3 ws3 ++ String "A" lv ++ ")")) in MS.
  assert (MT : RegExp.matchHere
                 (RegExp.plus JSText.anyChar
                  ++ RegExp.plus RegExp.space ++ RegExp.lit "(Level"
                  ++ RegExp.plus RegExp.space
                  ++ RegExp.plus (RegExp.chr "A") ++ close)%list
                 (String at' t ++ String s ("(Level" ++ String aw3 ws3 ++ String "A" lv ++ ")"))
               = Some ([String at' EmptyString; t;
                        String s EmptyString; EmptyString; "("; "L"; "e"; "v"; "e"; "l";
                        String aw3 EmptyString; ws3; String "A" EmptyString; lv; ")";
                        EmptyString], EmptyString)).
  { apply plus_longest; [exact At | exact Dt | | exact MS].
    intros u v Hu E _. exact (level_tail_fails _ _ _ _ _ Hs Gap3 Level Hu E). }
  set (tail := String s ("(Level" ++ String aw3 ws3 ++ String "A" lv ++ ")")) in *.
  set (P4 := (RegExp.plus JSText.anyChar
              ++ RegExp.plus RegExp.space ++ RegExp.lit "(Level"
              ++ RegExp.plus RegExp.space
              ++ RegExp.plus (RegExp.chr "A") ++ close)%list) in *.
  assert (M3 : RegExp.matchHere (RegExp.plus RegExp.space ++ P4)%list
                 (String aw ws ++ String at' t ++ tail)
               = Some (String aw EmptyString :: ws ::
                       [String at' EmptyString; t;
                        String s EmptyString; EmptyString; "("; "L"; "e"; "v"; "e"; "l";
                        String aw3 EmptyString; ws3; String "A" EmptyString; lv; ")";
                        EmptyString], EmptyString)).
  { apply plus_longest; [exact Aw | exact Dw | | exact MT].
    apply blocked. intros c r H. cbn [append] in H. injection H as <- _.
    exact (Bt _ _ eq_refl). }
  set (P3 := (RegExp.plus RegExp.space ++ P4)%list) in *.
  set (r3 := String aw ws ++ String at' t ++ tail) in *.
  assert (B3 : forall cls, cls aw = false -> beginsOutside cls r3).
  { intros cls H c r E. unfold r3 in E. cbn [append] in E. injection E as <- _. exact H. }
  pose proof (plus_longest _ _ _ _ _ _ _ A3 D3
                (blocked _ _ _ (B3 _ (space_not_digit _ Aw))) M3) as M2.
  set (P2 := (RegExp.plus RegExp.digit ++ P3)%list) in *.
  assert (Dot : forall p r gs rest,
             RegExp.matchHere p r = Some (gs, rest) ->
             RegExp.matchHere (RegExp.One (RegExp.chr ".") :: p) ("." ++ r)
             = Some (String "." EmptyString :: gs, rest)).
  { intros p r gs rest M. cbn [append].
    change (RegExp.matchHere (RegExp.One (RegExp.chr ".") :: p) (String "." r))
      with (match RegExp.matchHere p r with
            | Some (groups, rest) => Some (String "."%char EmptyString :: groups, rest)
            | None => None
            end).
    now rewrite M. }
  assert (BD : forall r, beginsOutside RegExp.digit ("." ++ r)).
  { intros r c r' E. injection E as <- _. reflexivity. }
  apply Dot in M2.
  pose proof (plus_longest _ _ _ _ _ _ _ A2 D2 (blocked _ _ _ (BD _)) M2) as M1.
  apply Dot in M1.
  pose proof (plus_longest _ _ _ _ _ _ _ A1 D1 (blocked _ _ _ (BD _)) M1) as M0.
  eexists. split.
  - unfold RegExp.execAnchored, WcagService.criterionHeaderPattern.
    change (String a1 d1 ++ "." ++ String a2 d2 ++ "." ++ String a3 d3
            ++ String aw ws ++ String at' t ++ tail)
      with (String a1 d1 ++ "." ++ String a2 d2 ++ "." ++ String a3 d3 ++ r3).
    match goal with
    | |- match RegExp.matchHere ?p _ with _ => _ end = _ =>
        change p with (RegExp.plus RegExp.digit
                       ++ RegExp.One (RegExp.chr ".")
                       :: RegExp.plus RegExp.digit
                       ++ RegExp.One (RegExp.chr ".") :: P2)%list
    end.
    rewrite M0. reflexivity.
  - cbn [JSText.capture skipn firstn RegExp.matched fold_right append].
    rewrite !string_app_nil_r. repeat split; reflexivity.
Qed.

Lemma execAnchored_matches p text :
  RegExp.execAnchored p text <> None <-> matchesAt p text.
Proof.
  unfold RegExp.execAnchored, matchesAt.
  destruct (RegExp.matchHere p text) as [[gs r]|]; split; intros H.
  - discriminate.
  - discriminate.
  - now contradiction H.
  - now contradiction H.
Qed.

Lemma header_shape text :
  matchesAt WcagService.headerPattern text
  <-> exists d1 d2 ws t,
        text = d1 ++ "." ++ d2 ++ ws ++ t
        /\ isNumber d1 /\ isNumber d2 /\ isGap ws /\ t <> EmptyString /\ oneLine t.
Proof.
  unfold WcagService.headerPattern, isNumber, isGap, oneLine, allSpace. split.
  - intros H.
    apply matchesAt_plus in H. destruct H as (d1 & s1 & -> & N1 & D1 & H).
    cbn [app] in H. apply matchesAt_one in H. destruct H as (c & s2 & -> & Hc & H).
    apply Ascii.eqb_eq in Hc. subst c.
    apply matchesAt_plus in H. destruct H as (d2 & s3 & -> & N2 & D2 & H).
    apply matchesAt_plus in H. destruct H as (ws & s4 & -> & Nw & Dw & H).
    apply matchesAt_plus in H. destruct H as (t & s5 & -> & Nt & Dt & H).
    apply matchesAt_end in H. destruct H as [-> _].
    exists d1, d2, ws, t. rewrite string_app_nil_r. now repeat split.
  - intros (d1 & d2 & ws & t & -> & [N1 D1] & [N2 D2] & [Nw Dw] & Nt & Dt).
    apply matchesAt_plus. exists d1, ("." ++ d2 ++ ws ++ t). repeat split; try assumption.
    cbn [app]. apply matchesAt_one. exists "."%char, (d2 ++ ws ++ t).
    repeat split.
    apply matchesAt_plus. exists d2, (ws ++ t). repeat split; try assumption.
    apply matchesAt_plus. exists ws, t. repeat split; try assumption.
    apply matchesAt_plus. exists t, EmptyString. rewrite string_app_nil_r.
    repeat split; try assumption.
    apply matchesAt_end. split; [reflexivity | apply matchesAt_nil].
Qed.

(** X17.  A block of the page contributes to the guidelines exactly when
    the text of its heading is a number, a dot, a number, white space and
    a text of one line.  When that text begins with no white space, the
    block contributes a guideline with the two numbers as its number, the
    text as its title and the numbers joined by a dash in its address,
    followed by the success criteria of the block. *)
Theorem X17_guideline_heading (block : WcagService.GuidelineBlock) :
  (blockGuidelines block <> []
   <-> exists d1 d2 ws t,
         WcagService.g_h3 block = d1 ++ "." ++ d2 ++ ws ++ t
         /\ isNumber d1 /\ isNumber d2 /\ isGap ws /\ t <> EmptyString /\ oneLine t)
  /\ (forall d1 d2 ws t,
        WcagService.g_h3 block = d1 ++ "." ++ d2 ++ ws ++ t ->
        isNumber d1 -> isNumber d2 -> isGap ws ->
        t <> EmptyString -> oneLine t -> beginsOutside RegExp.space t ->
        forall i acc,
          WcagService.guidelineCheck i block acc
          = (acc ++ guidelineEntry (d1 ++ "." ++ d2) t (WcagService.g_p block)
                 :: flat_map criterionEntries (WcagService.g_sc block))%list
          /\ WcagService.url (guidelineEntry (d1 ++ "." ++ d2) t (WcagService.g_p block))
             = "https://www.w3.org/TR/WCAG20/#" ++ d1 ++ "-" ++ d2).
Proof.
  split.
  - rewrite <- header_shape, <- execAnchored_matches.
    unfold blockGuidelines, WcagService.guidelineCheck.
    destruct (RegExp.execAnchored _ _); cbv zeta; split; intros H.
    + discriminate.
    + cbn [app]. discriminate.
    + now contradiction H.
    + now contradiction H.
  - intros d1 d2 ws t E N1 N2 Nw Nt Dt Bt i acc.
    destruct (header_match d1 d2 ws t N1 N2 Nw Nt Dt Bt) as (groups & M & Cid & Ct).
    split.
    + unfold WcagService.guidelineCheck. rewrite E, M. cbv zeta.
      rewrite Cid, Ct, criterion_loop, <- app_assoc. reflexivity.
    + unfold guidelineEntry. cbn [WcagService.url].
      rewrite !dotsToDashes_app, (dotsToDashes_number d1), (dotsToDashes_number d2)
        by (apply N1 || apply N2).
      reflexivity.
Qed.

Lemma X17_guideline_heading_witness :
  blockGuidelines Cases.textAlternatives
  = [ guidelineEntry "1.1" "Text Alternatives"
        "  Provide text alternatives for any non-text content. ";
      {| WcagService.id := "1.1.1";
         WcagService.title := "Non-text Content";
         WcagService.level := "A";
         WcagService.description := "All non-text content has a text alternative.";
         WcagService.techniques := ["G94"; "H37"];
         WcagService.url := "https://www.w3.org/TR/WCAG20/#1-1-1" |} ].
Proof.
  unfold blockGuidelines.
  refine (eq_trans
            (proj1 (proj2 (X17_guideline_heading Cases.textAlternatives)
                      "1" "1" " " "Text Alternatives"
                      eq_refl _ _ _ _ _ _ 0 [])) _).
  - split; [discriminate | reflexivity].
  - split; [discriminate | reflexivity].
  - split; [discriminate | reflexivity].
  - discriminate.
  - reflexivity.
  - intros c r H. injection H as <- _. reflexivity.
  - vm_compute. reflexivity.
Defined.

Lemma criterion_shape text :
  matchesAt WcagService.criterionHeaderPattern text
  <-> exists d1 d2 d3 ws t ws2 ws3 lv,
        text = d1 ++ "." ++ d2 ++ "." ++ d3 ++ ws ++ t ++ ws2 ++ "(Level" ++ ws3 ++ lv ++ ")"
        /\ isNumber d1 /\ isNumber d2 /\ isNumber d3 /\ isGap ws
        /\ (t <> EmptyString /\ oneLine t) /\ isGap ws2 /\ isGap ws3
        /\ lv <> EmptyString /\ allOf (RegExp.chr "A") lv = true.
Proof.
  unfold WcagService.criterionHeaderPattern, isNumber, isGap, oneLine, allSpace. split.
  - intros H.
    apply matchesAt_plus in H. destruct H as (d1 & s1 & -> & N1 & D1 & H).
    cbn [app] in H. apply matchesAt_one in H. destruct H as (c & s2 & -> & Hc & H).
    apply Ascii.eqb_eq in Hc. subst c.
    apply matchesAt_plus in H. destruct H as (d2 & s3 & -> & N2 & D2 & H).
    cbn [app] in H. apply matchesAt_one in H. destruct H as (c & s4 & -> & Hc & H).
    apply Ascii.eqb_eq in Hc. subst c.
    apply matchesAt_plus in H. destruct H as (d3 & s5 & -> & N3 & D3 & H).
    apply matchesAt_plus in H. destruct H as (ws & s6 & -> & Nw & Dw & H).
    apply matchesAt_plus in H. destruct H as (t & s7 & -> & Nt & Dt & H).
    apply matchesAt_plus in H. destruct H as (ws2 & s8 & -> & Nw2 & Dw2 & H).
    apply matchesAt_lit in H. destruct H as (s9 & -> & H).
    apply matchesAt_plus in H. destruct H as (ws3 & s10 & -> & Nw3 & Dw3 & H).
    apply matchesAt_plus in H. destruct H as (lv & s11 & -> & Nl & Dl & H).
    apply matchesAt_one in H. destruct H as (c & s12 & -> & Hc & H).
    apply Ascii.eqb_eq in Hc. subst c.
    apply matchesAt_end in H. destruct H as [-> _].
    exists d1, d2, d3, ws, t, ws2, ws3, lv. now repeat split.
  - intros (d1 & d2 & d3 & ws & t & ws2 & ws3 & lv & -> & [N1 D1] & [N2 D2] & [N3 D3]
            & [Nw Dw] & [Nt Dt] & [Nw2 Dw2] & [Nw3 Dw3] & Nl & Dl).
    apply matchesAt_plus. eexists d1, _. repeat split; try assumption.
    cbn [app]. apply matchesAt_one. eexists "."%char, _. repeat split.
    apply matchesAt_plus. eexists d2, _. repeat split; try assumption.
    cbn [app]. apply matchesAt_one. eexists "."%char, _. repeat split.
    apply matchesAt_plus. eexists d3, _. repeat split; try assumption.
    apply matchesAt_plus. eexists ws, _. repeat split; try assumption.
    apply matchesAt_plus. eexists t, _. repeat split; try assumption.
    apply matchesAt_plus. eexists ws2, _. repeat split; try assumption.
    apply matchesAt_lit. eexists. split; [reflexivity|].
    apply matchesAt_plus. eexists ws3, _. repeat split; try assumption.
    apply matchesAt_plus. eexists lv, _. repeat split; try assumption.
    apply matchesAt_one. exists ")"%char, EmptyString. repeat split.
    apply matchesAt_end. split; [reflexivity | apply matchesAt_nil].
Qed.

(** X18.  A success criterion of a block is kept exactly when the text of
    its heading is three numbers separated by dots, white space, a title
    of one line, white space, the word Level in parentheses with a run of
    the letter A after it, and nothing more.  When the title begins with
    no white space and one white space character separates it from the
    parenthesis, the entry has the three numbers as its number, that
    title, the run of the letter A as its level, and the numbers joined
    by dashes in its address: the title is taken as long as can be, so a
    parenthesis inside it stays in it. *)
Theorem X18_criterion_heading (sc : WcagService.ScBlock) :
  (criterionEntries sc <> []
   <-> exists d1 d2 d3 ws t ws2 ws3 lv,
         WcagService.sc_h4 sc
         = d1 ++ "." ++ d2 ++ "." ++ d3 ++ ws ++ t ++ ws2 ++ "(Level" ++ ws3 ++ lv ++ ")"
         /\ isNumber d1 /\ isNumber d2 /\ isNumber d3 /\ isGap ws
         /\ (t <> EmptyString /\ oneLine t) /\ isGap ws2 /\ isGap ws3
         /\ lv <> EmptyString /\ allOf (RegExp.chr "A") lv = true)
  /\ (forall d1 d2 d3 ws t s ws3 lv,
        WcagService.sc_h4 sc
        = d1 ++ "." ++ d2 ++ "." ++ d3 ++ ws ++ t ++ String s ("(Level" ++ ws3 ++ lv ++ ")") ->
        isNumber d1 -> isNumber d2 -> isNumber d3 -> isGap ws ->
        t <> EmptyString -> oneLine t -> beginsOutside RegExp.space t ->
        RegExp.space s = true -> isGap ws3 ->
        lv <> EmptyString -> allOf (RegExp.chr "A") lv = true ->
        forall j acc,
          WcagService.criterionCheck j sc acc
          = (acc ++ [criterionEntry (d1 ++ "." ++ d2 ++ "." ++ d3) t lv sc])%list
          /\ WcagService.url (criterionEntry (d1 ++ "." ++ d2 ++ "." ++ d3) t lv sc)
             = "https://www.w3.org/TR/WCAG20/#" ++ d1 ++ "-" ++ d2 ++ "-" ++ d3).
Proof.
  split.
  - rewrite <- criterion_shape, <- execAnchored_matches.
    unfold criterionEntries, WcagService.criterionCheck.
    destruct (RegExp.execAnchored _ _); cbv zeta; split; intros H.
    + discriminate.
    + cbn [app]. discriminate.
    + now contradiction H.
    + now contradiction H.
  - intros d1 d2 d3 ws t s ws3 lv E N1 N2 N3 Nw Nt Dt Bt Hs Nw3 Nl Dl j acc.
    destruct (criterion_match d1 d2 d3 ws t s ws3 lv N1 N2 N3 Nw Nt Dt Bt Hs Nw3 Nl Dl)
      as (groups & M & Cid & Ct & Cl).
    split.
    + unfold WcagService.criterionCheck. rewrite E, M. cbv zeta.
      rewrite Cid, Ct, Cl. reflexivity.
    + unfold criterionEntry. cbn [WcagService.url].
      rewrite !dotsToDashes_app, (dotsToDashes_number d1), (dotsToDashes_number d2),
        (dotsToDashes_number d3) by (apply N1 || apply N2 || apply N3).
      reflexivity.
Qed.

Lemma X18_criterion_heading_witness :
  criterionEntries Cases.nonTextContent
  = [ {| WcagService.id := "1.1.1";
         WcagService.title := "Non-text Content";
         WcagService.level := "A";
         WcagService.description := "All non-text content has a text alternative.";
         WcagService.techniques := ["G94"; "H37"];
         WcagService.url := "https://www.w3.org/TR/WCAG20/#1-1-1" |} ].
Proof.
  unfold criterionEntries.
  refine (eq_trans
            (proj1 (proj2 (X18_criterion_heading Cases.nonTextContent)
                      "1" "1" "1" " " "Non-text Content" " "%char " " "A"
                      eq_refl _ _ _ _ _ _ _ _ _ _ _ 0 [])) _).
  - split; [discriminate | reflexivity].
  - split; [discriminate | reflexivity].
  - split; [discriminate | reflexivity].
  - split; [discriminate | reflexivity].
  - discriminate.
  - reflexivity.
  - intros c r H. injection H as <- _. reflexivity.
  - reflexivity.
  - split; [discriminate | reflexivity].
  - discriminate.
  - reflexivity.
  - vm_compute. reflexivity.
Defined.

Lemma filter_filter {T} (f g : T -> bool) (l : list T) :
  filter g (filter f l) = filter (fun x => f x && g x) l.
Proof.
  induction l as [|x l IH]; cbn [filter]; [reflexivity|].
  destruct (f x); cbn [filter andb]; [|exact IH].
  destruct (g x); now rewrite IH.
Qed.

Lemma filter_all {T} (l : list T) : filter (fun _ => true) l = l.
Proof.
  induction l as [|x l IH]; cbn [filter]; [reflexivity | now rewrite IH].
Qed.

Lemma getGuidelines_eq world this disk options :
  WcagService.getGuidelines world this disk options
  = (filter (answers options)
            (WcagService.guidelines (fst (WcagService.loadGuidelines world this disk))),
     fst (WcagService.loadGuidelines world this disk),
     snd (WcagService.loadGuidelines world this disk)).
Proof.
  unfold WcagService.getGuidelines.
  destruct (WcagService.loadGuidelines world this disk) as [this' disk'].
  cbv zeta. cbn [fst snd]. f_equal. f_equal. unfold answers.
  destruct (WcagService.q_criterion options) as [[|c s]|];
    destruct (WcagService.q_level options) as [[|c' s']|];
    rewrite ?filter_filter; cbn [andb];
    try (symmetry; apply filter_all); try reflexivity.
  all: apply filter_ext; intros g; now rewrite ?andb_true_r.
Qed.

(** The cache is never taken and never written. *)
Lemma loadFromCache_never world this disk :
  WcagService.loadFromCache world this disk = (false, this).
Proof.
  unfold WcagService.loadFromCache, WcagService.readJson.
  now destruct (negb (WcagService.pathExists disk)).
Qed.

Lemma saveToCache_never world this disk :
  WcagService.saveToCache world this disk = disk.
Proof. reflexivity. Qed.

(** What loading does on a service that has not loaded yet. *)
Lemma loadGuidelines_unloaded world this disk :
  WcagService.cacheLoaded this = false ->
  WcagService.loadGuidelines world this disk
  = (loadedWith (WcagService.fetchGuidelinesFromWeb world), disk).
Proof.
  intros L. unfold WcagService.loadGuidelines. rewrite L, loadFromCache_never.
  reflexivity.
Qed.

(** X19.  As the package binds the file-system library, reading and
    writing the cache file both throw inside their [try]: the cache is
    never taken and never written.  So the first call of a service
    answers with what it fetches from the web, whatever the cache file
    holds and however recent its time stamp, and leaves the file as it
    is; afterwards the service has loaded. *)
Theorem X19_first_call_source (world : WcagService.World) (this : WcagService.Service)
        (disk : WcagService.CacheFile) (options : WcagService.WcagQueryOptions) :
  WcagService.cacheLoaded this = false ->
  let out := WcagService.getGuidelines world this disk options in
  fst (WcagService.loadFromCache world this disk) = false
  /\ serviceAfter out = loadedWith (WcagService.fetchGuidelinesFromWeb world)
  /\ returned out
     = filter (answers options) (WcagService.fetchGuidelinesFromWeb world)
  /\ diskAfter out = disk
  /\ (forall timestamp guidelines,
        disk = storedAt timestamp guidelines ->
        WcagService.expired world timestamp = false ->
        WcagService.guidelines (serviceAfter out)
        = WcagService.fetchGuidelinesFromWeb world).
Proof.
  intros L out. subst out. rewrite getGuidelines_eq, loadFromCache_never.
  unfold serviceAfter, diskAfter, returned. cbn [fst snd].
  rewrite (loadGuidelines_unloaded world this disk L). cbn [fst snd].
  repeat split.
Qed.

Lemma X19_first_call_source_witness :
  WcagService.guidelines
    (serviceAfter
       (WcagService.getGuidelines Cases.offlineWorld WcagService.newService
          (storedAt "2023-11-14T22:13:20.000Z"
             (WcagService.fetchGuidelinesFromWeb Cases.onlineWorld))
          Cases.anyQuery))
  = WcagService.getDefaultGuidelines.
Proof.
  exact (proj2 (proj2 (proj2 (proj2
           (X19_first_call_source Cases.offlineWorld WcagService.newService
              (storedAt "2023-11-14T22:13:20.000Z"
                 (WcagService.fetchGuidelinesFromWeb Cases.onlineWorld))
              Cases.anyQuery eq_refl))))
           "2023-11-14T22:13:20.000Z"
           (WcagService.fetchGuidelinesFromWeb Cases.onlineWorld) eq_refl eq_refl).
Defined.

(** X20.  Once a call has returned, the service never loads again: every
    later call, whatever the clock, the network and the cache file have
    become, leaves the service and the file as they are and answers from
    the guidelines the service holds. *)
Theorem X20_loaded_once (world : WcagService.World) (this : WcagService.Service)
        (disk : WcagService.CacheFile) (options : WcagService.WcagQueryOptions) :
  let after := serviceAfter (WcagService.getGuidelines world this disk options) in
  forall world' disk' options',
    WcagService.getGuidelines world' after disk' options'
    = (filter (answers options') (WcagService.guidelines after), after, disk').
Proof.
  intros after world' disk' options'.
  assert (L : WcagService.cacheLoaded after = true).
  { subst after. rewrite getGuidelines_eq. unfold serviceAfter. cbn [fst snd].
    destruct (WcagService.cacheLoaded this) eqn:E.
    - unfold WcagService.loadGuidelines. rewrite E. exact E.
    - now rewrite (loadGuidelines_unloaded world this disk E). }
  rewrite getGuidelines_eq. unfold WcagService.loadGuidelines. rewrite L. reflexivity.
Qed.

(** X21.  Nothing a service fetched reaches a service started later: the
    first leaves the cache file as it found it, and the second answers
    its first call with what it fetches itself, so that with the network
    down it answers from the built-in guidelines even though the first
    service had fetched the page a moment before. *)
Theorem X21_no_cache_between_services (world world' : WcagService.World)
        (this : WcagService.Service) (disk : WcagService.CacheFile)
        (options options' : WcagService.WcagQueryOptions) :
  WcagService.cacheLoaded this = false ->
  let first := WcagService.getGuidelines world this disk options in
  let second :=
    WcagService.getGuidelines world' WcagService.newService (diskAfter first) options' in
  diskAfter first = disk
  /\ diskAfter second = disk
  /\ serviceAfter second = loadedWith (WcagService.fetchGuidelinesFromWeb world')
  /\ (forall m,
        WcagService.httpGet world' WcagService.wcagUrl = Throw m ->
        returned second = filter (answers options') WcagService.getDefaultGuidelines).
Proof.
  intros L first second. subst first second. rewrite !getGuidelines_eq.
  unfold serviceAfter, diskAfter, returned. cbn [fst snd].
  rewrite (loadGuidelines_unloaded world this disk L). cbn [fst snd].
  rewrite (loadGuidelines_unloaded world' WcagService.newService disk eq_refl).
  cbn [fst snd]. repeat split.
  intros m H. unfold loadedWith. cbn [WcagService.guidelines].
  unfold WcagService.fetchGuidelinesFromWeb. now rewrite H.
Qed.

Lemma X21_no_cache_between_services_witness :
  returned (WcagService.getGuidelines Cases.offlineWorld WcagService.newService
              (diskAfter (WcagService.getGuidelines Cases.onlineWorld WcagService.newService
                            WcagService.Absent Cases.anyQuery))
              Cases.anyQuery)
  = filter (answers Cases.anyQuery) WcagService.getDefaultGuidelines.
Proof.
  exact (proj2 (proj2 (proj2
           (X21_no_cache_between_services Cases.onlineWorld Cases.offlineWorld
              WcagService.newService WcagService.Absent
              Cases.anyQuery Cases.anyQuery eq_refl)))
           "getaddrinfo ENOTFOUND www.w3.org" eq_refl).
Defined.

Lemma lowerChar_idem c : lowerChar (lowerChar c) = lowerChar c.
Proof.
  destruct c as [[] [] [] [] [] [] [] []]; vm_compute; reflexivity.
Qed.

Lemma toLowerCase_idem s : toLowerCase (toLowerCase s) = toLowerCase s.
Proof.
  induction s as [|c s IH]; cbn [toLowerCase]; [reflexivity|].
  now rewrite lowerChar_idem, IH.
Qed.

(** X22.  A query returns, in their order, the held guidelines that it
    keeps: those whose number, title or description contains the
    criterion asked for, letter case apart, and whose level is exactly
    the level asked for; an empty criterion or level asks for nothing.
    Asking for a criterion in lower case changes nothing. *)
Theorem X22_query_selects (world : WcagService.World) (this : WcagService.Service)
        (disk : WcagService.CacheFile) :
  (forall options,
      let out := WcagService.getGuidelines world this disk options in
      returned out = filter (answers options) (WcagService.guidelines (serviceAfter out)))
  /\ (forall criterion level g,
        answers (queryFor criterion level) g = true
        <-> (truthy criterion = true ->
             exists c, criterion = Some c
                       /\ (contains (toLowerCase (WcagService.id g)) (toLowerCase c)
                           \/ contains (toLowerCase (WcagService.title g)) (toLowerCase c)
                           \/ contains (toLowerCase (WcagService.description g))
                                       (toLowerCase c)))
            /\ (truthy level = true -> level = Some (WcagService.level g)))
  /\ (forall c level,
        WcagService.getGuidelines world this disk (queryFor (Some (toLowerCase c)) level)
        = WcagService.getGuidelines world this disk (queryFor (Some c) level)).
Proof.
  split; [|split].
  - intros options out. subst out. rewrite getGuidelines_eq. reflexivity.
  - intros criterion level g. unfold answers, queryFor.
    cbn [WcagService.q_criterion WcagService.q_level].
    rewrite andb_true_iff.
    assert (C : match criterion with
                | Some (String c s) => WcagService.mentions (String c s) g
                | _ => true
                end = true
                <-> (truthy criterion = true ->
                     exists c, criterion = Some c
                               /\ (contains (toLowerCase (WcagService.id g)) (toLowerCase c)
                                   \/ contains (toLowerCase (WcagService.title g)) (toLowerCase c)
                                   \/ contains (toLowerCase (WcagService.description g))
                                               (toLowerCase c)))).
    { destruct criterion as [[|c s]|]; cbn [truthy].
      - split; [discriminate | reflexivity].
      - unfold WcagService.mentions. rewrite !orb_true_iff, !includes_contains. split.
        + intros H _. exists (String c s). split; [reflexivity | tauto].
        + intros H. destruct (H eq_refl) as (c' & E & H'). injection E as <-. tauto.
      - split; [discriminate | reflexivity]. }
    assert (Lv : match level with
                 | Some (String c s) => String.eqb (WcagService.level g) (String c s)
                 | _ => true
                 end = true
                 <-> (truthy level = true -> level = Some (WcagService.level g))).
    { destruct level as [[|c s]|]; cbn [truthy].
      - split; [discriminate | reflexivity].
      - rewrite String.eqb_eq. split.
        + intros -> _. reflexivity.
        + intros H. specialize (H eq_refl). now injection H.
      - split; [discriminate | reflexivity]. }
    rewrite C, Lv. reflexivity.
  - intros c level. rewrite !getGuidelines_eq. f_equal. f_equal.
    apply filter_ext. intros g. unfold answers, queryFor.
    cbn [WcagService.q_criterion WcagService.q_level]. f_equal.
    destruct c as [|a c]; [reflexivity|].
    change (WcagService.mentions (toLowerCase (String a c)) g
            = WcagService.mentions (String a c) g).
    unfold WcagService.mentions. now rewrite toLowerCase_idem.
Qed.

Lemma guidelineText_appends response g :
  WcagService.guidelineText response g = response ++ entryText g.
Proof.
  unfold entryText, WcagService.guidelineText. cbv zeta.
  destruct (0 <? List.length (WcagService.techniques g))%nat;
    repeat (progress (cbn [append]; rewrite ?string_app_assoc)); reflexivity.
Qed.

Lemma guideline_texts l :
  forall response,
    fold_left WcagService.guidelineText l response
    = response ++ concatenated (map entryText l).
Proof.
  unfold concatenated.
  induction l as [|g l IH]; intros response; cbn [fold_left map fold_right].
  - now rewrite string_app_nil_r.
  - now rewrite IH, guidelineText_appends, string_app_assoc.
Qed.

(** X23.  The guideline tool answers with one text: the heading, then
    either the sentence that nothing was found, exactly when the query
    returned no guideline, or the entries of the returned guidelines one
    after the other, each the same whatever precedes it.  The service and
    the cache file end as the query leaves them. *)
Theorem X23_guidelines_text (world : WcagService.World) (this : WcagService.Service)
        (disk : WcagService.CacheFile) (options : WcagService.WcagQueryOptions) :
  let query := WcagService.getGuidelines world this disk options in
  WcagService.getWcagGuidelines world this disk options
  = ([ "# WCAG 2.0 Guidelines" ++ nl ++ nl
       ++ match returned query with
          | [] => "No guidelines found matching your criteria." ++ nl
          | found => concatenated (map entryText found)
          end ],
     serviceAfter query, diskAfter query).
Proof.
  intros query. subst query.
  unfold WcagService.getWcagGuidelines, returned, serviceAfter, diskAfter.
  destruct (WcagService.getGuidelines world this disk options) as [[found this'] disk'].
  cbv zeta. cbn [fst snd]. f_equal. f_equal. f_equal.
  destruct found as [|g found]; cbn [List.length Nat.eqb].
  - now rewrite string_app_assoc.
  - rewrite guideline_texts. rewrite !string_app_assoc. reflexivity.
Qed.

(* ===================================================================== *)
(** ** The tool dispatch                                                  *)
(* ===================================================================== *)













(** What one call adds to the results the robot keeps. *)
Lemma callTool_keeps host format mcpMessage notAFunction world robot disk name args :
  kept (robotAfter (Index.callTool host format mcpMessage notAFunction world robot disk
                      name args))
  = (kept robot ++ resultsOf (host, world, name, args))%list.
Proof.
  unfold Index.callTool, Index.dispatch, robotAfter, kept, resultsOf.
  destruct robot as [server service]. cbn [Index.server Index.wcagService].
  destruct (String.eqb name "analyze_static_accessibility").
  { unfold A11yRobotServer.analyzeStaticAccessibility.
    destruct (StaticAnalyzer.analyze host _) as [r|e]; cbn [fst snd Index.server];
      [reflexivity | now rewrite app_nil_r]. }
  destruct (String.eqb name "analyze_dynamic_accessibility").
  { unfold A11yRobotServer.analyzeDynamicAccessibility.
    destruct (DynamicAnalyzer.analyze host _) as [r|e]; cbn [fst snd Index.server];
      [reflexivity | now rewrite app_nil_r]. }
  rewrite app_nil_r.
  destruct (String.eqb name "generate_accessibility_report").
  { now destruct (A11yRobotServer.generateAccessibilityReport host format server _). }
  destruct (String.eqb name "get_wcag_guidelines"); [|reflexivity].
  destruct (Index.getWcagGuidelines notAFunction world service disk _)
    as [[[response|e] s'] d']; reflexivity.
Qed.

Lemma resultsOf_analyzed call :
  Forall Analyzed (resultsOf call) /\ List.length (resultsOf call) <= 1.
Proof.
  destruct call as [[[host world] name] args]. unfold resultsOf, Analyzed.
  destruct (String.eqb name "analyze_static_accessibility").
  { destruct (StaticAnalyzer.analyze host _) as [r|e] eqn:A; cbn [List.length].
    - split; [|lia]. constructor; [|constructor]. left. eauto.
    - split; [constructor | lia]. }
  destruct (String.eqb name "analyze_dynamic_accessibility").
  { destruct (DynamicAnalyzer.analyze host _) as [r|e] eqn:A; cbn [List.length].
    - split; [|lia]. constructor; [|constructor]. right. eauto.
    - split; [constructor | lia]. }
  cbn [List.length]. split; [constructor | lia].
Qed.

(** X25.  A call of a tool other than the two analyses leaves the results
    the robot keeps as they are.  Over any sequence of tool calls, each
    made in the world of its time, the robot keeps exactly the results of
    the analyses that succeeded, in the order of the calls and after the
    results it held before: each of them is the result of a static or of
    a dynamic analysis, never the combined result of a report, and there
    is at most one for each call. *)
Theorem X25_kept_results (format : AnalysisResult -> string)
        (mcpMessage : Index.ErrorCode -> string -> string) (notAFunction : string) :
  (forall host world robot disk name args,
      name <> "analyze_static_accessibility" ->
      name <> "analyze_dynamic_accessibility" ->
      kept (robotAfter (Index.callTool host format mcpMessage notAFunction world robot
                          disk name args))
      = kept robot)
  /\ (forall calls robot disk,
        kept (fst (session format mcpMessage notAFunction robot disk calls))
        = (kept robot ++ flat_map resultsOf calls)%list)
  /\ (forall calls,
        Forall Analyzed (flat_map resultsOf calls)
        /\ List.length (flat_map resultsOf calls) <= List.length calls).
Proof.
  split; [|split].
  - intros host world robot disk name args N1 N2. rewrite callTool_keeps.
    unfold resultsOf. apply String.eqb_neq in N1, N2. rewrite N1, N2. apply app_nil_r.
  - induction calls as [|[[[host world] name] args] calls IH]; intros robot disk;
      cbn [session fst flat_map].
    + now rewrite app_nil_r.
    + cbv zeta. rewrite IH, callTool_keeps, <- app_assoc. reflexivity.
  - induction calls as [|call calls [IA IL]]; cbn [flat_map List.length].
    + split; [constructor | lia].
    + destruct (resultsOf_analyzed call) as [A L].
      split; [now apply Forall_app | rewrite length_app; lia].
Qed.

Lemma X25_kept_results_witness :
  kept (robotAfter (Index.callTool Sample.host Sample.format Cases.mcpMessage
                      Cases.notAFunction Cases.onlineWorld Index.newRobot
                      WcagService.Absent "get_wcag_guidelines" Cases.arguments))
  = [].
Proof.
  refine (proj1 (X25_kept_results Sample.format Cases.mcpMessage Cases.notAFunction)
            Sample.host Cases.onlineWorld Index.newRobot WcagService.Absent
            "get_wcag_guidelines" Cases.arguments _ _); discriminate.
Defined.

(* ===================================================================== *)
(** ** The rule table                                                     *)
(* ===================================================================== *)

Lemma get_set {V} (key : string) (value : V) (m : JSMap.Map V) (i : string) :
  JSMap.get i (JSMap.set key value m)
  = if String.eqb key i then Some value else JSMap.get i m.
Proof.
  induction m as [|[k v] m IH]; cbn [JSMap.set JSMap.get]; [reflexivity|].
  destruct (String.eqb k key) eqn:E; cbn [JSMap.get].
  - apply String.eqb_eq in E. subst k. now destruct (String.eqb key i).
  - rewrite IH. destruct (String.eqb k i) eqn:Ei; [|reflexivity].
    apply String.eqb_eq in Ei. subst k. now rewrite String.eqb_sym, E.
Qed.

Lemma forEachFrom_snoc {T St} (body : nat -> T -> St -> St) (xs : list T) (x : T) :
  forall k st,
    forEachFrom body k (xs ++ [x]) st
    = body (k + List.length xs) x (forEachFrom body k xs st).
Proof.
  induction xs as [|y xs IH]; intros k st; cbn [app forEachFrom List.length].
  - now rewrite Nat.add_0_r.
  - rewrite IH. now rewrite Nat.add_succ_comm.
Qed.

(** A registry answers with the last rule of its list that has the id
    asked for. *)
Lemma registry_lookup rules i :
  JSMap.get i (Rules.registryOf rules)
  = List.find (fun entry => String.eqb (Rules.id entry) i) (rev rules).
Proof.
  induction rules as [|entry rules IH] using rev_ind; [reflexivity|].
  unfold Rules.registryOf, forEach in *. rewrite forEachFrom_snoc, get_set, IH.
  rewrite rev_app_distr. reflexivity.
Qed.

Lemma allRules_ids :
  NoDup (map Rules.id Rules.allRules).
Proof.
  cbv [Rules.allRules Rules.htmlRules Rules.ariaRules Rules.angularRules
       Rules.keyboardRules Rules.colorRules app map Rules.id].
  repeat (constructor; [cbn [In]; intuition discriminate|]).
  constructor.
Qed.

(** With distinct ids, the last rule with an id is the only one. *)
Lemma find_unique rules :
  NoDup (map Rules.id rules) ->
  forall entry,
    In entry rules ->
    List.find (fun e => String.eqb (Rules.id e) (Rules.id entry)) (rev rules) = Some entry.
Proof.
  induction rules as [|x rules IH] using rev_ind; intros N entry H; [destruct H|].
  rewrite rev_app_distr. cbn [rev app List.find].
  rewrite map_app in N. cbn [map] in N.
  apply in_app_or in H. destruct H as [H|[<-|[]]].
  - destruct (String.eqb (Rules.id x) (Rules.id entry)) eqn:E.
    + apply String.eqb_eq in E. exfalso.
      apply NoDup_remove_2 in N. apply N. rewrite app_nil_r, E.
      now apply in_map.
    + apply IH; [|exact H]. apply NoDup_remove_1 in N. now rewrite app_nil_r in N.
  - now rewrite String.eqb_refl.
Qed.

(** X26.  A registry built from a rule list answers a lookup with the
    last rule of the list that has the id asked for.  The ids of the
    table are distinct, so the registry of the table loses no rule: each
    rule of the table is found under its id, and whatever a lookup finds
    is a rule of the table with the id asked for. *)
Theorem X26_rule_registry :
  (forall rules i,
      JSMap.get i (Rules.registryOf rules)
      = List.find (fun entry => String.eqb (Rules.id entry) i) (rev rules))
  /\ (forall entry,
        In entry Rules.allRules -> Rules.getRuleById (Rules.id entry) = Some entry)
  /\ (forall i entry,
        Rules.getRuleById i = Some entry ->
        In entry Rules.allRules /\ Rules.id entry = i).
Proof.
  split; [exact registry_lookup | split].
  - intros entry H. unfold Rules.getRuleById, Rules.ruleRegistry.
    rewrite registry_lookup. now apply find_unique; [apply allRules_ids|].
  - intros i entry H. unfold Rules.getRuleById, Rules.ruleRegistry in H.
    rewrite registry_lookup in H. apply List.find_some in H. destruct H as [H E].
    apply in_rev in H. apply String.eqb_eq in E. now split.
Qed.

Lemma X26_rule_registry_witness :
  map (fun entry => Rules.getRuleById (Rules.id entry)) Rules.allRules
  = map Some Rules.allRules.
Proof.
  apply map_ext_in. intros entry H.
  exact (proj1 (proj2 X26_rule_registry) entry H).
Defined.

(** X27.  An element that is none of image, input, button, link, select
    and text area and has no role passes every rule of the table but one:
    the rule for images fails it, as it fails whatever is no image with
    an alt attribute.  Six rules, whose checks are left to the analyzers,
    pass every element. *)
Theorem X27_rules_outside_their_scope (element : Rules.DomElement)
        (document : Rules.Document) :
  (Rules.includesName concernedTags (Rules.tagName element) = false ->
   Rules.getAttribute element "role" = None ->
   forall entry,
     In entry Rules.allRules ->
     Rules.check entry element document = negb (String.eqb (Rules.id entry) "img-alt"))
  /\ (forall entry,
        In entry Rules.allRules ->
        In (Rules.id entry) deferredRules ->
        Rules.check entry element document = true).
Proof.
  split.
  - intros T R entry H. unfold concernedTags, Rules.includesName in T.
    cbn [existsb] in T. rewrite !orb_false_iff in T.
    destruct T as (T1 & T2 & T3 & T4 & T5 & T6 & _).
    cbv [Rules.allRules Rules.htmlRules Rules.ariaRules Rules.angularRules
         Rules.keyboardRules Rules.colorRules app] in H. cbn [In] in H.
    repeat (destruct H as [<-|H]; [cbn [Rules.check Rules.id]|]); try destruct H;
      cbv zeta; unfold Rules.includesName; cbn [existsb];
      rewrite ?T1, ?T2, ?T3, ?T4, ?T5, ?T6, ?R; reflexivity.
  - intros entry H D.
    cbv [Rules.allRules Rules.htmlRules Rules.ariaRules Rules.angularRules
         Rules.keyboardRules Rules.colorRules app] in H. cbn [In] in H.
    unfold deferredRules in D. cbn [In] in D.
    repeat (destruct H as [<-|H]; [cbn [Rules.check Rules.id] in *|]); try destruct H;
      try reflexivity; exfalso; intuition discriminate.
Qed.

Lemma X27_rules_outside_their_scope_witness :
  map (fun entry => Rules.check entry Cases.division Cases.noLabels) Rules.allRules
  = map (fun entry => negb (String.eqb (Rules.id entry) "img-alt")) Rules.allRules.
Proof.
  apply map_ext_in. intros entry H.
  exact (proj1 (X27_rules_outside_their_scope Cases.division Cases.noLabels)
           eq_refl eq_refl entry H).
Defined.

Lemma document_issue_kinds host doc filePath issues :
  StaticAnalyzer.analyzeDocument host doc filePath = Ok issues ->
  Forall staticKind issues.
Proof.
  intros H. apply analyzeDocument_parts in H. destruct H as (labels & -> & Hlabels).
  unfold staticKind. apply Forall_app. split; [|apply Forall_app; split].
  - eapply Forall_impl; [|apply imagePass_shape].
    intros x (i & src & ->). left. eauto.
  - eapply Forall_impl; [|exact Hlabels].
    intros x (i & t & ->). right. left. eauto.
  - rewrite heading_pass_trace. eapply Forall_impl; [|apply headingTrace_shape].
    intros x (i & p & c & t & ->). right. right. left. eauto 6.
Qed.

Lemma ngFor_issue_kinds content filePath :
  Forall staticKind (ngForIssuesOf content filePath).
Proof.
  apply Forall_forall. intros i Hi. unfold ngForIssuesOf in Hi.
  apply in_flat_map in Hi. destruct Hi as ([k m] & _ & Hi). cbn [fst snd] in Hi.
  destruct (includes m "trackBy"); [destruct Hi|].
  destruct Hi as [<-|[]]. unfold staticKind. right. right. right. left. eauto.
Qed.

Lemma file_issue_kinds host filePath projectPath :
  Forall staticKind (StaticAnalyzer.analyzeFile host filePath projectPath).
Proof.
  unfold StaticAnalyzer.analyzeFile. cbv zeta.
  destruct (readFile host filePath) as [content|m]; cbn [bind]; [|constructor].
  destruct (String.eqb (extname host filePath) ".html").
  { unfold StaticAnalyzer.analyzeHtmlTemplate.
    destruct (StaticAnalyzer.analyzeDocument host (load host content) _) as [issues|m] eqn:E;
      [|constructor].
    now apply document_issue_kinds in E. }
  destruct (String.eqb (extname host filePath) ".ts").
  { unfold StaticAnalyzer.analyzeTypeScriptFile.
    destruct (StaticAnalyzer.isAngularComponent content); [|constructor].
    destruct (RegExp.exec StaticAnalyzer.templatePattern content) as [groups|].
    - unfold StaticAnalyzer.analyzeHtmlTemplate.
      destruct (StaticAnalyzer.analyzeDocument host _ _) as [issues|m] eqn:E;
        cbn [bind]; [|constructor].
      cbn [app]. rewrite ngFor_part. apply Forall_app. split.
      + now apply document_issue_kinds in E.
      + apply ngFor_issue_kinds.
    - cbn [bind]. rewrite ngFor_part. apply ngFor_issue_kinds. }
  destruct (String.eqb (extname host filePath) ".scss"
            || String.eqb (extname host filePath) ".css"); [|constructor].
  unfold StaticAnalyzer.analyzeCssFile. cbv zeta.
  destruct (negb _ && _); [|constructor].
  destruct (RegExp.matchAll _ content); [|constructor].
  constructor; [|constructor]. unfold staticKind. right. right. right. right. eauto.
Qed.

Ltac open_table :=
  cbv [Rules.allRules Rules.htmlRules Rules.ariaRules Rules.angularRules
       Rules.keyboardRules Rules.colorRules app];
  cbn [In].

(** How each kind of static issue stands to the rule table. *)
Lemma kind_classified i :
  staticKind i ->
  exists entry,
    In entry Rules.allRules
    /\ classifiedAs entry i
    /\ (rule i = Rules.name entry
        \/ (Rules.id entry = "ngfor-trackby"
            /\ forall other, In other Rules.allRules -> Rules.name other <> rule i)
        \/ (Rules.id entry = "focus-visible"
            /\ forall other, In other Rules.allRules -> Rules.name other <> rule i)).
Proof.
  assert (Names : forall text,
             (forall other,
                 In other Rules.allRules -> String.eqb (Rules.name other) text = false) ->
             forall other, In other Rules.allRules -> Rules.name other <> text).
  { intros text H other Ho E. apply String.eqb_eq in E. now rewrite (H other Ho) in E. }
  intros [(index & src & filePath & ->)
         |[(index & type & filePath & ->)
          |[(index & previous & current & tag & filePath & ->)
           |[(index & text & filePath & ->)
            |(filePath & ->)]]]].
  - eexists. split; [open_table; do 0 right; left; reflexivity|]. split; [now repeat split | left; reflexivity].
  - eexists. split; [open_table; do 1 right; left; reflexivity|]. split; [now repeat split | left; reflexivity].
  - eexists. split; [open_table; do 3 right; left; reflexivity|]. split; [now repeat split | left; reflexivity].
  - eexists. split; [open_table; do 6 right; left; reflexivity|]. split; [now repeat split|]. right. left.
    split; [reflexivity|]. apply Names. intros other Ho.
    cbv [Rules.allRules Rules.htmlRules Rules.ariaRules Rules.angularRules
         Rules.keyboardRules Rules.colorRules app] in Ho. cbn [In] in Ho.
    repeat (destruct Ho as [<-|Ho]; [reflexivity|]). destruct Ho.
  - eexists. split; [open_table; do 9 right; left; reflexivity|]. split; [now repeat split|]. right. right.
    split; [reflexivity|]. apply Names. intros other Ho.
    cbv [Rules.allRules Rules.htmlRules Rules.ariaRules Rules.angularRules
         Rules.keyboardRules Rules.colorRules app] in Ho. cbn [In] in Ho.
    repeat (destruct Ho as [<-|Ho]; [reflexivity|]). destruct Ho.
Qed.

(** X28.  Every issue of a static analysis is classified as a rule of the
    table classifies it: some rule has its severity, level, criterion and
    address.  The issues of the markup checks also carry the name of that
    rule; the issues about lists without trackBy and about removed
    outlines agree with the rules for trackBy and for visible focus but
    carry a name that no rule of the table has. *)
Theorem X28_issues_follow_rules (host : Host) (options : StaticAnalysisOptions)
        (r : AnalysisResult) :
  StaticAnalyzer.analyze host options = Ok r ->
  Forall (fun i =>
            exists entry,
              In entry Rules.allRules
              /\ classifiedAs entry i
              /\ (rule i = Rules.name entry
                  \/ (Rules.id entry = "ngfor-trackby"
                      /\ forall other,
                          In other Rules.allRules -> Rules.name other <> rule i)
                  \/ (Rules.id entry = "focus-visible"
                      /\ forall other,
                          In other Rules.allRules -> Rules.name other <> rule i)))
         (issues r).
Proof.
  intros H. unfold StaticAnalyzer.analyze in H.
  destruct (StaticAnalyzer.findFiles host _ _ _) as [files|m]; cbn [bind] in H;
    [|discriminate].
  injection H as <-. cbn [issues].
  apply Forall_forall. intros i Hi. apply in_flat_map in Hi.
  destruct Hi as (filePath & _ & Hi). apply kind_classified.
  pose proof (file_issue_kinds host filePath (sa_projectPath options)) as K.
  rewrite Forall_forall in K. exact (K i Hi).
Qed.

Lemma X28_issues_follow_rules_witness :
  Forall (fun i =>
            exists entry,
              In entry Rules.allRules
              /\ classifiedAs entry i
              /\ (rule i = Rules.name entry
                  \/ (Rules.id entry = "ngfor-trackby"
                      /\ forall other,
                          In other Rules.allRules -> Rules.name other <> rule i)
                  \/ (Rules.id entry = "focus-visible"
                      /\ forall other,
                          In other Rules.allRules -> Rules.name other <> rule i)))
         (issues Cases.staticResult).
Proof.
  apply (X28_issues_follow_rules Sample.host Sample.staticOptions).
  vm_compute. reflexivity.
Defined.

(* ===================================================================== *)
(** ** The style sheet check, reduced                                     *)
(* ===================================================================== *)

Lemma contains_prefix content (word rest : string) :
  contains content (word ++ rest) -> contains content word.
Proof.
  intros (before & after & ->). exists before, (rest ++ after).
  now rewrite string_app_assoc.
Qed.

(** X29.  Two of the tests of the style sheet check decide nothing: a
    sheet that mentions [:focus-visible] or [:focus-within] mentions
    [:focus], and a sheet in which the pattern for a removed outline
    matches contains the word outline.  The check is the test for
    [:focus] followed by the pattern. *)
Theorem X29_css_check_reduced (content filePath : string) :
  StaticAnalyzer.analyzeCssFile content filePath
  = if includes content ":focus" then []
    else match RegExp.matchAll StaticAnalyzer.outlineNonePattern content with
         | Some _ => [StaticAnalyzer.outlineNoneIssue filePath]
         | None => []
         end.
Proof.
  unfold StaticAnalyzer.analyzeCssFile. cbv zeta.
  assert (F : some (fun selector => includes content selector) StaticAnalyzer.focusSelectors
              = includes content ":focus").
  { unfold some, StaticAnalyzer.focusSelectors. cbn [existsb]. rewrite orb_false_r.
    destruct (includes content ":focus") eqn:E; [reflexivity|].
    cbn [orb].
    assert (N : forall rest, includes content (":focus" ++ rest) = false).
    { intros rest. destruct (includes content (":focus" ++ rest)) eqn:E'; [|reflexivity].
      apply includes_contains, contains_prefix, includes_contains in E'.
      now rewrite E' in E. }
    pose proof (N "-visible") as N1. pose proof (N "-within") as N2.
    cbn [append] in N1, N2. now rewrite N1, N2. }
  rewrite F. destruct (includes content ":focus"); cbn [negb andb]; [reflexivity|].
  destruct (RegExp.matchAll StaticAnalyzer.outlineNonePattern content) as [ms|] eqn:M.
  - assert (O : includes content "outline" = true).
    { apply includes_contains.
      assert (H : RegExp.matchAll StaticAnalyzer.outlineNonePattern content <> None)
        by (rewrite M; discriminate).
      apply matchAll_outlineNone in H.
      destruct H as (before & ws1 & ws2 & after & -> & _).
      now exists before, (ws1 ++ ":" ++ ws2 ++ "none" ++ after). }
    now rewrite O.
  - now destruct (includes content "outline").
Qed.
